(** * nnscholar-search: the multi-source retrieval layer

    A shallow embedding of [utils/paper_source_manager.py],
    [utils/arxiv_client.py], [utils/pubmed_client.py],
    [utils/semantic_scholar_client.py] and [utils/journal_data.py]; the
    properties of the specification that are about them, and further
    properties of the code.

    Conventions of the embedding.
    - A Python [str] is the list of its code points ([list N]); [lit] reads a
      UTF-8 literal.
    - Python values that travel through dictionaries (JSON documents, paper
      records) are [pyval]; a [dict] keeps its insertion order.  Floats are
      not modelled.
    - An operation that can raise returns a [result]; [try]/[except] is a
      match on it.  Only subclasses of [Exception] are modelled.
    - The network is an oracle [net]: the reply to a request given everything
      the client did before.  What a client does is recorded as a list of
      [event]s, so that "no request is sent" and "three attempts" are
      statements about that list.
    - The [filters] mapping is a record of the keys the code reads, each
      with the type its callers give it (years are integers or [None],
      [sources] is a list of strings).  The manager's loop is also given
      for a [filters] that is any mapping ([AnyFilters]).
    - A retry loop tests its condition as the code does and is given as many
      rounds as it can need; [asyncio.sleep] and the rate limiter only leave
      an event.
    - Library functions whose code is not in the repository (the XML and
      HTML parsers, [int], [str.lower], [fuzz.ratio]) are the fields of the
      class [Lib]; [urllib.parse.quote] is written out.
    - Logging is not modelled. *)

From Stdlib Require Import ZArith NArith String Ascii List Lia.
From stdpp Require Import gmap list.
Import ListNotations.
Local Open Scope Z_scope.
Set Warnings "-register-all".

(* ===================================================================== *)
(** * Python strings *)
(* ===================================================================== *)

Abbreviation str := (list N).

(** UTF-8 decoding of a literal: [acc] is the code point being assembled and
    [k] the number of continuation bytes still expected. *)
Fixpoint utf8_decode (bs : list N) (acc : N) (k : nat) : str :=
  match bs with
  | [] => []
  | b :: bs' =>
      match k with
      | S k' =>
          let acc' := (acc * 64 + b mod 64)%N in
          match k' with
          | O => acc' :: utf8_decode bs' 0%N O
          | _ => utf8_decode bs' acc' k'
          end
      | O =>
          if (b <? 128)%N then b :: utf8_decode bs' 0%N O
          else if (b <? 224)%N then utf8_decode bs' (b mod 32)%N 1%nat
          else if (b <? 240)%N then utf8_decode bs' (b mod 16)%N 2%nat
          else utf8_decode bs' (b mod 8)%N 3%nat
      end
  end.

Definition lit (s : string) : str :=
  utf8_decode (map N_of_ascii (list_ascii_of_string s)) 0%N O.

(** [str.isspace] for one character (CPython's [_PyUnicode_IsWhitespace]). *)
Definition is_space (c : N) : bool :=
  ((9 <=? c) && (c <=? 13) || (28 <=? c) && (c <=? 32)
   || (c =? 133) || (c =? 160) || (c =? 5760)
   || (8192 <=? c) && (c <=? 8202)
   || (c =? 8232) || (c =? 8233) || (c =? 8239) || (c =? 8287)
   || (c =? 12288))%N.

Fixpoint lstrip (s : str) : str :=
  match s with
  | c :: s' => if is_space c then lstrip s' else s
  | [] => []
  end.

Definition rstrip (s : str) : str := rev (lstrip (rev s)).

(** [s.strip()] *)
Definition strip (s : str) : str := rstrip (lstrip s).

(** [s.split()]: the maximal runs of non-whitespace characters.  [cur] is the
    run being read, in order. *)
Fixpoint split_from (cur : str) (s : str) : list str :=
  match s with
  | [] => match cur with [] => [] | _ => [cur] end
  | c :: s' =>
      if is_space c
      then match cur with [] => split_from [] s' | _ => cur :: split_from [] s' end
      else split_from (cur ++ [c]) s'
  end.

Definition str_split (s : str) : list str := split_from [] s.

(** [sep.join(parts)] *)
Fixpoint join (sep : str) (parts : list str) : str :=
  match parts with
  | [] => []
  | [p] => p
  | p :: rest => p ++ sep ++ join sep rest
  end.

Fixpoint starts_with (p s : str) : bool :=
  match p, s with
  | [], _ => true
  | a :: p', b :: s' => (a =? b)%N && starts_with p' s'
  | _ :: _, [] => false
  end.

(** [sub in s] *)
Fixpoint contains (sub s : str) : bool :=
  starts_with sub s ||
  match s with
  | [] => false
  | _ :: s' => contains sub s'
  end.

(** [s.replace(old, new)] for a non-empty [old]: left to right, without
    overlap.  [skip] counts the characters of a match still to be dropped. *)
Fixpoint replace_from (skip : nat) (old new s : str) : str :=
  match s with
  | [] => []
  | c :: s' =>
      match skip with
      | S k => replace_from k old new s'
      | O =>
          if starts_with old s
          then new ++ replace_from (pred (length old)) old new s'
          else c :: replace_from O old new s'
      end
  end.

Definition replace (old new s : str) : str := replace_from O old new s.

(** [s.split(sep)[-1]] for a non-empty [sep]: what follows the last
    occurrence of [sep], the whole of [s] when there is none. *)
Fixpoint after_last_from (skip : nat) (sep cur s : str) : str :=
  match s with
  | [] => cur
  | c :: s' =>
      match skip with
      | S k => after_last_from k sep cur s'
      | O =>
          if starts_with sep s
          then after_last_from (pred (length sep)) sep [] s'
          else after_last_from O sep (cur ++ [c]) s'
      end
  end.

Definition after_last (sep s : str) : str := after_last_from O sep [] s.

(** [str.lower] on an ASCII string. *)
Definition ascii_lower (s : str) : str :=
  map (fun c => if ((65 <=? c) && (c <=? 90))%N then (c + 32)%N else c) s.

(** Decimal digits of a positive number, most significant first.  The fuel
    is the binary size, which bounds the number of decimal digits. *)
Fixpoint digits_of (fuel : nat) (n : N) (acc : str) : str :=
  match fuel with
  | O => acc
  | S fuel' =>
      let acc' := (48 + n mod 10)%N :: acc in
      if (n / 10 =? 0)%N then acc' else digits_of fuel' (n / 10)%N acc'
  end.

(** [str(n)] / [f"{n}"] for an [int]. *)
Definition str_of_int (z : Z) : str :=
  let n := Z.to_N (Z.abs z) in
  let ds := digits_of (S (N.to_nat (N.log2 n))) n [] in
  if z <? 0 then 45%N :: ds else ds.

(** Vocabulary: a string of whitespace only, and one without whitespace. *)
Definition blank (s : str) : Prop := Forall (fun c => is_space c = true) s.
Definition solid (s : str) : Prop := Forall (fun c => is_space c = false) s.

(* ===================================================================== *)
(** * Python values, dictionaries, exceptions *)
(* ===================================================================== *)

Inductive pyval :=
| VNone
| VBool (b : bool)
| VInt (z : Z)
| VStr (s : str)
| VList (l : list pyval)
| VDict (d : list (str * pyval)).

Abbreviation dict := (list (str * pyval)).

(** [bool(v)] *)
Definition truthy (v : pyval) : bool :=
  match v with
  | VNone => false
  | VBool b => b
  | VInt z => negb (z =? 0)
  | VStr s => match s with [] => false | _ => true end
  | VList l => match l with [] => false | _ => true end
  | VDict d => match d with [] => false | _ => true end
  end.

(** [a or b] *)
Definition py_or (a b : pyval) : pyval := if truthy a then a else b.

Definition str_eqb (a b : str) : bool := bool_decide (a = b).

(** [d.get(k, default)] *)
Fixpoint dict_get (d : dict) (k : str) (default : pyval) : pyval :=
  match d with
  | [] => default
  | (k', v) :: d' => if str_eqb k' k then v else dict_get d' k default
  end.

(** [k in d] *)
Definition dict_has (d : dict) (k : str) : bool :=
  existsb (fun kv => str_eqb (fst kv) k) d.

(** [d[k] = v]: the key keeps its place when it is already there. *)
Fixpoint dict_set (d : dict) (k : str) (v : pyval) : dict :=
  match d with
  | [] => [(k, v)]
  | (k', v') :: d' =>
      if str_eqb k' k then (k', v) :: d' else (k', v') :: dict_set d' k v
  end.

Inductive exn_class :=
| AttributeError | TypeError | KeyError | ValueError | UnicodeEncodeError
| ClientError          (* aiohttp.ClientError and its subclasses *)
| TimeoutError         (* asyncio.TimeoutError *)
| RequestException     (* requests.exceptions.RequestException and subclasses *)
| PlainException.      (* Exception(msg) *)

Record exn := Exn { exn_class_of : exn_class; exn_msg : str }.

Inductive result (A : Type) :=
| Ok (a : A)
| Raise (e : exn).
Arguments Ok {A} a.
Arguments Raise {A} e.

Definition bind {A B} (r : result A) (k : A -> result B) : result B :=
  match r with
  | Ok a => k a
  | Raise e => Raise e
  end.

Notation "'let*' x ':=' r 'in' k" := (bind r (fun x => k))
  (at level 10, x name, r at level 100, k at level 200).

Definition no_attribute (ty attr : string) : exn :=
  Exn AttributeError
      (lit "'" ++ lit ty ++ lit "' object has no attribute '" ++ lit attr ++ lit "'").

Definition type_name (v : pyval) : string :=
  match v with
  | VNone => "NoneType" | VBool _ => "bool" | VInt _ => "int"
  | VStr _ => "str" | VList _ => "list" | VDict _ => "dict"
  end.

(** [v.get(k, default)] on an arbitrary value: only a dict has [get]. *)
Definition py_get (v : pyval) (k : str) (default : pyval) : result pyval :=
  match v with
  | VDict d => Ok (dict_get d k default)
  | _ => Raise (no_attribute (type_name v) "get")
  end.

(** [len(v)] followed by [for x in v]: the items the loop visits. *)
Definition py_items (v : pyval) : result (list pyval) :=
  match v with
  | VList l => Ok l
  | VStr s => Ok (map (fun c => VStr [c]) s)
  | VDict d => Ok (map (fun kv => VStr (fst kv)) d)
  | _ => Raise (Exn TypeError
                    (lit "object of type '" ++ lit (type_name v) ++ lit "' has no len()"))
  end.

(** The numeric value of an [int] or [bool] ([bool] is a subclass of [int]). *)
Definition as_int (v : pyval) : option Z :=
  match v with
  | VInt z => Some z
  | VBool b => Some (if b then 1 else 0)
  | _ => None
  end.

(** Hashing for [set] membership.  Equal keys are equal Python values
    ([True == 1]); lists and dicts are unhashable. *)
Abbreviation hkey := (option (Z + str)%type).

Definition hash_key (v : pyval) : result hkey :=
  match v with
  | VNone => Ok None
  | VBool b => Ok (Some (inl (if b then 1 else 0)))
  | VInt z => Ok (Some (inl z))
  | VStr s => Ok (Some (inr s))
  | _ => Raise (Exn TypeError (lit "unhashable type: '" ++ lit (type_name v) ++ lit "'"))
  end.

(* ===================================================================== *)
(** * Filters *)
(* ===================================================================== *)

(** The [filters] mapping, by the keys the code reads; [None] is an absent
    key.  A year is an [int] or Python's [None]. *)
Record filters := {
  f_sources : option (list str);                 (* "sources" *)
  f_year_range : option (option Z * option Z);   (* "year_range" *)
  f_papers_limit : option Z;                     (* "papers_limit" *)
  f_limit : option Z;                            (* "limit" *)
  f_min_citation_count : option Z;               (* "min_citation_count" *)
  f_jcr_quartile : option (list str);            (* "jcr_quartile" *)
  f_cas_quartile : option (list str)             (* "cas_quartile" *)
}.

Definition no_filters : filters :=
  {| f_sources := None; f_year_range := None; f_papers_limit := None;
     f_limit := None; f_min_citation_count := None;
     f_jcr_quartile := None; f_cas_quartile := None |}.

(** [bool(year)] for a year that is an [int] or [None]. *)
Definition year_truthy (y : option Z) : bool :=
  match y with
  | Some z => negb (z =? 0)
  | None => false
  end.

(* ===================================================================== *)
(** * Library functions and the network *)
(* ===================================================================== *)

(** An [xml.etree.ElementTree] element.  Tags are fully qualified, as
    ElementTree stores them. *)
Inductive element :=
| Element (tag : str) (attrib : list (str * str)) (text : option str)
          (children : list element).

(** A BeautifulSoup tree: tags and the strings between them. *)
Inductive node :=
| Tag (name : str) (children : list node)
| NavigableString (s : str).

(** Library functions the clients call and whose code is not part of the
    repository. *)
Class Lib := {
  ET_fromstring : str -> result element;   (* ET.fromstring(content) *)
  BeautifulSoup : str -> result node;      (* BeautifulSoup(content, 'xml') *)
  py_int : str -> result Z;                (* int(s) *)
  py_str : pyval -> str;                   (* str(v), as an f-string applies it *)
  str_lower : str -> str;                  (* s.lower() *)
  str_isdigit : str -> bool;               (* s.isdigit() *)
  is_alnum : N -> bool;                    (* the alphanumeric part of \w *)
  fuzz_ratio : str -> str -> Z             (* fuzzywuzzy.fuzz.ratio *)
}.

(** [f"{v}"]: the library is asked only for the [repr] of a container. *)
Definition fmt `{Lib} (v : pyval) : str :=
  match v with
  | VStr s => s
  | VInt z => str_of_int z
  | VNone => lit "None"
  | VBool b => if b then lit "True" else lit "False"
  | _ => py_str v
  end.

(** [for x in v] *)
Definition py_iter (v : pyval) : result (list pyval) :=
  match v with
  | VList l => Ok l
  | VStr s => Ok (map (fun c => VStr [c]) s)
  | VDict d => Ok (map (fun kv => VStr (fst kv)) d)
  | _ => Raise (Exn TypeError
                    (lit "'" ++ lit (type_name v) ++ lit "' object is not iterable"))
  end.

(** [v[k]] for a string [k] *)
Definition py_getitem (v : pyval) (k : str) : result pyval :=
  match v with
  | VDict d =>
      if dict_has d k then Ok (dict_get d k VNone) else Raise (Exn KeyError k)
  | _ => Raise (Exn TypeError
                    (lit "'" ++ lit (type_name v) ++ lit "' object is not subscriptable"))
  end.

(** [v.lower()] *)
Definition py_lower `{Lib} (v : pyval) : result str :=
  match v with
  | VStr s => Ok (str_lower s)
  | _ => Raise (no_attribute (type_name v) "lower")
  end.

(** [a <= v] and [v < b] for an [int] on one side. *)
Definition int_le_val (a : Z) (v : pyval) : result bool :=
  match as_int v with
  | Some z => Ok (a <=? z)
  | None => Raise (Exn TypeError (lit "'<=' not supported"))
  end.

Definition val_le_int (v : pyval) (b : Z) : result bool :=
  match as_int v with
  | Some z => Ok (z <=? b)
  | None => Raise (Exn TypeError (lit "'<=' not supported"))
  end.

Definition val_lt_int (v : pyval) (b : Z) : result bool :=
  match as_int v with
  | Some z => Ok (z <? b)
  | None => Raise (Exn TypeError (lit "'<' not supported"))
  end.

(** [urllib.parse.quote(s, safe)] *)
Module Url.

Definition always_safe (c : N) : bool :=
  ((65 <=? c) && (c <=? 90) || (97 <=? c) && (c <=? 122)
   || (48 <=? c) && (c <=? 57)
   || (c =? 95) || (c =? 46) || (c =? 45) || (c =? 126))%N.

(** [c.encode('utf-8')]: a lone surrogate cannot be encoded. *)
Definition utf8_encode (c : N) : result (list N) :=
  (if c <? 128 then Ok [c]
   else if c <? 2048 then Ok [192 + c / 64; 128 + c mod 64]
   else if (55296 <=? c) && (c <=? 57343) then
     Raise (Exn UnicodeEncodeError (lit "surrogates not allowed"))
   else if c <? 65536 then
     Ok [224 + c / 4096; 128 + (c / 64) mod 64; 128 + c mod 64]
   else if c <? 1114112 then
     Ok [240 + c / 262144; 128 + (c / 4096) mod 64;
         128 + (c / 64) mod 64; 128 + c mod 64]
   else Raise (Exn UnicodeEncodeError (lit "not a code point")))%N.

Definition hex_digit (n : N) : N := (if n <? 10 then 48 + n else 55 + n)%N.

(** ['%{:02X}'.format(b)] *)
Definition percent (b : N) : str := [37%N; hex_digit (b / 16); hex_digit (b mod 16)].

Definition is_safe (safe : str) (c : N) : bool :=
  ((c <? 128)%N && (always_safe c || existsb (N.eqb c) safe)).

Definition quote_char (safe : str) (c : N) : result str :=
  if is_safe safe c then Ok [c]
  else let* bytes := utf8_encode c in Ok (concat (map percent bytes)).

Fixpoint quote (s : str) (safe : str) : result str :=
  match s with
  | [] => Ok []
  | c :: s' =>
      let* q := quote_char safe c in
      let* rest := quote s' safe in
      Ok (q ++ rest)
  end.

(** ** Vocabulary of the properties: what a percent-encoded string stands for *)

(** The characters that RFC 3986 calls unreserved. *)
Definition unreserved : str :=
  lit "ABCDEFGHIJKLMNOPQRSTUVWXYZabcdefghijklmnopqrstuvwxyz0123456789-._~".

(** A character that is written as it is: an unreserved one or one of
    [kept]. *)
Definition literal (kept : str) (c : N) : bool :=
  existsb (N.eqb c) (unreserved ++ kept).

(** The value of an upper-case hexadecimal digit. *)
Definition hex_value (c : N) : option N :=
  (if (48 <=? c) && (c <=? 57) then Some (c - 48)
   else if (65 <=? c) && (c <=? 70) then Some (c - 55)
   else None)%N.

(** The octets that [s] stands for: a literal character is its own octet,
    a percent sign and two upper-case hexadecimal digits are the octet
    with that value.  [None] when [s] is not of this form: a character
    that is not literal and not escaped, the escape of a literal
    character, an escape that is cut short or has another digit. *)
Fixpoint octets (kept : str) (s : str) : option (list N) :=
  match s with
  | [] => Some []
  | c :: s1 =>
      if (c =? 37)%N then
        match s1 with
        | x :: y :: s2 =>
            match hex_value x, hex_value y with
            | Some h, Some l =>
                let b := (16 * h + l)%N in
                if literal kept b then None
                else option_map (cons b) (octets kept s2)
            | _, _ => None
            end
        | _ => None
        end
      else if literal kept c then option_map (cons c) (octets kept s1)
      else None
  end.

(** The six bits of a continuation octet. *)
Definition continuation (b : N) : option N :=
  (if (128 <=? b) && (b <? 192) then Some (b - 128) else None)%N.

(** The code points that a sequence of octets is the UTF-8 encoding of;
    [None] for a sequence that is cut short, an overlong form, a surrogate
    or a value above U+10FFFF. *)
Fixpoint code_points (bs : list N) : option str :=
  match bs with
  | [] => Some []
  | b :: bs1 =>
      (if b <? 128 then option_map (cons b) (code_points bs1)
       else if b <? 192 then None
       else if b <? 224 then
         match bs1 with
         | b1 :: bs2 =>
             match continuation b1 with
             | Some x1 =>
                 let c := (b - 192) * 64 + x1 in
                 if c <? 128 then None
                 else option_map (cons c) (code_points bs2)
             | None => None
             end
         | _ => None
         end
       else if b <? 240 then
         match bs1 with
         | b1 :: b2 :: bs3 =>
             match continuation b1, continuation b2 with
             | Some x1, Some x2 =>
                 let c := ((b - 224) * 64 + x1) * 64 + x2 in
                 if (c <? 2048) || (55296 <=? c) && (c <=? 57343) then None
                 else option_map (cons c) (code_points bs3)
             | _, _ => None
             end
         | _ => None
         end
       else if b <? 248 then
         match bs1 with
         | b1 :: b2 :: b3 :: bs4 =>
             match continuation b1, continuation b2, continuation b3 with
             | Some x1, Some x2, Some x3 =>
                 let c := (((b - 240) * 64 + x1) * 64 + x2) * 64 + x3 in
                 if (c <? 65536) || (1114112 <=? c) then None
                 else option_map (cons c) (code_points bs4)
             | _, _, _ => None
             end
         | _ => None
         end
       else None)%N
  end.

(** The string that [s] is the percent-encoding of, the characters of
    [kept] being left unescaped. *)
Definition decode (kept : str) (s : str) : option str :=
  match octets kept s with
  | Some bs => code_points bs
  | None => None
  end.

(** How an octet is written in a percent-encoded string. *)
Definition written (kept : str) (b : N) : str :=
  if literal kept b then [b] else percent b.

(** A code point that has a UTF-8 encoding: not a surrogate, and not above
    U+10FFFF. *)
Definition scalar (c : N) : bool :=
  ((c <? 55296) || (57343 <? c) && (c <? 1114112))%N.

Definition encodable (s : str) : Prop := Forall (fun c => scalar c = true) s.

End Url.

Record request := { rq_url : str; rq_params : dict }.

(** A response: its status, [text()] and what [json()] gives. *)
Record response := { status : Z; text : str; json : result pyval }.

Inductive event :=
| Request (r : request)      (* session.get(...) *)
| Sleep (seconds : Z)        (* asyncio.sleep / time.sleep in a retry loop *)
| RateLimit.                 (* _wait_for_rate_limit() *)

Abbreviation trace := (list event).

(** The network: the reply to a request, or the exception [session.get]
    raises, given what the client did so far. *)
Definition network := trace -> request -> result response.

Definition session_get (net : network) (r : request) (tr : trace)
  : result response * trace :=
  (net tr r, tr ++ [Request r]).

Definition requests_of (tr : trace) : list request :=
  flat_map (fun e => match e with Request r => [r] | _ => [] end) tr.

(** Vocabulary: a server that answers HTTP 429 to every request. *)
Definition rate_limited (net : network) : Prop :=
  forall tr rq, exists r, net tr rq = Ok r /\ status r = 429.

(** Vocabulary: a stretch of trace made of requests [rq] and waits of 30
    seconds, as a retry loop leaves it. *)
Definition attempts (rq : request) (new : trace) : Prop :=
  Forall (fun e => e = Request rq \/ e = Sleep 30) new.

(** How a [while] loop with [return] statements in it ends.  The loops are
    given a number of rounds; [Unfinished] is a loop whose condition still
    holds when the rounds are used up. *)
Inductive loop_end (A : Type) :=
| Returned (a : A)     (* a [return] inside the loop *)
| Done                 (* the loop condition failed: control goes on after it *)
| Raised (e : exn)     (* an exception left the loop *)
| Unfinished.
Arguments Returned {A} a.
Arguments Done {A}.
Arguments Raised {A} e.
Arguments Unfinished {A}.

Definition default_metrics_rec : dict :=
  [(lit "impact_factor", VStr (lit "N/A"));
   (lit "jcr_quartile", VStr (lit "N/A"));
   (lit "cas_quartile", VStr (lit "N/A"))].

(* ===================================================================== *)
(** * utils/arxiv_client.py *)
(* ===================================================================== *)

Definition opt_str (o : option str) : pyval :=
  match o with
  | Some s => VStr s
  | None => VNone
  end.

(** [o.attr] when [o] may be [None]. *)
Definition need {A} (o : option A) (attr : string) : result A :=
  match o with
  | Some a => Ok a
  | None => Raise (no_attribute "NoneType" attr)
  end.

Definition na_journal_info (title : pyval) : pyval :=
  VDict [(lit "title", title);
         (lit "impact_factor", VStr (lit "N/A"));
         (lit "jcr_quartile", VStr (lit "N/A"));
         (lit "cas_quartile", VStr (lit "N/A"))].

(** [papers[0] if papers else {}] *)
Definition first_or_empty (papers : list dict) : dict :=
  match papers with
  | paper :: _ => paper
  | [] => []
  end.

Module Arxiv.

Record ArxivClient := {
  base_url : str;
  headers : dict;
  request_interval : Z;
  last_request_time : Z
}.

(** [ArxivClient()] *)
Definition new : ArxivClient :=
  {| base_url := lit "http://export.arxiv.org/api/query";
     headers := [(lit "Content-Type", VStr (lit "application/xml"))];
     request_interval := 3;
     last_request_time := 0 |}.

Definition advanced_syntax : list str :=
  [lit "ti:"; lit "abs:"; lit "au:"; lit "cat:"; lit "AND"; lit "OR"; lit "ANDNOT"].

Definition operators : list str := [lit "AND"; lit "OR"; lit "ANDNOT"].

(** [query.replace(f' {op.lower()} ', f' {op} ')] *)
Definition upper_case_operator (query op : str) : str :=
  replace (lit " " ++ ascii_lower op ++ lit " ") (lit " " ++ op ++ lit " ") query.

Definition quoted (s : str) : str := [34%N] ++ s ++ [34%N].

Definition safe_chars : str := lit ":" ++ [34%N] ++ lit "()[]+-".

(** The part of [_build_search_query] before the year filter. *)
Definition search_query_of (query : str) : str :=
  if existsb (fun prefix => contains prefix query) advanced_syntax then
    fold_left upper_case_operator operators query
  else
    let terms :=
      List.filter (fun term => truthy (VStr (strip term))) (str_split query) in
    let terms := map strip terms in
    match terms with
    | [term] => lit "(ti:" ++ term ++ lit " OR abs:" ++ term ++ lit ")"
    | _ =>
        let phrase := join (lit " ") terms in
        lit "(ti:" ++ quoted phrase ++ lit " OR abs:" ++ quoted phrase ++ lit ")"
    end.

(** The year filter of [_build_search_query]. *)
Definition date_filter_of (f : filters) : str :=
  match f_year_range f with
  | Some (start_year, end_year) =>
      match start_year, end_year with
      | Some s, Some e =>
          if year_truthy start_year && year_truthy end_year && (s <=? e) then
            let start_date := str_of_int s ++ lit "01010000" in
            let end_date := str_of_int e ++ lit "12312359" in
            lit " AND submittedDate:[" ++ start_date ++ lit " TO " ++ end_date ++ lit "]"
          else []
      | _, _ => []
      end
  | None => []
  end.

Definition _build_search_query (self : ArxivClient) (query : str) (f : filters)
  : result str :=
  let query := strip query in
  let search_query := search_query_of query in
  let search_query := search_query ++ date_filter_of f in
  Url.quote search_query safe_chars.

(** Vocabulary of the properties: a query without field prefix or
    operator, the two plain forms, the date clause. *)
Definition plain (query : str) : Prop :=
  Forall (fun marker => contains marker query = false) advanced_syntax.

Definition single_word_form (word : str) : str :=
  lit "(ti:" ++ word ++ lit " OR abs:" ++ word ++ lit ")".

Definition phrase_form (phrase : str) : str :=
  lit "(ti:" ++ quoted phrase ++ lit " OR abs:" ++ quoted phrase ++ lit ")".

Definition submitted_clause (s e : Z) : str :=
  lit " AND submittedDate:[" ++ str_of_int s ++ lit "01010000 TO "
    ++ str_of_int e ++ lit "12312359]".

(** [year_range = (s, e)] with both years truthy and [s <= e]. *)
Definition valid_range (f : filters) (s e : Z) : Prop :=
  f_year_range f = Some (Some s, Some e) /\ s <> 0 /\ e <> 0 /\ s <= e.

(** ** The Atom parser *)

Definition el_tag (e : element) : str := let 'Element t _ _ _ := e in t.
Definition el_attrib (e : element) : list (str * str) := let 'Element _ a _ _ := e in a.
Definition el_text (e : element) : option str := let 'Element _ _ t _ := e in t.
Definition el_children (e : element) : list element := let 'Element _ _ _ c := e in c.

Definition atom (name : string) : str :=
  lit "{http://www.w3.org/2005/Atom}" ++ lit name.
Definition arxiv (name : string) : str :=
  lit "{http://arxiv.org/schemas/atom}" ++ lit name.

(** [e.findall(tag, ns)]: the direct children with that tag. *)
Definition findall (tag : str) (e : element) : list element :=
  List.filter (fun c => str_eqb (el_tag c) tag) (el_children e).

(** [e.find(tag, ns)] *)
Definition find (tag : str) (e : element) : option element :=
  head (findall tag e).

(** [e.get(key)] *)
Fixpoint attr_get (a : list (str * str)) (key : str) : option str :=
  match a with
  | [] => None
  | (k, v) :: a' => if str_eqb k key then Some v else attr_get a' key
  end.

(** [e.find(tag, ns).text] *)
Definition find_text (tag : str) (e : element) : result (option str) :=
  let* c := need (find tag e) "text" in Ok (el_text c).

Definition pdf_link (links : list element) : option element :=
  head (List.filter (fun link =>
                  bool_decide (attr_get (el_attrib link) (lit "title") = Some (lit "pdf")))
               links).

Definition parse_author (author : element) : result pyval :=
  let* name := find_text (atom "name") author in
  let affiliation := find (arxiv "affiliation") author in
  Ok (VDict [(lit "name", opt_str name);
             (lit "affiliation",
              match affiliation with
              | Some a => opt_str (el_text a)
              | None => VNone
              end)]).

Fixpoint parse_authors (authors : list element) : result (list pyval) :=
  match authors with
  | [] => Ok []
  | a :: rest =>
      let* info := parse_author a in
      let* infos := parse_authors rest in
      Ok (info :: infos)
  end.

(** The body of the inner [try] of [_parse_response]: one entry. *)
Definition parse_entry `{Lib} (entry : element) : result dict :=
  let* id_text := find_text (atom "id") entry in
  let* id_str := need id_text "split" in
  let* title_text := find_text (atom "title") entry in
  let* title_str := need title_text "strip" in
  let* summary_text := find_text (atom "summary") entry in
  let* summary_str := need summary_text "strip" in
  let* url := find_text (atom "id") entry in
  let paper : dict :=
    [(lit "id", VStr (after_last (lit "abs/") id_str));
     (lit "title", VStr (strip title_str));
     (lit "abstract", VStr (strip summary_str));
     (lit "url", opt_str url);
     (lit "pdf_url", VNone);
     (lit "authors", VList []);
     (lit "journal_info", na_journal_info (VStr (lit "arXiv")))] in
  let paper :=
    match pdf_link (findall (atom "link") entry) with
    | Some link =>
        dict_set paper (lit "pdf_url") (opt_str (attr_get (el_attrib link) (lit "href")))
    | None => paper
    end in
  let* authors := parse_authors (findall (atom "author") entry) in
  let paper := dict_set paper (lit "authors") (VList authors) in
  let* paper :=
    match find (atom "published") entry with
    | Some published =>
        match el_text published with
        | Some t =>
            let* year := py_int (firstn 4 t) in
            Ok (dict_set paper (lit "year") (VInt year))
        | None =>
            Raise (Exn TypeError (lit "'NoneType' object is not subscriptable"))
        end
    | None => Ok paper
    end in
  match find (arxiv "primary_category") entry with
  | Some primary_category =>
      Ok (dict_set paper (lit "primary_category")
                   (opt_str (attr_get (el_attrib primary_category) (lit "term"))))
  | None => Ok paper
  end.

(** [for entry in ...: try: ... except Exception: continue] *)
Fixpoint parse_entries `{Lib} (entries : list element) : list dict :=
  match entries with
  | [] => []
  | entry :: rest =>
      match parse_entry entry with
      | Ok paper => paper :: parse_entries rest
      | Raise _ => parse_entries rest
      end
  end.

Definition _parse_response `{Lib} (content : str) : list dict :=
  match ET_fromstring content with
  | Ok root => parse_entries (findall (atom "entry") root)
  | Raise _ => []
  end.

(** ** The search *)

Definition max_retries : Z := 3.

Definition is_client_error (e : exn) : bool :=
  match exn_class_of e with
  | ClientError => true
  | _ => false
  end.

(** The [while retry_count < max_retries] loop, for at most [rounds]
    rounds.  Every round that stays in the loop adds one to [retry_count],
    so [max_retries] rounds are enough. *)
Fixpoint retry_loop `{Lib} (net : network) (rq : request)
    (rounds : nat) (retry_count : Z) (tr : trace)
  : loop_end (list dict) * trace :=
  if retry_count <? max_retries then
    match rounds with
    | O => (Unfinished, tr)
    | S rounds' =>
        match session_get net rq tr with
        | (Ok response, tr1) =>
            let content := text response in
            if status response =? 200 then
              (Returned (_parse_response content), tr1)
            else if status response =? 400 then (Returned [], tr1)
            else if status response =? 429 then
              let retry_count := retry_count + 1 in
              let wait_time := 30 in
              retry_loop net rq rounds' retry_count (tr1 ++ [Sleep wait_time])
            else (Returned [], tr1)
        | (Raise e, tr1) =>
            if is_client_error e then
              let retry_count := retry_count + 1 in
              if retry_count <? max_retries then
                retry_loop net rq rounds' retry_count (tr1 ++ [Sleep 5])
              else (Returned [], tr1)
            else (Raised e, tr1)
        end
    end
  else (Done, tr).

Definition papers_limit (f : filters) : Z :=
  Z.min (match f_papers_limit f with Some n => n | None => 100 end) 100.

(** [search_papers]; [None] is Python's [None], which a function returns
    when it ends without a [return]. *)
Definition search_papers `{Lib} (net : network) (self : ArxivClient)
    (query : str) (f : filters) (tr : trace) : option (list dict) * trace :=
  if negb (truthy (VStr (strip query))) then (Some [], tr)
  else
    match _build_search_query self query f with
    | Raise _ => (Some [], tr)
    | Ok search_query =>
        let params : dict :=
          [(lit "search_query", VStr search_query);
           (lit "start", VInt 0);
           (lit "max_results", VInt (papers_limit f));
           (lit "sortBy", VStr (lit "submittedDate"));
           (lit "sortOrder", VStr (lit "descending"))] in
        let rq := {| rq_url := base_url self; rq_params := params |} in
        let tr := tr ++ [RateLimit] in
        match retry_loop net rq (Z.to_nat max_retries) 0 tr with
        | (Returned papers, tr') => (Some papers, tr')
        | (Done, tr') => (None, tr')
        | (Raised _, tr') => (Some [], tr')
        | (Unfinished, tr') => (Some [], tr')     (* does not happen *)
        end
    end.

Definition get_source_name : str := lit "arxiv".

(** ** [get_paper_details] *)

Definition get_paper_details `{Lib} (net : network) (self : ArxivClient)
    (paper_id : str) (tr : trace) : dict * trace :=
  let params : dict :=
    [(lit "id_list", VStr paper_id);
     (lit "max_results", VInt 1)] in
  let rq := {| rq_url := base_url self; rq_params := params |} in
  match session_get net rq tr with
  | (Ok response, tr1) =>
      if status response =? 200 then
        let content := text response in
        let papers := _parse_response content in
        (first_or_empty papers, tr1)
      else ([], tr1)
  | (Raise _, tr1) => ([], tr1)
  end.

(** Vocabulary: the characters an encoded query is made of, which are the
    unreserved ones, those of [safe] and the percent sign. *)
Definition url_char (c : N) : bool :=
  Url.always_safe c || existsb (N.eqb c) safe_chars || (c =? 37)%N.

(** Vocabulary: the request [search_papers] sends for an encoded query. *)
Definition search_request (self : ArxivClient) (search_query : str) (f : filters)
  : request :=
  {| rq_url := base_url self;
     rq_params := [(lit "search_query", VStr search_query);
                   (lit "start", VInt 0);
                   (lit "max_results", VInt (papers_limit f));
                   (lit "sortBy", VStr (lit "submittedDate"));
                   (lit "sortOrder", VStr (lit "descending"))] |}.

(** Vocabulary: a network on which every request fails with an
    [aiohttp.ClientError]. *)
Definition unreachable (net : network) : Prop :=
  forall tr rq, exists e, net tr rq = Raise e /\ is_client_error e = true.

(** Vocabulary: the entry has a child [tag], and the child has a text. *)
Definition has_text (tag : str) (e : element) : bool :=
  match find tag e with
  | Some c => match el_text c with Some _ => true | None => false end
  | None => false
  end.

(** Vocabulary: an entry with an id, a title and a summary that have
    texts, whose authors all have a name element, and whose publication
    date, if there is one, begins with a year that [int] reads. *)
Definition readable_entry `{Lib} (entry : element) : bool :=
  has_text (atom "id") entry && has_text (atom "title") entry
  && has_text (atom "summary") entry
  && forallb (fun author => match find (atom "name") author with
                            | Some _ => true
                            | None => false
                            end)
             (findall (atom "author") entry)
  && match find (atom "published") entry with
     | Some published =>
         match el_text published with
         | Some t => match py_int (firstn 4 t) with Ok _ => true | Raise _ => false end
         | None => false
         end
     | None => true
     end.

End Arxiv.

(* ===================================================================== *)
(** * utils/pubmed_client.py *)
(* ===================================================================== *)

Module PubMed.

Record PubMedClient := {
  base_url : str;
  api_key : option str;
  headers : dict;
  request_interval : Z;
  last_request_time : Z
}.

(** [PubMedClient(api_key)] *)
Definition new (api_key : option str) : PubMedClient :=
  {| base_url := lit "https://eutils.ncbi.nlm.nih.gov/entrez/eutils";
     api_key := api_key;
     headers := [(lit "Content-Type", VStr (lit "application/xml"))];
     request_interval := 3;
     last_request_time := 0 |}.

(** ** BeautifulSoup trees *)

(** The tags below a node, in document order. *)
Fixpoint descendants (n : node) : list node :=
  match n with
  | NavigableString _ => []
  | Tag _ children =>
      (fix below (l : list node) : list node :=
         match l with
         | [] => []
         | c :: l' =>
             match c with
             | Tag _ _ => c :: descendants c
             | NavigableString _ => []
             end ++ below l'
         end) children
  end.

Definition named (name : str) (n : node) : bool :=
  match n with
  | Tag name' _ => str_eqb name' name
  | NavigableString _ => false
  end.

(** [n.find_all(name)] *)
Definition find_all (name : string) (n : node) : list node :=
  List.filter (named (lit name)) (descendants n).

(** [n.find(name)]; a tag that is found is truthy. *)
Definition find (name : string) (n : node) : option node :=
  head (find_all name n).

(** [n.text]: all the strings below [n], joined. *)
Fixpoint text_of (n : node) : str :=
  match n with
  | NavigableString s => s
  | Tag _ children =>
      (fix texts (l : list node) : str :=
         match l with
         | [] => []
         | c :: l' => text_of c ++ texts l'
         end) children
  end.

(** ** The parsers *)

Definition _parse_search_response `{Lib} (content : str) : list str :=
  match BeautifulSoup content with
  | Ok soup => map text_of (find_all "Id" soup)
  | Raise _ => []
  end.

Definition parse_author (author : node) : list pyval :=
  match find "LastName" author, find "ForeName" author with
  | Some last_name, Some fore_name =>
      [VDict [(lit "name", VStr (text_of last_name ++ lit " " ++ text_of fore_name));
              (lit "affiliation", VNone)]]
  | _, _ => []
  end.

(** [paper['journal_info']['title'] = v] *)
Definition set_journal_title (paper : dict) (v : pyval) : dict :=
  match dict_get paper (lit "journal_info") VNone with
  | VDict info => dict_set paper (lit "journal_info") (VDict (dict_set info (lit "title") v))
  | _ => paper
  end.

(** The body of the inner [try] of [_parse_papers_details]: one article. *)
Definition parse_article `{Lib} (article : node) : result dict :=
  let paper : dict :=
    [(lit "id",
      match find "PMID" article with
      | Some pmid => VStr (text_of pmid)
      | None => VNone
      end);
     (lit "title",
      match find "ArticleTitle" article with
      | Some t => VStr (text_of t)
      | None => VStr (lit "No title available")
      end);
     (lit "abstract",
      match find "Abstract" article with
      | Some a => VStr (text_of a)
      | None => VStr (lit "No abstract available")
      end);
     (lit "url", VNone);
     (lit "pdf_url", VNone);
     (lit "authors", VList []);
     (lit "journal_info", na_journal_info VNone)] in
  let paper :=
    let id := dict_get paper (lit "id") VNone in
    if truthy id then
      dict_set paper (lit "url")
        (VStr (lit "https://pubmed.ncbi.nlm.nih.gov/" ++ fmt id ++ lit "/"))
    else paper in
  let paper :=
    match find "AuthorList" article with
    | Some author_list =>
        dict_set paper (lit "authors")
          (VList (flat_map parse_author (find_all "Author" author_list)))
    | None => paper
    end in
  let paper :=
    match find "Journal" article with
    | Some journal =>
        match find "Title" journal with
        | Some journal_title => set_journal_title paper (VStr (text_of journal_title))
        | None => paper
        end
    | None => paper
    end in
  match find "PubDate" article with
  | Some pub_date =>
      match find "Year" pub_date with
      | Some year =>
          let* y := py_int (text_of year) in
          Ok (dict_set paper (lit "year") (VInt y))
      | None => Ok paper
      end
  | None => Ok paper
  end.

Fixpoint parse_articles `{Lib} (articles : list node) : list dict :=
  match articles with
  | [] => []
  | article :: rest =>
      match parse_article article with
      | Ok paper => paper :: parse_articles rest
      | Raise _ => parse_articles rest
      end
  end.

Definition _parse_papers_details `{Lib} (content : str) : list dict :=
  match BeautifulSoup content with
  | Ok soup => parse_articles (find_all "PubmedArticle" soup)
  | Raise _ => []
  end.

(** ** The search *)

Definition with_api_key (self : PubMedClient) (params : dict) : dict :=
  match api_key self with
  | Some k => if truthy (VStr k) then dict_set params (lit "api_key") (VStr k) else params
  | None => params
  end.

Definition _fetch_papers_details `{Lib} (net : network) (self : PubMedClient)
    (id_list : list str) (tr : trace) : list dict * trace :=
  let params : dict :=
    with_api_key self
      [(lit "db", VStr (lit "pubmed"));
       (lit "id", VStr (join (lit ",") id_list));
       (lit "retmode", VStr (lit "xml"))] in
  let rq := {| rq_url := base_url self ++ lit "/efetch.fcgi"; rq_params := params |} in
  match session_get net rq tr with
  | (Ok response, tr1) =>
      if status response =? 200 then (_parse_papers_details (text response), tr1)
      else ([], tr1)
  | (Raise _, tr1) => ([], tr1)
  end.

Definition retmax (f : filters) : Z :=
  Z.min (match f_papers_limit f with Some n => n | None => 100 end) 100.

(** [params["term"]] after the year filter. *)
Definition term_of (query : str) (f : filters) : str :=
  match f_year_range f with
  | Some (start_year, end_year) =>
      match start_year, end_year with
      | Some s, Some e =>
          if year_truthy start_year && year_truthy end_year then
            query ++ lit " AND " ++ str_of_int s ++ lit ":" ++ str_of_int e ++ lit "[dp]"
          else query
      | _, _ => query
      end
  | None => query
  end.

Definition search_papers `{Lib} (net : network) (self : PubMedClient)
    (query : str) (f : filters) (tr : trace) : list dict * trace :=
  let params : dict :=
    [(lit "db", VStr (lit "pubmed"));
     (lit "term", VStr query);
     (lit "retmax", VInt (retmax f));
     (lit "retmode", VStr (lit "xml"))] in
  let params := with_api_key self params in
  let params := dict_set params (lit "term") (VStr (term_of query f)) in
  let rq := {| rq_url := base_url self ++ lit "/esearch.fcgi"; rq_params := params |} in
  match session_get net rq tr with
  | (Ok response, tr1) =>
      if status response =? 200 then
        let id_list := _parse_search_response (text response) in
        match id_list with
        | [] => ([], tr1)
        | _ => _fetch_papers_details net self id_list tr1
        end
      else ([], tr1)
  | (Raise _, tr1) => ([], tr1)
  end.

Definition get_source_name : str := lit "pubmed".

(** ** [get_paper_details] *)

Definition get_paper_details `{Lib} (net : network) (self : PubMedClient)
    (paper_id : str) (tr : trace) : dict * trace :=
  let '(papers, tr1) := _fetch_papers_details net self [paper_id] tr in
  (first_or_empty papers, tr1).

(** Vocabulary: the two requests of a search, for the query and for the
    ids found. *)
Definition search_request (self : PubMedClient) (query : str) (f : filters) : request :=
  {| rq_url := base_url self ++ lit "/esearch.fcgi";
     rq_params :=
       dict_set
         (with_api_key self
            [(lit "db", VStr (lit "pubmed"));
             (lit "term", VStr query);
             (lit "retmax", VInt (retmax f));
             (lit "retmode", VStr (lit "xml"))])
         (lit "term") (VStr (term_of query f)) |}.

Definition fetch_request (self : PubMedClient) (id_list : list str) : request :=
  {| rq_url := base_url self ++ lit "/efetch.fcgi";
     rq_params :=
       with_api_key self
         [(lit "db", VStr (lit "pubmed"));
          (lit "id", VStr (join (lit ",") id_list));
          (lit "retmode", VStr (lit "xml"))] |}.

(** Vocabulary: a server whose reply to a request depends on its URL
    only, not on its parameters nor on what was asked before. *)
Definition ignores_parameters (net : network) : Prop :=
  forall tr tr' rq rq', rq_url rq = rq_url rq' -> net tr rq = net tr' rq'.

(** Vocabulary: an article whose publication year, if it has one, is a
    text that [int] reads. *)
Definition readable_article `{Lib} (article : node) : bool :=
  match find "PubDate" article with
  | Some pub_date =>
      match find "Year" pub_date with
      | Some year => match py_int (text_of year) with Ok _ => true | Raise _ => false end
      | None => true
      end
  | None => true
  end.

End PubMed.

(* ===================================================================== *)
(** * utils/semantic_scholar_client.py *)
(* ===================================================================== *)

Module Scholar.

Record SemanticScholarClient := {
  base_url : str;
  headers : dict;
  request_interval : Z;
  last_request_time : Z;
  journal_data : dict          (* ISSN -> journal record, in table order *)
}.

(** [SemanticScholarClient(api_key, journal_data)] *)
Definition new (api_key : option str) (journal_data : dict) : SemanticScholarClient :=
  {| base_url := lit "https://api.semanticscholar.org/graph/v1";
     headers :=
       (lit "Content-Type", VStr (lit "application/json")) ::
       match api_key with
       | Some k => if truthy (VStr k) then [(lit "x-api-key", VStr k)] else []
       | None => []
       end;
     request_interval := 3;
     last_request_time := 0;
     journal_data := journal_data |}.

Definition _get_default_metrics : dict := default_metrics_rec.

(** ** [get_journal_metrics], the definition at the end of the class

    The class body defines [get_journal_metrics] twice; the name is bound
    to the later definition, which is the one [search_papers] calls. *)

Fixpoint find_exact `{Lib} (values : list pyval) (journal_name : pyval)
  : result (option dict) :=
  match values with
  | [] => Ok None
  | journal_info :: rest =>
      let* title := py_getitem journal_info (lit "title") in
      let* a := py_lower title in
      let* b := py_lower journal_name in
      if str_eqb a b then
        let* impact := py_get journal_info (lit "if") (VStr (lit "N/A")) in
        let* jcr := py_get journal_info (lit "jcr_quartile") (VStr (lit "N/A")) in
        let* cas := py_get journal_info (lit "cas_quartile") (VStr (lit "N/A")) in
        Ok (Some [(lit "impact_factor", impact);
                  (lit "jcr_quartile", jcr);
                  (lit "cas_quartile", cas)])
      else find_exact rest journal_name
  end.

Definition get_journal_metrics `{Lib} (self : SemanticScholarClient)
    (journal_name : pyval) : dict :=
  if negb (truthy journal_name) || negb (truthy (VDict (journal_data self))) then
    _get_default_metrics
  else
    match find_exact (map snd (journal_data self)) journal_name with
    | Ok (Some metrics) => metrics
    | Ok None => _get_default_metrics
    | Raise _ => _get_default_metrics
    end.

(** ** [get_journal_metrics], the earlier definition (shadowed) *)

Definition is_word `{Lib} (c : N) : bool := (is_alnum c || (c =? 95)%N).

Definition normalize_journal_name `{Lib} (name : pyval) : result str :=
  if negb (truthy name) then Ok []
  else
    let* name := py_lower name in
    let name := List.filter (fun c => is_word c || is_space c) name in   (* re.sub *)
    Ok (join (lit " ") (str_split name)).

Definition skip_sources : list str :=
  [lit "arxiv"; lit "unknown"; lit "conference"; lit "symposium";
   lit "proceedings"; lit "dissertation"].

(** The [for issn, journal_info in self.journal_data.items()] loop. *)
Fixpoint best_of `{Lib} (items : list pyval) (journal_name : str)
    (best_match : option pyval) (best_ratio : Z) : result (option pyval * Z) :=
  match items with
  | [] => Ok (best_match, best_ratio)
  | journal_info :: rest =>
      let* title := py_getitem journal_info (lit "title") in
      let* db_journal_name := normalize_journal_name title in
      let ratio := fuzz_ratio journal_name db_journal_name in
      if (85 <? ratio) && (best_ratio <? ratio)
      then best_of rest journal_name (Some journal_info) ratio
      else best_of rest journal_name best_match best_ratio
  end.

Definition metrics_of_match `{Lib} (best_match : pyval) : result dict :=
  let* cas_quartile := py_get best_match (lit "cas_quartile") (VStr (lit "N/A")) in
  let* cas_quartile :=
    match cas_quartile with
    | VStr s => Ok (VStr (if str_isdigit s then lit "B" ++ s else s))
    | _ => Raise (no_attribute (type_name cas_quartile) "isdigit")
    end in
  let* impact := py_get best_match (lit "if") (VStr (lit "N/A")) in
  let* jcr := py_get best_match (lit "jcr_quartile") (VStr (lit "N/A")) in
  Ok [(lit "impact_factor", impact);
      (lit "jcr_quartile", jcr);
      (lit "cas_quartile", cas_quartile)].

Definition get_journal_metrics_shadowed `{Lib} (self : SemanticScholarClient)
    (journal_name : pyval) : dict :=
  if negb (truthy journal_name) || negb (truthy (VDict (journal_data self))) then
    _get_default_metrics
  else
    let r :=
      let* journal_name := normalize_journal_name journal_name in
      if existsb (fun source => contains source journal_name) skip_sources then
        Ok _get_default_metrics
      else
        let* best := best_of (map snd (journal_data self)) journal_name None 0 in
        match fst best with
        | Some best_match =>
            if truthy best_match then metrics_of_match best_match
            else Ok _get_default_metrics
        | None => Ok _get_default_metrics
        end in
    match r with
    | Ok metrics => metrics
    | Raise _ => _get_default_metrics
    end.

(** ** [_apply_filters] *)

Definition passes_year (paper : dict) (f : filters) : result bool :=
  match f_year_range f with
  | Some (start_year, end_year) =>
      match start_year, end_year with
      | Some s, Some e =>
          if year_truthy start_year && year_truthy end_year then
            let paper_year := dict_get paper (lit "year") VNone in
            if negb (truthy paper_year) then Ok false
            else
              let* lo := int_le_val s paper_year in
              if lo then val_le_int paper_year e else Ok false
          else Ok true
      | _, _ => Ok true
      end
  | None => Ok true
  end.

Definition passes_citations (paper : dict) (f : filters) : result bool :=
  match f_min_citation_count f with
  | Some min_cites =>
      let* below := val_lt_int (dict_get paper (lit "citationCount") (VInt 0)) min_cites in
      Ok (negb below)
  | None => Ok true
  end.

(** [paper["journal_info"][key] in wanted], when the filter is there and
    not empty. *)
Definition passes_quartile (paper : dict) (key : str) (wanted : option (list str))
  : result bool :=
  match wanted with
  | Some (w :: ws) =>
      let* info := py_getitem (VDict paper) (lit "journal_info") in
      let* paper_quartile := py_getitem info key in
      match paper_quartile with
      | VStr q => Ok (existsb (str_eqb q) (w :: ws))
      | _ => Ok false
      end
  | _ => Ok true
  end.

Definition _apply_filters (paper : dict) (f : filters) : bool :=
  let r :=
    let* ok := passes_year paper f in
    if negb ok then Ok false else
    let* ok := passes_citations paper f in
    if negb ok then Ok false else
    let* ok := passes_quartile paper (lit "jcr_quartile") (f_jcr_quartile f) in
    if negb ok then Ok false else
    let* ok := passes_quartile paper (lit "cas_quartile") (f_cas_quartile f) in
    if negb ok then Ok false else Ok true in
  match r with
  | Ok b => b
  | Raise _ => false
  end.

(** ** [search_papers], the [async] definition (the one the class keeps) *)

Definition author_entry (author : pyval) : list pyval :=
  match author with
  | VDict d =>
      if truthy (dict_get d (lit "name") VNone)
      then [VDict [(lit "name", dict_get d (lit "name") VNone)]]
      else []
  | _ => []
  end.

(** The body of the [try] inside [for paper in papers], up to the filter. *)
Definition process_paper `{Lib} (self : SemanticScholarClient) (paper : pyval)
  : result dict :=
  let* venue := py_get paper (lit "venue") VNone in
  let* venue_name :=
    if truthy venue then Ok venue
    else
      let* pv := py_get paper (lit "publicationVenue") (VDict []) in
      let* name := py_get (py_or pv (VDict [])) (lit "name") VNone in
      Ok (py_or name (VStr (lit "Unknown"))) in
  let journal_metrics := get_journal_metrics self venue_name in
  let* authors_field := py_get paper (lit "authors") (VList []) in
  let* authors_items := py_iter authors_field in
  let authors := flat_map author_entry authors_items in
  let* paper_id := py_get paper (lit "paperId") (VStr []) in
  let* title := py_get paper (lit "title") (VStr []) in
  let* abstract := py_get paper (lit "abstract") (VStr []) in
  let* year := py_get paper (lit "year") VNone in
  let* citations := py_get paper (lit "citationCount") (VInt 0) in
  let* pdf := py_get paper (lit "openAccessPdf") (VDict []) in
  let* pdf_url := py_get (py_or pdf (VDict [])) (lit "url") VNone in
  Ok [(lit "id", paper_id);
      (lit "title", title);
      (lit "abstract", abstract);
      (lit "year", year);
      (lit "citationCount", citations);
      (lit "authors", VList authors);
      (lit "url", VStr (lit "https://www.semanticscholar.org/paper/" ++ fmt paper_id));
      (lit "pdf_url", pdf_url);
      (lit "journal_info",
       VDict [(lit "title", venue_name);
              (lit "impact_factor",
               dict_get journal_metrics (lit "impact_factor") (VStr (lit "N/A")));
              (lit "jcr_quartile",
               dict_get journal_metrics (lit "jcr_quartile") (VStr (lit "N/A")));
              (lit "cas_quartile",
               dict_get journal_metrics (lit "cas_quartile") (VStr (lit "N/A")))])].

Fixpoint process_papers `{Lib} (self : SemanticScholarClient) (f : filters)
    (papers : list pyval) : list dict :=
  match papers with
  | [] => []
  | paper :: rest =>
      match process_paper self paper with
      | Ok processed_paper =>
          if _apply_filters processed_paper f
          then processed_paper :: process_papers self f rest
          else process_papers self f rest
      | Raise _ => process_papers self f rest
      end
  end.

Definition max_retries : Z := 3.

(** What a status-200 response turns into. *)
Definition read_page `{Lib} (self : SemanticScholarClient) (f : filters)
    (response : response) : result (list dict) :=
  let* data := json response in
  let* papers := py_get data (lit "data") (VList []) in
  let* items := py_iter papers in
  Ok (process_papers self f items).

(** The [while retry_count < max_retries] loop, for at most [rounds]
    rounds; every round that stays in the loop adds one to [retry_count],
    so [max_retries] rounds are enough. *)
Fixpoint retry_loop `{Lib} (net : network) (self : SemanticScholarClient)
    (f : filters) (rq : request) (rounds : nat) (retry_count : Z)
    (tr : trace) : loop_end (list dict) * trace :=
  if retry_count <? max_retries then
    match rounds with
    | O => (Unfinished, tr)
    | S rounds' =>
        let on_error (tr1 : trace) :=
          if max_retries - 1 <=? retry_count then (Returned [], tr1)
          else retry_loop net self f rq rounds' (retry_count + 1)
                          (tr1 ++ [Sleep 30]) in
        match session_get net rq tr with
        | (Ok response, tr1) =>
            if status response =? 429 then
              retry_loop net self f rq rounds' (retry_count + 1)
                         (tr1 ++ [Sleep 30])
            else if status response =? 200 then
              match read_page self f response with
              | Ok processed_papers => (Returned processed_papers, tr1)
              | Raise _ => on_error tr1
              end
            else on_error tr1
        | (Raise _, tr1) => on_error tr1
        end
    end
  else (Done, tr).

Definition limit_of (f : filters) : Z :=
  Z.min (match f_limit f with Some n => n | None => 100 end) 100.

Definition params_of (query : str) (f : filters) : dict :=
  let params : dict :=
    [(lit "query", VStr query);
     (lit "fields",
      VStr (lit "paperId,title,abstract,year,citationCount,authors,venue,publicationVenue,openAccessPdf"));
     (lit "limit", VInt (limit_of f))] in
  let params :=
    match f_year_range f with
    | Some (Some s, Some e) =>
        if year_truthy (Some s) && year_truthy (Some e) then
          dict_set params (lit "year") (VStr (str_of_int s ++ lit "-" ++ str_of_int e))
        else params
    | _ => params
    end in
  match f_min_citation_count f with
  | Some n => dict_set params (lit "minCitationCount") (VInt n)
  | None => params
  end.

Definition search_papers `{Lib} (net : network) (self : SemanticScholarClient)
    (query : str) (f : filters) (tr : trace) : list dict * trace :=
  let rq := {| rq_url := base_url self ++ lit "/paper/search";
               rq_params := params_of query f |} in
  match retry_loop net self f rq (Z.to_nat max_retries) 0 tr with
  | (Returned papers, tr') => (papers, tr')
  | (Done, tr') => ([], tr')
  | (Raised _, tr') => ([], tr')
  | (Unfinished, tr') => ([], tr')     (* does not happen *)
  end.

Definition get_source_name : str := lit "semanticscholar".

(** Vocabulary: the request [search_papers] sends. *)
Definition search_request (self : SemanticScholarClient) (query : str) (f : filters)
  : request :=
  {| rq_url := base_url self ++ lit "/paper/search"; rq_params := params_of query f |}.

(** Vocabulary: a network on which no attempt succeeds and none is
    answered 429: every request raises, or gets a status other than 200
    and 429, or a 200 whose body cannot be read as a page of results. *)
Definition failing `{Lib} (net : network) (self : SemanticScholarClient) (f : filters)
  : Prop :=
  forall tr rq,
    match net tr rq with
    | Ok r => status r <> 429 /\ (status r = 200 -> exists e, read_page self f r = Raise e)
    | Raise _ => True
    end.

(** Vocabulary: a table entry that is a mapping with a string under
    [title]. *)
Definition titled (entry : pyval) (t : str) : Prop :=
  exists d, entry = VDict d /\ dict_has d (lit "title") = true /\
            dict_get d (lit "title") VNone = VStr t.

(** Vocabulary: a table entry whose title is not [name], case apart. *)
Definition other_journal `{Lib} (name : str) (entry : pyval) : Prop :=
  exists t, titled entry t /\ str_lower t <> str_lower name.

(** Vocabulary: the venue of a paper, by the rule of [search_papers]: its
    [venue], else the name of its [publicationVenue], else [Unknown].  (A
    paper whose [publicationVenue] is truthy and not a mapping is dropped;
    [None] stands for its venue here.) *)
Definition venue_of (p : dict) : pyval :=
  let venue := dict_get p (lit "venue") VNone in
  if truthy venue then venue
  else
    match py_or (dict_get p (lit "publicationVenue") (VDict [])) (VDict []) with
    | VDict pv => py_or (dict_get pv (lit "name") VNone) (VStr (lit "Unknown"))
    | _ => VNone
    end.

End Scholar.

(* ===================================================================== *)
(** * utils/paper_source_manager.py *)
(* ===================================================================== *)

Module Manager.

(** The two local variables of [search_papers_all_sources]. *)
Record state := State {
  seen_paper_ids : gset hkey;
  all_papers : list dict
}.

Definition default_sources : list str := [lit "pubmed"; lit "semanticscholar"].

Definition tagged (source_name : str) (paper : dict) : dict :=
  dict_set paper (lit "source") (VStr source_name).

(** One round of [for paper in papers]. *)
Definition dedupe_step (source_name : str) (paper : pyval) (st : state)
  : result state :=
  let* paper_id := py_get paper (lit "id") VNone in
  if truthy paper_id then
    let* k := hash_key paper_id in
    if bool_decide (k ∈ seen_paper_ids st) then Ok st
    else
      match paper with
      | VDict d =>
          Ok {| seen_paper_ids := {[k]} ∪ seen_paper_ids st;
                all_papers := all_papers st ++ [tagged source_name d] |}
      | _ => Raise (no_attribute (type_name paper) "__setitem__")
      end
  else Ok st.

(** [for paper in papers]; the state keeps what was done before an
    exception. *)
Fixpoint dedupe (source_name : str) (papers : list pyval) (st : state)
  : result unit * state :=
  match papers with
  | [] => (Ok tt, st)
  | paper :: rest =>
      match dedupe_step source_name paper st with
      | Ok st' => dedupe source_name rest st'
      | Raise e => (Raise e, st)
      end
  end.

(** The body of the [try] once the source has answered. *)
Definition absorb (source_name : str) (answer : result pyval) (st : state)
  : result unit * state :=
  match answer with
  | Raise e => (Raise e, st)
  | Ok papers =>
      match py_items papers with
      | Raise e => (Raise e, st)
      | Ok items => dedupe source_name items st
      end
  end.

(** [try: ... except Exception as e: logger.error(...)] *)
Definition swallow (r : result unit * state) : result unit * state :=
  match r with
  | (Raise _, st) => (Ok tt, st)
  | ok => ok
  end.

Section WithWorld.

(** Whatever the clients act on: the network, clocks, their own fields. *)
Context {W : Type}.

(** [await source.search_papers(query, filters)]: the value returned or
    the exception raised, and the world afterwards. *)
Definition client := str -> filters -> W -> result pyval * W.

(** [for source_name in selected_sources] *)
Fixpoint for_sources (sources : gmap str client) (query : str) (f : filters)
    (selected : list str) (st : state) (w : W) : result unit * state * W :=
  match selected with
  | [] => (Ok tt, st, w)
  | source_name :: rest =>
      match sources !! source_name with
      | None => for_sources sources query f rest st w          (* continue *)
      | Some source =>
          let '(answer, w1) := source query f w in
          match swallow (absorb source_name answer st) with
          | (Ok _, st1) => for_sources sources query f rest st1 w1
          | (Raise e, st1) => (Raise e, st1, w1)
          end
      end
  end.

Definition selected_sources (f : filters) : list str :=
  match f_sources f with
  | Some l => l
  | None => default_sources
  end.

Definition search_papers_all_sources (sources : gmap str client)
    (query : str) (f : filters) (w : W) : result (list dict) * W :=
  let st0 := {| seen_paper_ids := ∅; all_papers := [] |} in
  match for_sources sources query f (selected_sources f) st0 w with
  | (Ok _, st, w') => (Ok (all_papers st), w')
  | (Raise e, _, w') => (Raise e, w')
  end.

(** The answers of the selected, registered sources, in the order in
    which they are asked. *)
Fixpoint answers (sources : gmap str client) (query : str) (f : filters)
    (selected : list str) (w : W) : list (str * result pyval) :=
  match selected with
  | [] => []
  | source_name :: rest =>
      match sources !! source_name with
      | None => answers sources query f rest w
      | Some source =>
          let '(answer, w') := source query f w in
          (source_name, answer) :: answers sources query f rest w'
      end
  end.

End WithWorld.

(** ** Vocabulary of the properties *)

Definition id_of (d : dict) : pyval := dict_get d (lit "id") VNone.

(** The value is a record whose id is truthy and hashes to [k]: two
    records have the same id when this holds of both for one [k]. *)
Definition has_id (k : hkey) (v : pyval) : bool :=
  match v with
  | VDict d =>
      truthy (id_of d) &&
      match hash_key (id_of d) with
      | Ok k' => bool_decide (k' = k)
      | Raise _ => false
      end
  | _ => false
  end.

(** The items the manager visits in an answer. *)
Definition items_of (answer : result pyval) : list pyval :=
  match answer with
  | Ok v => match py_items v with Ok l => l | Raise _ => [] end
  | Raise _ => []
  end.


(** What one round of the loop can do. *)
Inductive step_effect (n : str) (v : pyval) (st : state) : result state -> Prop :=
| step_raises e : (forall k, has_id k v = false) -> step_effect n v st (Raise e)
| step_skips : (forall k, has_id k v = true -> k ∈ seen_paper_ids st) ->
    step_effect n v st (Ok st)
| step_adds d k : v = VDict d -> has_id k v = true -> k ∉ seen_paper_ids st ->
    step_effect n v st
      (Ok {| seen_paper_ids := {[k]} ∪ seen_paper_ids st;
             all_papers := all_papers st ++ [tagged n d] |}).

(** The state after the answers [calls] have been handled in turn. *)
Definition merge (calls : list (str * result pyval)) (st : state) : state :=
  fold_left (fun st c => snd (swallow (absorb (fst c) (snd c) st))) calls st.

(** The records of [l] whose id is [k]. *)
Definition ids (k : hkey) (l : list dict) : list dict :=
  List.filter (fun d => has_id k (VDict d)) l.

(** The merged list when the call returns one, [[]] when it raises. *)
Definition papers_of (r : result (list dict)) : list dict :=
  match r with
  | Ok l => l
  | Raise _ => []
  end.

(** The mappings among the items [l] of a source, tagged with its name, in
    the order of [l]. *)
Definition records (source_name : str) (l : list pyval) : list dict :=
  flat_map (fun v => match v with VDict d => [tagged source_name d] | _ => [] end) l.

(** All the records the sources returned: source after source in the order
    in which they were asked, and in the order of each answer. *)
Definition candidates (calls : list (str * result pyval)) : list dict :=
  flat_map (fun c => records (fst c) (items_of (snd c))) calls.

(** Every record of the list has an id that is in [seen_paper_ids], and no
    two records of the list have the same one. *)
Definition ids_are_seen (st : state) : Prop :=
  NoDup (map (fun d => hash_key (id_of d)) (all_papers st)) /\
  Forall (fun d => exists k, hash_key (id_of d) = Ok k /\ k ∈ seen_paper_ids st)
         (all_papers st).

End Manager.

(* ===================================================================== *)
(** * utils/paper_source_manager.py: [filters] as any mapping *)
(* ===================================================================== *)

(** [search_papers_all_sources] again, for a [filters] that is any mapping
    with string keys: the value under [sources] is any value, and the
    sources are given the mapping as it is. *)
Module AnyFilters.
Import Manager.

(** [hash(v)] does not raise. *)
Definition hashable (v : pyval) : bool :=
  match hash_key v with
  | Ok _ => true
  | Raise _ => false
  end.

Section WithWorld.

Context {W : Type}.

(** [await source.search_papers(query, filters)] *)
Definition client := str -> dict -> W -> result pyval * W.

(** [for source_name in selected_sources], the iterator having been made.
    [source_name not in self.sources] hashes the name, and the keys of
    [self.sources] are strings: no other value is equal to one of them. *)
Fixpoint for_sources (sources : gmap str client) (query : str) (filters : dict)
    (selected : list pyval) (st : state) (w : W) : result unit * state * W :=
  match selected with
  | [] => (Ok tt, st, w)
  | source_name :: rest =>
      match hash_key source_name with
      | Raise e => (Raise e, st, w)
      | Ok _ =>
          match source_name with
          | VStr name =>
              match sources !! name with
              | None => for_sources sources query filters rest st w   (* continue *)
              | Some source =>
                  let '(answer, w1) := source query filters w in
                  match swallow (absorb name answer st) with
                  | (Ok _, st1) => for_sources sources query filters rest st1 w1
                  | (Raise e, st1) => (Raise e, st1, w1)
                  end
              end
          | _ => for_sources sources query filters rest st w          (* continue *)
          end
      end
  end.

(** [filters.get("sources", ["pubmed", "semanticscholar"])] *)
Definition selected_sources (filters : dict) : pyval :=
  dict_get filters (lit "sources") (VList (map VStr default_sources)).

Definition search_papers_all_sources (sources : gmap str client)
    (query : str) (filters : dict) (w : W) : result (list dict) * W :=
  let st0 := {| seen_paper_ids := ∅; all_papers := [] |} in
  match py_iter (selected_sources filters) with
  | Raise e => (Raise e, w)
  | Ok names =>
      match for_sources sources query filters names st0 w with
      | (Ok _, st, w') => (Ok (all_papers st), w')
      | (Raise e, _, w') => (Raise e, w')
      end
  end.

(** A source as the loop of [Manager] has it, once the mapping is fixed. *)
Definition with_filters (filters : dict) (source : client) : @Manager.client W :=
  fun query _ w => source query filters w.

End WithWorld.

(** ** Vocabulary of the properties *)

(** The value under [sources], or the default, can be iterated and holds
    hashable values only: a list of names is of this kind. *)
Definition usable_sources (filters : dict) : bool :=
  match py_iter (selected_sources filters) with
  | Ok names => forallb hashable names
  | Raise _ => false
  end.

(** The name is a key of [self.sources]. *)
Definition registered {W : Type} (sources : gmap str (@client W)) (v : pyval) : bool :=
  match v with
  | VStr name => bool_decide (is_Some (sources !! name))
  | _ => false
  end.

End AnyFilters.


(* ===================================================================== *)
(** * The three clients as sources of the manager *)
(* ===================================================================== *)

Module Registry.

Definition as_pyval (papers : list dict) : pyval := VList (map VDict papers).

Definition arxiv_source `{Lib} (net : network) (self : Arxiv.ArxivClient)
  : @Manager.client trace :=
  fun query f tr =>
    let '(papers, tr') := Arxiv.search_papers net self query f tr in
    (Ok (match papers with Some l => as_pyval l | None => VNone end), tr').

Definition pubmed_source `{Lib} (net : network) (self : PubMed.PubMedClient)
  : @Manager.client trace :=
  fun query f tr =>
    let '(papers, tr') := PubMed.search_papers net self query f tr in
    (Ok (as_pyval papers), tr').

Definition scholar_source `{Lib} (net : network)
    (self : Scholar.SemanticScholarClient) : @Manager.client trace :=
  fun query f tr =>
    let '(papers, tr') := Scholar.search_papers net self query f tr in
    (Ok (as_pyval papers), tr').

(** [register_source] for each of the three, under [get_source_name()]. *)
Definition all_sources `{Lib} (net : network) (journal_data : dict)
  : gmap str (@Manager.client trace) :=
  <[Arxiv.get_source_name := arxiv_source net Arxiv.new]>
    (<[PubMed.get_source_name := pubmed_source net (PubMed.new None)]>
       (<[Scholar.get_source_name :=
            scholar_source net (Scholar.new None journal_data)]> ∅)).

End Registry.

(* ===================================================================== *)
(** * utils/paper_source_manager.py: the registry *)
(* ===================================================================== *)

(** A [dict] with string keys and values of any type, in insertion order. *)

(** [d[k] = v]: a key that is already there keeps its place. *)
Fixpoint od_set {A} (d : list (str * A)) (k : str) (v : A) : list (str * A) :=
  match d with
  | [] => [(k, v)]
  | (k', v') :: d' =>
      if str_eqb k' k then (k', v) :: d' else (k', v') :: od_set d' k v
  end.

(** [d.get(k)] *)
Fixpoint od_get {A} (d : list (str * A)) (k : str) : option A :=
  match d with
  | [] => None
  | (k', v) :: d' => if str_eqb k' k then Some v else od_get d' k
  end.

Module PaperSourceManager.

Section WithWorld.

(** [W] is whatever the sources act on; [V] is the type of the objects
    their [get_paper_details] returns, which the manager stores as they
    are. *)
Context {W V : Type}.

(** A source object, by the methods the manager calls on it. *)
Record source := Source {
  get_source_name : str;
  search_papers : @Manager.client W;
  get_paper_details : str -> W -> result V * W
}.

Record PaperSourceManager := { sources : list (str * source) }.

(** [PaperSourceManager()] *)
Definition init : PaperSourceManager := {| sources := [] |}.

Definition register_source (self : PaperSourceManager) (s : source)
  : PaperSourceManager :=
  let source_name := get_source_name s in
  {| sources := od_set (sources self) source_name s |}.

Definition get_source (self : PaperSourceManager) (source_name : str)
  : option source :=
  od_get (sources self) source_name.

Definition get_all_sources (self : PaperSourceManager) : list str :=
  map fst (sources self).

(** What [search_papers_all_sources] reads of [self.sources]: the
    [search_papers] of the source registered under a name. *)
Definition registry_of (self : PaperSourceManager) : gmap str (@Manager.client W) :=
  list_to_map (map (fun entry => (fst entry, search_papers (snd entry))) (sources self)).

Definition search_papers_all_sources (self : PaperSourceManager)
    (query : str) (f : filters) (w : W) : result (list dict) * W :=
  Manager.search_papers_all_sources (registry_of self) query f w.

(** What [results] holds for a source: the object its [get_paper_details]
    returned, or [{}]. *)
Inductive details :=
| Details (v : V)
| Empty_dict.

(** [for source_name, source in self.sources.items()] *)
Fixpoint details_loop (items : list (str * source)) (paper_id : str)
    (results : list (str * details)) (w : W) : list (str * details) * W :=
  match items with
  | [] => (results, w)
  | (source_name, s) :: rest =>
      match get_paper_details s paper_id w with
      | (Ok v, w1) =>
          details_loop rest paper_id (od_set results source_name (Details v)) w1
      | (Raise _, w1) =>
          details_loop rest paper_id (od_set results source_name Empty_dict) w1
      end
  end.

Definition get_paper_details_all_sources (self : PaperSourceManager)
    (paper_id : str) (w : W) : list (str * details) * W :=
  details_loop (sources self) paper_id [] w.

(** The manager after the sources of [l] have been registered in turn. *)
Definition registered (l : list source) : PaperSourceManager :=
  fold_left register_source l init.

(** What the sources answer when they are asked for the details of
    [paper_id] one after the other. *)
Fixpoint details_answers (items : list (str * source)) (paper_id : str) (w : W)
  : list (str * details) :=
  match items with
  | [] => []
  | (source_name, s) :: rest =>
      match get_paper_details s paper_id w with
      | (Ok v, w1) => (source_name, Details v) :: details_answers rest paper_id w1
      | (Raise _, w1) => (source_name, Empty_dict) :: details_answers rest paper_id w1
      end
  end.

End WithWorld.

Arguments source : clear implicits.
Arguments PaperSourceManager : clear implicits.
Arguments details : clear implicits.

End PaperSourceManager.

(* ===================================================================== *)
(** * utils/journal_data.py *)
(* ===================================================================== *)

Module JournalData.

(** What [load_journal_data] asks of the operating system. *)
Class Os := {
  path_join : list str -> str;        (* os.path.join(a, b, ...) *)
  path_exists : str -> bool;          (* os.path.exists(p) *)
  read_json : str -> result pyval     (* open(p, 'r', encoding='utf-8'), json.load(f) *)
}.

(** [v.strip()] *)
Definition py_strip (v : pyval) : result str :=
  match v with
  | VStr s => Ok (strip s)
  | _ => Raise (no_attribute (type_name v) "strip")
  end.

(** The two local variables the loop writes; [journal_info] is not bound
    before the first journal that has an ISSN. *)
Record loop_state := {
  journal_data : dict;
  journal_info : option pyval
}.

(** The body of [for journal in journal_list]. *)
Definition add_journal (journal : pyval) (st : loop_state) : result loop_state :=
  let* issn := py_get journal (lit "issn") (VStr []) in
  let* issn := py_strip issn in
  let* eissn := py_get journal (lit "eissn") (VStr []) in
  let* eissn := py_strip eissn in
  if negb (truthy (py_or (VStr issn) (VStr eissn))) then Ok st      (* continue *)
  else
    let* title := py_get journal (lit "journal") (VStr []) in
    let* impact := py_get journal (lit "IF") (VStr (lit "N/A")) in
    let* q := py_get journal (lit "Q") (VStr (lit "N/A")) in
    let* b := py_get journal (lit "B") (VStr (lit "N/A")) in
    let info :=
      VDict [(lit "title", title);
             (lit "if", impact);
             (lit "jcr_quartile", q);
             (lit "cas_quartile", b)] in
    let data := journal_data st in
    let data := if truthy (VStr issn) then dict_set data issn info else data in
    let data := if truthy (VStr eissn) then dict_set data eissn info else data in
    Ok {| journal_data := data; journal_info := Some info |}.

Fixpoint add_journals (journals : list pyval) (st : loop_state) : result loop_state :=
  match journals with
  | [] => Ok st
  | journal :: rest =>
      let* st' := add_journal journal st in
      add_journals rest st'
  end.

(** [load_journal_data(base_dir)].  After the loop, a log line written when
    the size of the table is a multiple of 1000 reads [journal_info]: when
    that variable is not bound the line raises, and the handler returns
    the empty table. *)
Definition load_journal_data `{Os} (base_dir : str) : dict :=
  let data_dir := path_join [base_dir; lit "data"; lit "journal_metrics"] in
  let jcr_file := path_join [data_dir; lit "jcr_cas_ifqb.json"] in
  if negb (path_exists jcr_file) then []
  else
    let loaded :=
      let* journal_list := read_json jcr_file in
      let* journals := py_iter journal_list in
      add_journals journals {| journal_data := []; journal_info := None |} in
    match loaded with
    | Ok st =>
        if Z.of_nat (length (journal_data st)) mod 1000 =? 0 then
          match journal_info st with
          | Some _ => journal_data st
          | None => []
          end
        else journal_data st
    | Raise _ => []
    end.

(** ** Vocabulary of the properties *)

(** A journal of the file that the loop can read: a mapping whose [issn]
    and [eissn], when it has them, are strings. *)
Definition readable (journal : pyval) : Prop :=
  exists d issn eissn,
    journal = VDict d /\
    dict_get d (lit "issn") (VStr []) = VStr issn /\
    dict_get d (lit "eissn") (VStr []) = VStr eissn.

(** The keys a journal is stored under: its ISSN and its e-ISSN, stripped,
    when they are not empty. *)
Definition keys_of (journal : pyval) : list str :=
  match journal with
  | VDict d =>
      match dict_get d (lit "issn") (VStr []), dict_get d (lit "eissn") (VStr []) with
      | VStr issn, VStr eissn =>
          List.filter (fun k => truthy (VStr k)) [strip issn; strip eissn]
      | _, _ => []
      end
  | _ => []
  end.

(** The entry that is stored for a journal. *)
Definition info_of (journal : pyval) : pyval :=
  match journal with
  | VDict d =>
      VDict [(lit "title", dict_get d (lit "journal") (VStr []));
             (lit "if", dict_get d (lit "IF") (VStr (lit "N/A")));
             (lit "jcr_quartile", dict_get d (lit "Q") (VStr (lit "N/A")));
             (lit "cas_quartile", dict_get d (lit "B") (VStr (lit "N/A")))]
  | _ => VNone
  end.

(** An entry with exactly the four keys of the table. *)
Definition is_info (v : pyval) : Prop :=
  exists title impact q b,
    v = VDict [(lit "title", title); (lit "if", impact);
               (lit "jcr_quartile", q); (lit "cas_quartile", b)].

(** A table whose keys are not empty and have no whitespace at either
    end, and whose entries have the four keys. *)
Definition well_formed (data : dict) : Prop :=
  Forall (fun entry => fst entry <> [] /\ strip (fst entry) = fst entry /\ is_info (snd entry))
         data.

End JournalData.

(* ===================================================================== *)
(** * Vocabulary of the record invariants *)
(* ===================================================================== *)

(** Two keys written out in the source are different keys. *)
Ltac other_key := vm_compute; discriminate.

Definition is_str (v : pyval) : Prop := exists s, v = VStr s.
Definition is_list (v : pyval) : Prop := exists l, v = VList l.
Definition is_str_or_none (v : pyval) : Prop := v = VNone \/ is_str v.

(** The keys [id], [title] and [authors] are there, [title] is a string and
    [authors] a list; [id_ok] says what the id is. *)
Record shaped (id_ok : pyval -> Prop) (d : dict) : Prop := {
  has_id_key : dict_has d (lit "id") = true;
  has_title_key : dict_has d (lit "title") = true;
  has_authors_key : dict_has d (lit "authors") = true;
  id_shape : id_ok (dict_get d (lit "id") VNone);
  authors_shape : is_list (dict_get d (lit "authors") VNone)
}.

(** A Semantic Scholar record made from the JSON object [p]: its id and
    title are what [p] holds under [paperId] and [title], the empty string
    when the key is missing. *)
Definition mirrors (p d : dict) : Prop :=
  dict_get d (lit "id") VNone = dict_get p (lit "paperId") (VStr []) /\
  dict_get d (lit "title") VNone = dict_get p (lit "title") (VStr []).

(* ===================================================================== *)
(** * Sample inputs *)
(* ===================================================================== *)

Module Samples.

Definition is_ascii_digit (c : N) : bool := ((48 <=? c) && (c <=? 57))%N.

(** [int(s)] on a string of ASCII digits; other strings are refused. *)
Definition ascii_int (s : str) : result Z :=
  match s with
  | [] => Raise (Exn ValueError (lit "invalid literal for int()"))
  | _ =>
      if forallb is_ascii_digit s
      then Ok (fold_left (fun acc c => acc * 10 + Z.of_N (c - 48)) s 0)
      else Raise (Exn ValueError (lit "invalid literal for int()"))
  end.

(** The library functions on ASCII text.  The two parsers answer [xml] and
    [soup] whatever the content; [fuzz_ratio] is 100 on equal strings, as
    the library's is, and is used on equal strings only. *)
Definition lib (xml : result element) (soup : result node) : Lib :=
  {| ET_fromstring := fun _ => xml;
     BeautifulSoup := fun _ => soup;
     py_int := ascii_int;
     py_str := fun _ => lit "...";
     str_lower := ascii_lower;
     str_isdigit := fun s => match s with [] => false | _ => forallb is_ascii_digit s end;
     is_alnum := fun c =>
       ((48 <=? c) && (c <=? 57) || (65 <=? c) && (c <=? 90)
        || (97 <=? c) && (c <=? 122))%N;
     fuzz_ratio := fun a b => if str_eqb a b then 100 else 0 |}.

Definition no_document {A} : result A := Raise (Exn ValueError (lit "no document")).

Definition plain_lib : Lib := lib no_document no_document.

(** The same library with another similarity ratio. *)
Definition with_ratio (ratio : str -> str -> Z) : Lib :=
  {| ET_fromstring := ET_fromstring (Lib := plain_lib);
     BeautifulSoup := BeautifulSoup (Lib := plain_lib);
     py_int := py_int (Lib := plain_lib);
     py_str := py_str (Lib := plain_lib);
     str_lower := str_lower (Lib := plain_lib);
     str_isdigit := str_isdigit (Lib := plain_lib);
     is_alnum := is_alnum (Lib := plain_lib);
     fuzz_ratio := ratio |}.

(** A journal table with one entry. *)
Definition journals : dict :=
  [(lit "0028-0836",
    VDict [(lit "title", VStr (lit "Nature"));
           (lit "if", VStr (lit "50.5"));
           (lit "jcr_quartile", VStr (lit "Q1"));
           (lit "cas_quartile", VStr (lit "1"))])].

Definition nature_metrics : dict :=
  [(lit "impact_factor", VStr (lit "50.5"));
   (lit "jcr_quartile", VStr (lit "Q1"));
   (lit "cas_quartile", VStr (lit "B1"))].


(** A server that answers every request with HTTP 429. *)
Definition always_429 : network :=
  fun _ _ => Ok {| status := 429; text := lit "Too Many Requests";
                   json := no_document |}.

(** A server that answers every request with HTTP 500. *)
Definition always_500 : network :=
  fun _ _ => Ok {| status := 500; text := lit "Internal Server Error";
                   json := no_document |}.

(** A network on which every request fails with a [ClientError]. *)
Definition no_route : network :=
  fun _ _ => Raise (Exn ClientError (lit "Cannot connect to host")).

(** A server that answers every request with HTTP 200 and the given body. *)
Definition always_200 (body : result pyval) : network :=
  fun _ _ => Ok {| status := 200; text := []; json := body |}.

(** A PubMed answer with one article that has a title and no PMID. *)
Definition article_without_pmid : node :=
  Tag (lit "[document]")
    [Tag (lit "PubmedArticleSet")
       [Tag (lit "PubmedArticle")
          [Tag (lit "MedlineCitation")
             [Tag (lit "Article")
                [Tag (lit "ArticleTitle") [NavigableString (lit "A study")]]]]]].

Definition years (s e : Z) : filters :=
  {| f_sources := None; f_year_range := Some (Some s, Some e);
     f_papers_limit := None; f_limit := None; f_min_citation_count := None;
     f_jcr_quartile := None; f_cas_quartile := None |}.

(** A source that returns one record with the given id and title. *)
Definition one_record (id title : pyval) : @Manager.client unit :=
  fun _ _ w => (Ok (VList [VDict [(lit "id", id); (lit "title", title)]]), w).

(** A source whose [search_papers] raises. *)
Definition failing : @Manager.client unit :=
  fun _ _ w => (Raise (Exn PlainException (lit "boom")), w).

Definition two_sources (id : pyval) : gmap str (@Manager.client unit) :=
  <[lit "first" := one_record id (VStr (lit "from the first"))]>
    (<[lit "second" := one_record id (VStr (lit "from the second"))]> ∅).

(** A page of Semantic Scholar results with two citation counts and two
    venues, one of them in the table [journals]. *)
Definition cited_page : pyval :=
  VDict [(lit "data",
          VList [VDict [(lit "paperId", VStr (lit "b1")); (lit "title", VStr (lit "Little read"));
                        (lit "citationCount", VInt 5); (lit "venue", VStr (lit "nature"))];
                 VDict [(lit "paperId", VStr (lit "b2")); (lit "title", VStr (lit "Much read"));
                        (lit "citationCount", VInt 50)]])].

(** Filters with a minimal citation count only. *)
Definition cited (m : Z) : filters :=
  {| f_sources := None; f_year_range := None; f_papers_limit := None;
     f_limit := None; f_min_citation_count := Some m;
     f_jcr_quartile := None; f_cas_quartile := None |}.

(** Filters with JCR quartiles only. *)
Definition in_jcr (quartiles : list str) : filters :=
  {| f_sources := None; f_year_range := None; f_papers_limit := None;
     f_limit := None; f_min_citation_count := None;
     f_jcr_quartile := Some quartiles; f_cas_quartile := None |}.

(** A disk with one file, which holds [content]; paths are joined with a
    slash. *)
Definition disk (content : result pyval) : JournalData.Os :=
  {| JournalData.path_join := join (lit "/");
     JournalData.path_exists := fun _ => true;
     JournalData.read_json := fun _ => content |}.

(** Two journals of the metrics file, the second without ISSN. *)
Definition journal_list : list pyval :=
  [VDict [(lit "journal", VStr (lit "Nature")); (lit "issn", VStr (lit " 0028-0836 "));
          (lit "eissn", VStr (lit "1476-4687")); (lit "IF", VStr (lit "50.5"));
          (lit "Q", VStr (lit "Q1")); (lit "B", VStr (lit "B1"))];
   VDict [(lit "journal", VStr (lit "Nameless"))]].

(** An entry of an arXiv feed. *)
Definition sample_entry : element :=
  Element (Arxiv.atom "entry") [] None
    [Element (Arxiv.atom "id") [] (Some (lit "http://arxiv.org/abs/2101.00001v1")) [];
     Element (Arxiv.atom "title") [] (Some (lit " Graphs ")) [];
     Element (Arxiv.atom "summary") [] (Some (lit "About graphs.")) [];
     Element (Arxiv.atom "published") [] (Some (lit "2021-01-01T00:00:00Z")) []].

Definition select (names : list str) : filters :=
  {| f_sources := Some names; f_year_range := None; f_papers_limit := None;
     f_limit := None; f_min_citation_count := None;
     f_jcr_quartile := None; f_cas_quartile := None |}.

(** The same two kinds of source, for a manager that is given any mapping
    as [filters]. *)
Definition any_one_record (id title : pyval) : @AnyFilters.client unit :=
  fun _ _ w => (Ok (VList [VDict [(lit "id", id); (lit "title", title)]]), w).

Definition any_failing : @AnyFilters.client unit :=
  fun _ _ w => (Raise (Exn PlainException (lit "boom")), w).

Definition bad_and_good : gmap str (@AnyFilters.client unit) :=
  <[lit "bad" := any_failing]>
    (<[lit "good" := any_one_record (VStr (lit "X")) (VStr (lit "T"))]> ∅).

(** A [filters] mapping with the key [sources] only. *)
Definition sources_entry (v : pyval) : dict := [(lit "sources", v)].

End Samples.

(* ===================================================================== *)
(** * Facts about dictionaries and strings *)
(* ===================================================================== *)

Module PyFacts.

Lemma str_eqb_eq (a b : str) : str_eqb a b = true <-> a = b.
Proof. unfold str_eqb. apply bool_decide_eq_true. Qed.

Lemma dict_get_set_ne (d : dict) (k k' : str) (v dflt : pyval) :
  k <> k' -> dict_get (dict_set d k v) k' dflt = dict_get d k' dflt.
Proof.
  intros Hne. induction d as [|[k0 v0] d IH]; simpl.
  - destruct (str_eqb k k') eqn:E; [apply str_eqb_eq in E; contradiction | reflexivity].
  - destruct (str_eqb k0 k) eqn:E1; simpl.
    + apply str_eqb_eq in E1. subst k0.
      destruct (str_eqb k k') eqn:E2; [apply str_eqb_eq in E2; contradiction | reflexivity].
    + destruct (str_eqb k0 k'); [reflexivity | exact IH].
Qed.

Lemma dict_get_set_eq (d : dict) (k : str) (v dflt : pyval) :
  dict_get (dict_set d k v) k dflt = v.
Proof.
  induction d as [|[k0 v0] d IH]; simpl.
  - assert (E : str_eqb k k = true) by (apply str_eqb_eq; reflexivity). now rewrite E.
  - destruct (str_eqb k0 k) eqn:E1; simpl; rewrite E1; [reflexivity | exact IH].
Qed.


Lemma dict_has_set (d : dict) (k k' : str) (v : pyval) :
  dict_has (dict_set d k v) k' = dict_has d k' || str_eqb k k'.
Proof.
  unfold dict_has. induction d as [|[k0 v0] d IH]; simpl.
  - now rewrite orb_false_r.
  - destruct (str_eqb k0 k) eqn:E; simpl.
    + clear IH. apply str_eqb_eq in E. subst k0.
      destruct (str_eqb k k'); [reflexivity | now rewrite orb_false_r].
    + rewrite IH. now rewrite orb_assoc.
Qed.

End PyFacts.

Module StrFacts.

Lemma lstrip_split (s : str) : exists ws, blank ws /\ s = ws ++ lstrip s.
Proof.
  induction s as [|c s (ws & Hws & E)]; simpl.
  - exists []. split; [constructor | reflexivity].
  - destruct (is_space c) eqn:Hc.
    + exists (c :: ws). split; [now constructor | simpl; congruence].
    + exists []. split; [constructor | reflexivity].
Qed.

Lemma blank_rev ws : blank ws -> blank (rev ws).
Proof. apply List.Forall_rev. Qed.

Lemma rstrip_split (s : str) : exists ws, blank ws /\ s = rstrip s ++ ws.
Proof.
  unfold rstrip. destruct (lstrip_split (rev s)) as (ws & Hws & E).
  exists (rev ws). split; [now apply blank_rev|].
  rewrite <- rev_app_distr, <- E. symmetry. apply rev_involutive.
Qed.

(** [strip] removes a blank prefix and a blank suffix. *)
Lemma strip_split (s : str) :
  exists a b, blank a /\ blank b /\ s = a ++ strip s ++ b.
Proof.
  destruct (lstrip_split s) as (a & Ha & Ea).
  destruct (rstrip_split (lstrip s)) as (b & Hb & Eb).
  exists a, b. repeat split; try assumption. unfold strip. congruence.
Qed.

Lemma lstrip_blank ws s : blank ws -> lstrip (ws ++ s) = lstrip s.
Proof. induction 1 as [|c ws Hc _ IH]; simpl; [reflexivity | now rewrite Hc]. Qed.

Lemma lstrip_blank_nil ws : blank ws -> lstrip ws = [].
Proof. intros H. rewrite <- (app_nil_r ws). now rewrite lstrip_blank. Qed.

Lemma strip_blank ws : blank ws -> strip ws = [].
Proof. intros H. unfold strip. now rewrite lstrip_blank_nil. Qed.

Lemma strip_nil_blank s : strip s = [] -> blank s.
Proof.
  intros E. destruct (strip_split s) as (a & b & Ha & Hb & Es).
  rewrite E in Es. simpl in Es. subst s. now apply Forall_app.
Qed.

(** A string without whitespace at either end is left alone. *)
Lemma lstrip_solid s : solid s -> lstrip s = s.
Proof. destruct 1 as [|c s Hc _]; simpl; [reflexivity | now rewrite Hc]. Qed.

Lemma solid_rev s : solid s -> solid (rev s).
Proof. apply List.Forall_rev. Qed.

Lemma strip_solid s : solid s -> strip s = s.
Proof.
  intros H. unfold strip, rstrip. rewrite (lstrip_solid s H).
  rewrite (lstrip_solid _ (solid_rev s H)). apply rev_involutive.
Qed.

(** ** [split] *)

Lemma split_from_blank ws : blank ws -> forall s, split_from [] (ws ++ s) = split_from [] s.
Proof. induction 1 as [|c ws Hc _ IH]; intros s; simpl; [reflexivity | now rewrite Hc]. Qed.

Lemma split_from_blank_end ws : blank ws -> forall cur,
  split_from cur ws = match cur with [] => [] | _ => [cur] end.
Proof.
  induction 1 as [|c ws Hc _ IH]; intros cur; simpl; [reflexivity|].
  rewrite Hc. destruct cur; rewrite IH; reflexivity.
Qed.

Lemma split_from_app_blank s ws : blank ws -> forall cur,
  split_from cur (s ++ ws) = split_from cur s.
Proof.
  intros Hws. induction s as [|c s IH]; intros cur; simpl.
  - now apply split_from_blank_end.
  - destruct (is_space c); [destruct cur|]; now rewrite ?IH.
Qed.

Lemma split_strip s : str_split (strip s) = str_split s.
Proof.
  destruct (strip_split s) as (a & b & Ha & Hb & E).
  unfold str_split. rewrite E at 2.
  rewrite (split_from_blank a Ha), (split_from_app_blank _ b Hb). reflexivity.
Qed.

(** The pieces [split] returns are non-empty and free of whitespace. *)
Lemma split_from_solid s : forall cur,
  solid cur -> Forall (fun t => t <> [] /\ solid t) (split_from cur s).
Proof.
  induction s as [|c s IH]; intros cur Hcur; simpl.
  - destruct cur; constructor; [split; [discriminate | assumption] | constructor].
  - destruct (is_space c) eqn:Hc.
    + destruct cur; [apply IH; constructor|].
      constructor; [split; [discriminate | assumption] | apply IH; constructor].
    + apply IH. apply Forall_app. split; [assumption | now repeat constructor].
Qed.

Lemma split_solid s : Forall (fun t => t <> [] /\ solid t) (str_split s).
Proof. apply split_from_solid. constructor. Qed.

(** ** [in] *)

Lemma starts_with_app p s t : starts_with p s = true -> starts_with p (s ++ t) = true.
Proof.
  revert s. induction p as [|a p IH]; intros s H; [reflexivity|].
  destruct s as [|b s]; simpl in *; [discriminate|].
  apply andb_prop in H as [H1 H2]. rewrite H1. simpl. now apply IH.
Qed.

Lemma contains_app_r sub s t : contains sub s = true -> contains sub (s ++ t) = true.
Proof.
  induction s as [|c s IH]; simpl; intros H.
  - rewrite orb_false_r in H. destruct sub; [|discriminate]. destruct t; reflexivity.
  - apply orb_prop in H as [H|H].
    + pose proof (starts_with_app _ (c :: s) t H) as H'. simpl in H'.
      rewrite H'. reflexivity.
    + rewrite (IH H). apply orb_true_r.
Qed.

Lemma contains_app_l sub a s : contains sub s = true -> contains sub (a ++ s) = true.
Proof.
  intros H. induction a as [|c a IH]; simpl; [exact H|].
  rewrite IH. apply orb_true_r.
Qed.

Lemma contains_strip sub s : contains sub (strip s) = true -> contains sub s = true.
Proof.
  intros H. destruct (strip_split s) as (a & b & _ & _ & E). rewrite E.
  apply contains_app_l, contains_app_r, H.
Qed.

End StrFacts.

Module ManagerFacts.
Import Manager PyFacts.

Lemma id_of_tagged n d : id_of (tagged n d) = id_of d.
Proof. unfold id_of, tagged. apply dict_get_set_ne. vm_compute. discriminate. Qed.


Lemma has_id_inv k v :
  has_id k v = true ->
  exists d, v = VDict d /\ truthy (id_of d) = true /\ hash_key (id_of d) = Ok k.
Proof.
  destruct v; simpl; try discriminate. intros H.
  apply andb_prop in H as [Ht Hk]. exists d. split; [reflexivity|]. split; [exact Ht|].
  destruct (hash_key (id_of d)); [|discriminate].
  apply bool_decide_eq_true in Hk. now subst.
Qed.

Lemma has_id_intro d k :
  truthy (id_of d) = true -> hash_key (id_of d) = Ok k -> has_id k (VDict d) = true.
Proof.
  intros Ht Hk. simpl. rewrite Ht, Hk. simpl. now apply bool_decide_eq_true.
Qed.

Lemma has_id_functional k k' v : has_id k v = true -> has_id k' v = true -> k = k'.
Proof.
  intros H1 H2. apply has_id_inv in H1 as (d & -> & _ & Hk).
  apply has_id_inv in H2 as (d' & Hd & _ & Hk'). injection Hd as <-. congruence.
Qed.

Lemma dedupe_step_effect n v st : step_effect n v st (dedupe_step n v st).
Proof.
  unfold dedupe_step. destruct v as [| b | z | s | l | d]; simpl;
    try (apply step_raises; intros; reflexivity).
  fold (id_of d). destruct (truthy (id_of d)) eqn:Ht.
  - destruct (hash_key (id_of d)) as [k|e] eqn:Hk; simpl.
    + destruct (bool_decide (k ∈ seen_paper_ids st)) eqn:Hin.
      * apply step_skips. intros k' Hk'. apply bool_decide_eq_true in Hin.
        assert (k' = k) as -> by (eapply has_id_functional; [exact Hk'|]; now apply has_id_intro).
        exact Hin.
      * apply bool_decide_eq_false in Hin.
        apply step_adds; [reflexivity | now apply has_id_intro | exact Hin].
    + apply step_raises. intros k. simpl. rewrite Ht, Hk. reflexivity.
  - apply step_skips. intros k Hk. simpl in Hk. rewrite Ht in Hk. discriminate.
Qed.










Lemma absorb_dedupe n a st : snd (swallow (absorb n a st)) = snd (dedupe n (items_of a) st).
Proof.
  unfold absorb, items_of. destruct a as [v|e]; [|reflexivity].
  destruct (py_items v) as [l|e]; [|reflexivity].
  destruct (dedupe n l st) as [[u|e] st']; reflexivity.
Qed.

Lemma swallow_ok r : fst (swallow r) = Ok tt.
Proof. destruct r as [[[]|e] st]; reflexivity. Qed.

Section WithWorld.
Context {W : Type}.
Variable sources : gmap str (@client W).
Variable query : str.
Variable f : filters.

(** The loop over the sources never raises, and its state is the merge of
    the answers. *)
Lemma for_sources_merge selected : forall st w,
  exists w', for_sources sources query f selected st w
             = (Ok tt, merge (answers sources query f selected w) st, w').
Proof.
  induction selected as [|n rest IH]; intros st w; simpl; [eauto|].
  destruct (sources !! n) as [c|]; [|apply IH].
  destruct (c query f w) as [a w1].
  pose proof (swallow_ok (absorb n a st)) as Hok.
  destruct (swallow (absorb n a st)) as [r st1] eqn:E. simpl in Hok. subst r.
  destruct (IH st1 w1) as [w' Hw']. exists w'. rewrite Hw'. simpl.
  rewrite E. reflexivity.
Qed.

Lemma search_all_merge w :
  fst (search_papers_all_sources sources query f w)
  = Ok (all_papers (merge (answers sources query f (selected_sources f) w)
                          {| seen_paper_ids := ∅; all_papers := [] |})).
Proof.
  unfold search_papers_all_sources.
  destruct (for_sources_merge (selected_sources f)
              {| seen_paper_ids := ∅; all_papers := [] |} w) as [w' ->].
  reflexivity.
Qed.

Lemma answers_from selected : forall w n a,
  In (n, a) (answers sources query f selected w) ->
  In n selected /\ is_Some (sources !! n).
Proof.
  induction selected as [|m rest IH]; intros w n a Hin; simpl in *; [contradiction|].
  destruct (sources !! m) as [c|] eqn:Hc.
  - destruct (c query f w) as [a' w']. destruct Hin as [E|Hin].
    + injection E as ? ?; subst. split; [now left | eexists; eassumption].
    + destruct (IH _ _ _ Hin). split; [now right | assumption].
  - destruct (IH _ _ _ Hin). split; [now right | assumption].
Qed.
End WithWorld.


Lemma merge_cons n a calls st :
  merge ((n, a) :: calls) st = merge calls (snd (dedupe n (items_of a) st)).
Proof. unfold merge. simpl. now rewrite absorb_dedupe. Qed.



(** Every record the loop adds is a tagged copy of an item with a truthy id. *)
Lemma dedupe_keeps (R : dict -> Prop) n l : forall st,
  Forall R (all_papers st) ->
  (forall d, In (VDict d) l -> truthy (id_of d) = true -> R (tagged n d)) ->
  Forall R (all_papers (snd (dedupe n l st))).
Proof.
  induction l as [|v l IH]; intros st Hst Hl; simpl; [exact Hst|].
  destruct (dedupe_step_effect n v st) as [e _ | _ | d k -> Hk Hnew]; simpl; auto.
  - apply IH; [exact Hst | intros; apply Hl; [now right | assumption]].
  - apply IH.
    + simpl. apply Forall_app. split; [exact Hst|]. constructor; [|constructor].
      apply Hl; [now left|]. apply has_id_inv in Hk as (d' & E & Ht & _).
      injection E as <-. exact Ht.
    + intros; apply Hl; [now right | assumption].
Qed.

Lemma merge_keeps (R : dict -> Prop) calls : forall st,
  Forall R (all_papers st) ->
  (forall n a d, In (n, a) calls -> In (VDict d) (items_of a) ->
                 truthy (id_of d) = true -> R (tagged n d)) ->
  Forall R (all_papers (merge calls st)).
Proof.
  induction calls as [|[n a] calls IH]; intros st Hst Hc; [exact Hst|].
  rewrite merge_cons. apply IH.
  - apply dedupe_keeps; [exact Hst|]. intros d Hd Ht. apply (Hc n a d); [now left|exact Hd|exact Ht].
  - intros n' a' d Hin. apply Hc. now right.
Qed.






Section AnyMapping.
Context {W : Type}.
Variable sources : gmap str (@AnyFilters.client W).
Variable query : str.
Variable mapping : dict.

(** The loop ends without an exception when every name is hashable. *)
Lemma for_sources_ok names :
  forallb AnyFilters.hashable names = true ->
  forall st w, exists st' w',
    AnyFilters.for_sources sources query mapping names st w = (Ok tt, st', w').
Proof.
  induction names as [|v rest IH]; intros Hall st w; cbn [AnyFilters.for_sources]; [eauto|].
  cbn [forallb] in Hall. apply andb_prop in Hall as [Hv Hrest].
  unfold AnyFilters.hashable in Hv. destruct (hash_key v) as [k|e]; [|discriminate].
  destruct v as [| b | z | name | l | d]; try (apply IH; exact Hrest).
  unfold AnyFilters.client in *.
  destruct (sources !! name) as [c|]; [|apply IH; exact Hrest].
  destruct (c query mapping w) as [a w1].
  pose proof (swallow_ok (absorb name a st)) as Hok.
  destruct (swallow (absorb name a st)) as [r st1]. simpl in Hok. subst r.
  apply IH. exact Hrest.
Qed.

(** It ends with a [TypeError] at the first name that is not hashable. *)
Lemma for_sources_raises names :
  forallb AnyFilters.hashable names = false ->
  forall st w, exists e st' w',
    AnyFilters.for_sources sources query mapping names st w = (Raise e, st', w') /\
    exn_class_of e = TypeError.
Proof.
  induction names as [|v rest IH]; intros Hall st w; cbn [AnyFilters.for_sources];
    [discriminate|].
  cbn [forallb] in Hall. unfold AnyFilters.hashable in Hall at 1.
  destruct v as [| b | z | name | l | d]; cbn [hash_key] in *;
    try (apply IH; exact Hall); try (do 3 eexists; split; reflexivity).
  unfold AnyFilters.client in *.
  destruct (sources !! name) as [c|]; [|apply IH; exact Hall].
  destruct (c query mapping w) as [a w1].
  pose proof (swallow_ok (absorb name a st)) as Hok.
  destruct (swallow (absorb name a st)) as [r st1]. simpl in Hok. subst r.
  apply IH. exact Hall.
Qed.

(** For a list of names the loop is the one of [Manager]. *)
Lemma for_sources_names (f : filters) (names : list str) : forall st w,
  AnyFilters.for_sources sources query mapping (map VStr names) st w
  = Manager.for_sources (AnyFilters.with_filters mapping <$> sources) query f names st w.
Proof.
  induction names as [|n rest IH]; intros st w; [reflexivity|].
  cbn [map AnyFilters.for_sources Manager.for_sources hash_key].
  unfold AnyFilters.client, Manager.client in *. rewrite lookup_fmap.
  destruct (sources !! n) as [c|]; cbn [fmap option_fmap option_map]; [|apply IH].
  unfold AnyFilters.with_filters at 1.
  destruct (c query mapping w) as [a w1].
  destruct (swallow (absorb n a st)) as [[u|e] st1]; [apply IH | reflexivity].
Qed.

(** With a list of names under [sources], or without the key, the search
    is the one of [Manager]. *)
Lemma search_with_names (f : filters) w :
  AnyFilters.selected_sources mapping = VList (map VStr (Manager.selected_sources f)) ->
  AnyFilters.search_papers_all_sources sources query mapping w
  = Manager.search_papers_all_sources (AnyFilters.with_filters mapping <$> sources) query f w.
Proof.
  intros Hsel. unfold AnyFilters.search_papers_all_sources, Manager.search_papers_all_sources.
  rewrite Hsel. cbn [py_iter]. now rewrite (for_sources_names f).
Qed.

(** Any other value under [sources] ends the search with a [TypeError]. *)
Lemma search_raises w :
  AnyFilters.usable_sources mapping = false ->
  exists e, fst (AnyFilters.search_papers_all_sources sources query mapping w) = Raise e /\
            exn_class_of e = TypeError.
Proof.
  unfold AnyFilters.usable_sources, AnyFilters.search_papers_all_sources.
  destruct (AnyFilters.selected_sources mapping) as [| b | z | s | l | d]; cbn [py_iter];
    try (intros _; eexists; split; reflexivity); intros Hall.
  - destruct (for_sources_raises _ Hall {| seen_paper_ids := ∅; all_papers := [] |} w)
      as (e & st' & w' & -> & He). eauto.
  - destruct (for_sources_raises _ Hall {| seen_paper_ids := ∅; all_papers := [] |} w)
      as (e & st' & w' & -> & He). eauto.
  - destruct (for_sources_raises _ Hall {| seen_paper_ids := ∅; all_papers := [] |} w)
      as (e & st' & w' & -> & He). eauto.
Qed.

End AnyMapping.

(** C3 (as amended). When the value under [sources], if there is one, can
    be iterated and holds hashable values only (a list of names is of this
    kind), [search_papers_all_sources] returns a list, whatever else the
    mapping holds and whatever the sources do: no exception leaves it; a
    name that is not registered is skipped; a source whose [search_papers]
    raises leaves the merged state as it was, and the sources after it are
    asked all the same. *)
Theorem search_all_never_raises {W : Type} (sources : gmap str (@AnyFilters.client W))
    (query : str) (filters : dict) :
  AnyFilters.usable_sources filters = true ->
  (forall w, exists papers,
      fst (AnyFilters.search_papers_all_sources sources query filters w) = Ok papers) /\
  (forall name rest st w,
      AnyFilters.hashable name = true ->
      AnyFilters.registered sources name = false ->
      AnyFilters.for_sources sources query filters (name :: rest) st w
      = AnyFilters.for_sources sources query filters rest st w) /\
  (forall n c rest st w e w1,
      sources !! n = Some c ->
      c query filters w = (Raise e, w1) ->
      AnyFilters.for_sources sources query filters (VStr n :: rest) st w
      = AnyFilters.for_sources sources query filters rest st w1).
Proof.
  intros Husable. split; [|split].
  - intros w. unfold AnyFilters.search_papers_all_sources.
    unfold AnyFilters.usable_sources in Husable.
    destruct (py_iter (AnyFilters.selected_sources filters)) as [names|e]; [|discriminate].
    destruct (for_sources_ok sources query filters names Husable
                {| seen_paper_ids := ∅; all_papers := [] |} w) as (st' & w' & ->).
    eexists. reflexivity.
  - intros name rest st w Hh Hr. cbn [AnyFilters.for_sources].
    unfold AnyFilters.hashable in Hh. destruct (hash_key name) as [k|e]; [|discriminate].
    destruct name as [| b | z | n | l | d]; try reflexivity.
    unfold AnyFilters.registered in Hr. apply bool_decide_eq_false in Hr.
    unfold AnyFilters.client in *.
    destruct (sources !! n) as [c|]; [|reflexivity]. exfalso. apply Hr. eauto.
  - intros n c rest st w e w1 Hn Hc. cbn [AnyFilters.for_sources hash_key].
    unfold AnyFilters.client in *. rewrite Hn, Hc. reflexivity.
Qed.

Lemma search_all_never_raises_witness :
  let filters :=
    Samples.sources_entry
      (VList [VStr (lit "ghost"); VInt 7; VStr (lit "bad"); VStr (lit "good")]) in
  AnyFilters.usable_sources filters = true /\
  fst (AnyFilters.search_papers_all_sources Samples.bad_and_good (lit "q") filters tt)
  = Ok [tagged (lit "good") [(lit "id", VStr (lit "X")); (lit "title", VStr (lit "T"))]].
Proof.
  intros filters.
  assert (H0 : AnyFilters.usable_sources filters = true) by reflexivity.
  split; [exact H0|].
  destruct (search_all_never_raises Samples.bad_and_good (lit "q") filters H0)
    as (_ & Hskip & Hfail).
  unfold AnyFilters.search_papers_all_sources.
  change (py_iter (AnyFilters.selected_sources filters))
    with (Ok [VStr (lit "ghost"); VInt 7; VStr (lit "bad"); VStr (lit "good")]).
  cbv iota beta.
  rewrite (Hskip (VStr (lit "ghost")) _ _ _ eq_refl) by (vm_compute; reflexivity).
  rewrite (Hskip (VInt 7) _ _ _ eq_refl eq_refl).
  rewrite (Hfail (lit "bad") Samples.any_failing _ _ _ (Exn PlainException (lit "boom")) tt)
    by (vm_compute; reflexivity).
  vm_compute. reflexivity.
Defined.

(** C3 as stated fails for a mapping whose [sources] is [None], and for one
    that has a list among the names: the loop over the names is outside
    the [try], and its [TypeError] leaves the call, in the second case
    after the source named first has been asked. *)
Lemma unusable_sources_raise :
  fst (AnyFilters.search_papers_all_sources Samples.bad_and_good (lit "q")
         (Samples.sources_entry VNone) tt)
  = Raise (Exn TypeError (lit "'NoneType' object is not iterable")) /\
  fst (AnyFilters.search_papers_all_sources Samples.bad_and_good (lit "q")
         (Samples.sources_entry (VList [VStr (lit "good"); VList [VStr (lit "arxiv")]])) tt)
  = Raise (Exn TypeError (lit "unhashable type: 'list'")).
Proof. split; vm_compute; reflexivity. Qed.

(** C10. Every record of the merged list has a truthy id and is the copy,
    tagged with the name of a selected and registered source, of a record
    that source returned; a record whose id is absent, [None] or empty
    changes nothing, whatever has been seen before. *)
Theorem falsy_ids_are_dropped {W : Type} (sources : gmap str (@client W))
    (query : str) (f : filters) (w : W) :
  Forall (fun d =>
            truthy (id_of d) = true /\
            exists n a d0,
              In n (selected_sources f) /\ is_Some (sources !! n) /\
              In (n, a) (answers sources query f (selected_sources f) w) /\
              In (VDict d0) (items_of a) /\
              d = tagged n d0 /\
              dict_get d (lit "source") VNone = VStr n)
         (papers_of (fst (search_papers_all_sources sources query f w))) /\
  (forall n d st, truthy (id_of d) = false -> dedupe_step n (VDict d) st = Ok st).
Proof.
  split.
  - rewrite search_all_merge. simpl. apply merge_keeps; [constructor|].
    intros n a d Hin Hd Ht. split; [now rewrite id_of_tagged|].
    destruct (answers_from _ _ _ _ _ _ _ Hin) as [Hsel Hreg].
    exists n, a, d. repeat split; try assumption. apply dict_get_set_eq.
  - intros n d st Ht. unfold dedupe_step. simpl. fold (id_of d). now rewrite Ht.
Qed.

Lemma falsy_ids_are_dropped_witness :
  let d : dict := [(lit "id", VNone); (lit "title", VStr (lit "T"))] in
  let st := {| seen_paper_ids := ∅; all_papers := [] |} in
  truthy (id_of d) = false /\
  dedupe_step (lit "pubmed") (VDict d) st = Ok st /\
  fst (search_papers_all_sources (Samples.two_sources VNone) (lit "q")
         (Samples.select [lit "first"; lit "second"]) tt) = Ok [].
Proof.
  intros d st.
  destruct (falsy_ids_are_dropped (Samples.two_sources VNone) (lit "q")
              (Samples.select [lit "first"; lit "second"]) tt) as [_ H].
  split; [reflexivity|]. split; [apply H; reflexivity|].
  vm_compute. reflexivity.
Defined.

End ManagerFacts.

Module ArxivFacts.
Import PyFacts StrFacts Arxiv.

Lemma filter_all {A} (p : A -> bool) l : Forall (fun x => p x = true) l -> List.filter p l = l.
Proof. induction 1 as [|x l Hx _ IH]; simpl; [reflexivity | now rewrite Hx, IH]. Qed.

Lemma map_id_on {A} (g : A -> A) l : Forall (fun x => g x = x) l -> map g l = l.
Proof. induction 1 as [|x l Hx _ IH]; simpl; [reflexivity | now rewrite Hx, IH]. Qed.

(** The terms the translation works with are the words of the query. *)
Lemma terms_are_words query :
  map strip (List.filter (fun term => truthy (VStr (strip term))) (str_split (strip query)))
  = str_split query.
Proof.
  rewrite split_strip. pose proof (split_solid query) as H.
  rewrite filter_all, map_id_on; [reflexivity | |].
  - eapply List.Forall_impl; [|exact H]. intros t [_ Ht]. now apply strip_solid.
  - eapply List.Forall_impl; [|exact H]. intros t [Hne Ht]. simpl.
    rewrite (strip_solid t Ht). destruct t; [contradiction | reflexivity].
Qed.

Lemma plain_strip query :
  plain query ->
  existsb (fun prefix => contains prefix (strip query)) advanced_syntax = false.
Proof.
  unfold plain. generalize advanced_syntax. induction 1 as [|m ms Hm _ IH]; simpl; [reflexivity|].
  rewrite IH, orb_false_r. destruct (contains m (strip query)) eqn:E; [|reflexivity].
  apply contains_strip in E. congruence.
Qed.

Lemma search_query_plain query :
  plain query ->
  search_query_of (strip query)
  = match str_split query with
    | [word] => single_word_form word
    | words => phrase_form (join (lit " ") words)
    end.
Proof.
  intros Hp. unfold search_query_of. rewrite (plain_strip query Hp), terms_are_words.
  destruct (str_split query) as [|w [|w' ws]]; reflexivity.
Qed.

Lemma date_filter_valid f s e : valid_range f s e -> date_filter_of f = submitted_clause s e.
Proof.
  intros (Hf & Hs & He & Hle). unfold date_filter_of, submitted_clause. rewrite Hf. simpl.
  apply Z.eqb_neq in Hs. apply Z.eqb_neq in He. apply Z.leb_le in Hle.
  rewrite Hs, He, Hle. simpl. rewrite <- !app_assoc. reflexivity.
Qed.

Lemma date_filter_none f : f_year_range f = None -> date_filter_of f = [].
Proof. intros Hf. unfold date_filter_of. now rewrite Hf. Qed.

Example translate_word :
  _build_search_query new (lit " quantum ") no_filters
  = Ok (lit "(ti:quantum%20OR%20abs:quantum)").
Proof. reflexivity. Qed.

Example translate_phrase_with_years :
  _build_search_query new (lit "deep  learning") (Samples.years 2020 2024)
  = Ok (lit "(ti:" ++ [34%N] ++ lit "deep%20learning" ++ [34%N]
        ++ lit "%20OR%20abs:" ++ [34%N] ++ lit "deep%20learning" ++ [34%N]
        ++ lit ")%20AND%20submittedDate:[202001010000%20TO%20202412312359]").
Proof. reflexivity. Qed.

(** An empty or whitespace-only query ends the arXiv search at once: the
    empty list, and nothing is sent. *)
Lemma arxiv_blank_query `{Lib} net self query f tr :
  blank query -> search_papers net self query f tr = (Some [], tr).
Proof. intros Hb. unfold search_papers. now rewrite (strip_blank query Hb). Qed.

(** The rounds [search_papers] gives the loop are enough. *)
Lemma arxiv_retry_loop_finishes `{Lib} net rq : forall rounds retry_count tr,
  max_retries - retry_count <= Z.of_nat rounds ->
  fst (retry_loop net rq rounds retry_count tr) <> Unfinished.
Proof.
  induction rounds as [|rounds IH]; intros retry_count tr Hle; cbn [retry_loop].
  - destruct (retry_count <? max_retries) eqn:E; [|discriminate].
    apply Z.ltb_lt in E. simpl in Hle. lia.
  - destruct (retry_count <? max_retries); [|discriminate].
    unfold session_get. destruct (net tr rq) as [r|e].
    + destruct (status r =? 200); [discriminate|].
      destruct (status r =? 400); [discriminate|].
      destruct (status r =? 429); [|discriminate]. apply IH. lia.
    + destruct (is_client_error e); [|discriminate].
      destruct (retry_count + 1 <? max_retries); [|discriminate]. apply IH. lia.
Qed.

Lemma arxiv_retry_loop_429 `{Lib} net rq : rate_limited net -> forall n rounds retry_count tr,
  retry_count + Z.of_nat n = max_retries -> (n <= rounds)%nat ->
  retry_loop net rq rounds retry_count tr
  = (Done, tr ++ concat (repeat [Request rq; Sleep 30] n)).
Proof.
  intros Hnet. induction n as [|n IH]; intros rounds retry_count tr Hrc Hn.
  - assert (E : (retry_count <? max_retries) = false) by (apply Z.ltb_ge; lia).
    destruct rounds; cbn [retry_loop]; rewrite E; simpl; now rewrite app_nil_r.
  - assert (E : (retry_count <? max_retries) = true) by (apply Z.ltb_lt; lia).
    destruct rounds as [|rounds]; [lia|]. cbn [retry_loop]. rewrite E.
    unfold session_get. destruct (Hnet tr rq) as (r & -> & Hr). rewrite Hr. simpl.
    rewrite (IH rounds (retry_count + 1)) by lia. rewrite <- !app_assoc. reflexivity.
Qed.

(** C5, on the arXiv client. Against a server that answers 429 to every
    request, a search for a query that is not blank sends exactly three
    requests, waits 30 seconds after each, and then ends without a
    [return]: the caller gets [None], not the empty list. *)
Theorem arxiv_rate_limited_returns_none `{Lib} (net : network) (self : ArxivClient)
    (query : str) (f : filters) (tr : trace) (search_query : str) :
  rate_limited net ->
  truthy (VStr (strip query)) = true ->
  _build_search_query self query f = Ok search_query ->
  exists rq,
    search_papers net self query f tr
    = (None, tr ++ [RateLimit; Request rq; Sleep 30; Request rq; Sleep 30;
                    Request rq; Sleep 30]).
Proof.
  intros Hnet Hq Hb. unfold search_papers. rewrite Hq, Hb. simpl negb. cbv iota.
  eexists. rewrite (arxiv_retry_loop_429 net _ Hnet 3%nat) by (reflexivity || lia).
  simpl. rewrite <- app_assoc. reflexivity.
Qed.

Lemma arxiv_rate_limited_returns_none_witness :
  rate_limited Samples.always_429 /\
  truthy (VStr (strip (lit "test"))) = true /\
  _build_search_query new (lit "test") no_filters = Ok (lit "(ti:test%20OR%20abs:test)") /\
  exists rq,
    search_papers (H := Samples.plain_lib) Samples.always_429 new (lit "test") no_filters []
    = (None, [RateLimit; Request rq; Sleep 30; Request rq; Sleep 30; Request rq; Sleep 30]).
Proof.
  assert (H1 : rate_limited Samples.always_429) by (intros tr rq; eexists; split; reflexivity).
  split; [exact H1|]. split; [reflexivity|]. split; [reflexivity|].
  exact (arxiv_rate_limited_returns_none (H := Samples.plain_lib) Samples.always_429 new
           (lit "test") no_filters [] _ H1 eq_refl eq_refl).
Defined.

End ArxivFacts.

Module ScholarFacts.
Import PyFacts Scholar.

Lemma requests_of_app a b : requests_of (a ++ b) = requests_of a ++ requests_of b.
Proof. apply flat_map_app. Qed.

(** ** The year filter *)



Lemma process_papers_pass `{Lib} self f papers :
  Forall (fun d => _apply_filters d f = true) (process_papers self f papers).
Proof.
  induction papers as [|p papers IH]; simpl; [constructor|].
  destruct (process_paper self p) as [d|e]; [|exact IH].
  destruct (_apply_filters d f) eqn:E; [constructor; assumption | exact IH].
Qed.

(** ** The retry loop *)

Lemma retry_loop_sound `{Lib} net self f rq : forall rounds retry_count tr,
  exists new,
    snd (retry_loop net self f rq rounds retry_count tr) = tr ++ new /\
    attempts rq new /\
    (retry_count < max_retries -> rounds <> O -> exists rest, new = Request rq :: rest) /\
    match fst (retry_loop net self f rq rounds retry_count tr) with
    | Returned papers => Forall (fun d => _apply_filters d f = true) papers
    | _ => True
    end.
Proof.
  induction rounds as [|rounds IH]; intros retry_count tr; cbn [retry_loop].
  - exists []. destruct (retry_count <? max_retries); simpl; rewrite app_nil_r;
      repeat split; (constructor || congruence).
  - destruct (retry_count <? max_retries) eqn:Hcond.
    2:{ exists []. simpl. rewrite app_nil_r. apply Z.ltb_ge in Hcond.
        repeat split; [constructor | lia]. }
    assert (Hretry : exists new,
               snd (retry_loop net self f rq rounds (retry_count + 1)
                      ((tr ++ [Request rq]) ++ [Sleep 30])) = tr ++ new /\
               attempts rq new /\ (exists rest, new = Request rq :: rest) /\
               match fst (retry_loop net self f rq rounds (retry_count + 1)
                            ((tr ++ [Request rq]) ++ [Sleep 30])) with
               | Returned papers => Forall (fun d => _apply_filters d f = true) papers
               | _ => True
               end).
    { destruct (IH (retry_count + 1) ((tr ++ [Request rq]) ++ [Sleep 30]))
        as (new & E & Ha & _ & Hr).
      exists (Request rq :: Sleep 30 :: new). rewrite E.
      split; [now rewrite <- !app_assoc|]. split; [|split; [eauto | exact Hr]].
      constructor; [now left|]. constructor; [now right | exact Ha]. }
    assert (Hstop : exists new,
               tr ++ [Request rq] = tr ++ new /\ attempts rq new /\
               (exists rest, new = Request rq :: rest)).
    { exists [Request rq]. split; [reflexivity|]. split; [|eauto].
      constructor; [now left | constructor]. }
    assert (Herr : exists new,
               snd (if max_retries - 1 <=? retry_count
                    then (Returned [], tr ++ [Request rq])
                    else retry_loop net self f rq rounds (retry_count + 1)
                           ((tr ++ [Request rq]) ++ [Sleep 30])) = tr ++ new /\
               attempts rq new /\ (exists rest, new = Request rq :: rest) /\
               match fst (if max_retries - 1 <=? retry_count
                          then (Returned [], tr ++ [Request rq])
                          else retry_loop net self f rq rounds (retry_count + 1)
                                 ((tr ++ [Request rq]) ++ [Sleep 30])) with
               | Returned papers => Forall (fun d => _apply_filters d f = true) papers
               | _ => True
               end).
    { destruct (max_retries - 1 <=? retry_count); [|exact Hretry].
      destruct Hstop as (new & E & Ha & Hf). exists new. simpl. auto. }
    unfold session_get.
    destruct (net tr rq) as [r|e].
    + destruct (status r =? 429).
      * destruct Hretry as (new & E & Ha & Hf & Hr). exists new. auto.
      * destruct (status r =? 200).
        -- destruct (read_page self f r) as [papers|e] eqn:Hp.
           ++ destruct Hstop as (new & E & Ha & Hf). exists new. simpl.
              repeat split; auto.
              unfold read_page in Hp.
              destruct (json r) as [data|]; simpl in Hp; [|discriminate].
              destruct (py_get data (lit "data") (VList [])) as [ps|]; simpl in Hp; [|discriminate].
              destruct (py_iter ps) as [items|]; simpl in Hp; [|discriminate].
              injection Hp as <-. apply process_papers_pass.
           ++ destruct Herr as (new & E & Ha & Hf & Hr). exists new. auto.
        -- destruct Herr as (new & E & Ha & Hf & Hr). exists new. auto.
    + destruct Herr as (new & E & Ha & Hf & Hr). exists new. auto.
Qed.

(** The rounds [search_papers] gives the loop are enough. *)
Lemma scholar_retry_loop_finishes `{Lib} net self f rq : forall rounds retry_count tr,
  max_retries - retry_count <= Z.of_nat rounds ->
  fst (retry_loop net self f rq rounds retry_count tr) <> Unfinished.
Proof.
  induction rounds as [|rounds IH]; intros retry_count tr Hle; cbn [retry_loop].
  - destruct (retry_count <? max_retries) eqn:E; [|discriminate].
    apply Z.ltb_lt in E. simpl in Hle. lia.
  - destruct (retry_count <? max_retries); [|discriminate].
    assert (Hretry : forall tr1,
               fst (retry_loop net self f rq rounds (retry_count + 1) tr1) <> Unfinished)
      by (intros tr1; apply IH; lia).
    assert (Herr : forall tr1,
               fst (if max_retries - 1 <=? retry_count
                    then (Returned [], tr1)
                    else retry_loop net self f rq rounds (retry_count + 1)
                           (tr1 ++ [Sleep 30])) <> Unfinished).
    { intros tr1. destruct (max_retries - 1 <=? retry_count); [discriminate | apply Hretry]. }
    unfold session_get. destruct (net tr rq) as [r|e]; [|apply Herr].
    destruct (status r =? 429); [apply Hretry|].
    destruct (status r =? 200); [|apply Herr].
    destruct (read_page self f r); [discriminate | apply Herr].
Qed.


Lemma attempts_requests rq new : attempts rq new -> Forall (fun r => r = rq) (requests_of new).
Proof.
  induction 1 as [|e new [-> | ->] _ IH]; simpl; [constructor | constructor; auto | exact IH].
Qed.



Lemma scholar_retry_loop_429 `{Lib} net self f rq :
  rate_limited net -> forall n rounds retry_count tr,
  retry_count + Z.of_nat n = max_retries -> (n <= rounds)%nat ->
  retry_loop net self f rq rounds retry_count tr
  = (Done, tr ++ concat (repeat [Request rq; Sleep 30] n)).
Proof.
  intros Hnet. induction n as [|n IH]; intros rounds retry_count tr Hrc Hn.
  - assert (E : (retry_count <? max_retries) = false) by (apply Z.ltb_ge; lia).
    destruct rounds; cbn [retry_loop]; rewrite E; simpl; now rewrite app_nil_r.
  - assert (E : (retry_count <? max_retries) = true) by (apply Z.ltb_lt; lia).
    destruct rounds as [|rounds]; [lia|]. cbn [retry_loop]. rewrite E.
    unfold session_get. destruct (Hnet tr rq) as (r & -> & Hr). rewrite Hr. simpl.
    rewrite (IH rounds (retry_count + 1)) by lia. rewrite <- !app_assoc. reflexivity.
Qed.

(** Against a server that answers 429 to every request, the Semantic
    Scholar search sends exactly three requests and returns the empty
    list. *)
Lemma scholar_rate_limited `{Lib} net self query f tr :
  rate_limited net ->
  exists rq,
    search_papers net self query f tr
    = ([], tr ++ [Request rq; Sleep 30; Request rq; Sleep 30; Request rq; Sleep 30]).
Proof.
  intros Hnet. unfold search_papers. eexists.
  rewrite (scholar_retry_loop_429 net self f _ Hnet 3%nat) by (reflexivity || lia).
  reflexivity.
Qed.

(** The first thing a Semantic Scholar search does, whatever the query, is
    to send it. *)
Lemma scholar_sends_query `{Lib} net self query f tr :
  exists rq rest,
    snd (search_papers net self query f tr) = tr ++ Request rq :: rest /\
    dict_get (rq_params rq) (lit "query") VNone = VStr query.
Proof.
  unfold search_papers.
  set (rq := {| rq_url := base_url self ++ lit "/paper/search";
                rq_params := params_of query f |}).
  destruct (retry_loop_sound net self f rq (Z.to_nat max_retries) 0 tr)
    as (new & E & _ & Hfirst & _).
  destruct Hfirst as [rest ->]; [reflexivity | discriminate |].
  exists rq, rest. split.
  - destruct (retry_loop net self f rq (Z.to_nat max_retries) 0 tr) as [[papers| |ex|] tr'];
      exact E.
  - unfold rq, params_of. cbn [rq_params].
    destruct (f_year_range f) as [[[s|] [e|]]|];
      try destruct (year_truthy (Some s) && year_truthy (Some e));
      destruct (f_min_citation_count f);
      rewrite ?dict_get_set_ne by (vm_compute; discriminate); reflexivity.
Qed.


(** C4, at a venue name that differs from the table's by punctuation only.
    The class binds [get_journal_metrics] to its last definition, which
    compares lower-cased names for equality and never asks for a
    similarity ratio: whatever the ratio is, the venue gets the default
    metrics.  The earlier definition, which the later one replaces, does
    what the specification says: it returns the entry's metrics at a ratio of 86
    and the default ones at 84. *)
Theorem exact_match_only :
  (forall ratio,
      get_journal_metrics (H := Samples.with_ratio ratio)
        (new None Samples.journals) (VStr (lit "Nature."))
      = _get_default_metrics) /\
  get_journal_metrics_shadowed (H := Samples.with_ratio (fun _ _ => 86))
    (new None Samples.journals) (VStr (lit "Nature."))
  = Samples.nature_metrics /\
  get_journal_metrics_shadowed (H := Samples.with_ratio (fun _ _ => 84))
    (new None Samples.journals) (VStr (lit "Nature."))
  = _get_default_metrics.
Proof. split; [intros ratio; reflexivity | split; reflexivity]. Qed.

Example exact_name_is_found :
  get_journal_metrics (H := Samples.plain_lib) (new None Samples.journals)
    (VStr (lit "NATURE"))
  = [(lit "impact_factor", VStr (lit "50.5"));
     (lit "jcr_quartile", VStr (lit "Q1"));
     (lit "cas_quartile", VStr (lit "1"))].
Proof. reflexivity. Qed.

End ScholarFacts.

Module ParserFacts.
Import PyFacts.

Lemma shaped_set_other id_ok title_ok d k v :
  k <> lit "id" -> k <> lit "title" -> k <> lit "authors" ->
  shaped id_ok d /\ title_ok (dict_get d (lit "title") VNone) ->
  shaped id_ok (dict_set d k v) /\ title_ok (dict_get (dict_set d k v) (lit "title") VNone).
Proof.
  intros H1 H2 H3 [[Ha Hb Hc Hd He] Ht]. split; [constructor|].
  all: rewrite ?dict_has_set, ?dict_get_set_ne by assumption.
  all: rewrite ?Ha, ?Hb, ?Hc; auto.
Qed.

Lemma shaped_set_authors id_ok title_ok d l :
  shaped id_ok d /\ title_ok (dict_get d (lit "title") VNone) ->
  shaped id_ok (dict_set d (lit "authors") (VList l)) /\
  title_ok (dict_get (dict_set d (lit "authors") (VList l)) (lit "title") VNone).
Proof.
  intros [[Ha Hb Hc Hd He] Ht]. split; [constructor|].
  all: rewrite ?dict_has_set, ?dict_get_set_eq.
  all: rewrite ?dict_get_set_ne by other_key.
  all: rewrite ?Ha, ?Hb, ?Hc; auto. eexists; reflexivity.
Qed.

(** ** arXiv *)

Lemma arxiv_entry_shaped `{Lib} entry d :
  Arxiv.parse_entry entry = Ok d ->
  shaped is_str d /\ is_str (dict_get d (lit "title") VNone).
Proof.
  unfold Arxiv.parse_entry.
  destruct (Arxiv.find_text (Arxiv.atom "id") entry) as [id_text|]; simpl; [|discriminate].
  destruct id_text as [id_str|]; simpl; [|discriminate].
  destruct (Arxiv.find_text (Arxiv.atom "title") entry) as [[title_str|]|]; simpl;
    try discriminate.
  destruct (Arxiv.find_text (Arxiv.atom "summary") entry) as [[summary_str|]|]; simpl;
    try discriminate.
  set (paper0 := [(lit "id", VStr (after_last (lit "abs/") id_str));
                  (lit "title", VStr (strip title_str));
                  (lit "abstract", VStr (strip summary_str));
                  (lit "url", VStr id_str);
                  (lit "pdf_url", VNone);
                  (lit "authors", VList []);
                  (lit "journal_info", na_journal_info (VStr (lit "arXiv")))]).
  assert (H0 : shaped is_str paper0 /\ is_str (dict_get paper0 (lit "title") VNone)).
  { split; [constructor|]; try reflexivity; eexists; reflexivity. }
  set (paper1 := match Arxiv.pdf_link _ with Some _ => _ | None => _ end).
  assert (H1 : shaped is_str paper1 /\ is_str (dict_get paper1 (lit "title") VNone)).
  { unfold paper1.
    destruct (Arxiv.pdf_link _); (split; [constructor|]; try reflexivity; eexists; reflexivity). }
  clearbody paper1. clear H0 paper0.
  destruct (Arxiv.parse_authors _) as [authors|]; simpl; [|discriminate].
  pose proof (shaped_set_authors is_str is_str paper1 authors H1) as H2.
  set (paper2 := dict_set paper1 (lit "authors") (VList authors)) in *. clearbody paper2.
  intros Hd.
  assert (H3 : forall paper3,
             match Arxiv.find (Arxiv.atom "published") entry with
             | Some published =>
                 match Arxiv.el_text published with
                 | Some t =>
                     let* year := py_int (firstn 4 t) in
                     Ok (dict_set paper2 (lit "year") (VInt year))
                 | None =>
                     Raise (Exn TypeError (lit "'NoneType' object is not subscriptable"))
                 end
             | None => Ok paper2
             end = Ok paper3 ->
             shaped is_str paper3 /\ is_str (dict_get paper3 (lit "title") VNone)).
  { intros paper3. destruct (Arxiv.find (Arxiv.atom "published") entry) as [published|].
    - destruct (Arxiv.el_text published) as [t|]; [|discriminate].
      destruct (py_int (firstn 4 t)) as [year|]; simpl; [|discriminate].
      intros E. injection E as <-.
      apply shaped_set_other; [other_key | other_key | other_key | exact H2].
    - intros E. injection E as <-. exact H2. }
  destruct (match Arxiv.find (Arxiv.atom "published") entry with
            | Some _ => _ | None => _ end) as [paper3|]; simpl in Hd; [|discriminate].
  specialize (H3 paper3 eq_refl).
  destruct (Arxiv.find (Arxiv.arxiv "primary_category") entry); injection Hd as <-;
    [apply shaped_set_other; [other_key | other_key | other_key | exact H3] | exact H3].
Qed.

Lemma arxiv_entries_shaped `{Lib} entries :
  Forall (fun d => shaped is_str d /\ is_str (dict_get d (lit "title") VNone))
         (Arxiv.parse_entries entries).
Proof.
  induction entries as [|entry entries IH]; simpl; [constructor|].
  destruct (Arxiv.parse_entry entry) as [d|] eqn:E; [|exact IH].
  constructor; [now apply arxiv_entry_shaped with entry | exact IH].
Qed.


(** ** PubMed *)

Lemma pubmed_article_shaped `{Lib} article d :
  PubMed.parse_article article = Ok d ->
  shaped is_str_or_none d /\ is_str (dict_get d (lit "title") VNone).
Proof.
  unfold PubMed.parse_article. cbv zeta.
  set (id := match PubMed.find "PMID" article with
             | Some pmid => VStr (PubMed.text_of pmid)
             | None => VNone
             end).
  set (title := match PubMed.find "ArticleTitle" article with
                | Some t => VStr (PubMed.text_of t)
                | None => VStr (lit "No title available")
                end).
  set (abstract := match PubMed.find "Abstract" article with
                   | Some a => VStr (PubMed.text_of a)
                   | None => VStr (lit "No abstract available")
                   end).
  assert (Hid : is_str_or_none id).
  { unfold id. destruct (PubMed.find "PMID" article); [right; eexists; reflexivity | now left]. }
  assert (Htitle : is_str title).
  { unfold title. destruct (PubMed.find "ArticleTitle" article); eexists; reflexivity. }
  clearbody id title abstract.
  set (paper0 := [(lit "id", id); (lit "title", title); (lit "abstract", abstract);
                  (lit "url", VNone); (lit "pdf_url", VNone); (lit "authors", VList []);
                  (lit "journal_info", na_journal_info VNone)]).
  assert (H0 : shaped is_str_or_none paper0 /\ is_str (dict_get paper0 (lit "title") VNone)).
  { split; [constructor|]; try reflexivity; try assumption. eexists; reflexivity. }
  clearbody paper0.
  set (paper1 := if truthy (dict_get paper0 (lit "id") VNone) then _ else paper0).
  assert (H1 : shaped is_str_or_none paper1 /\ is_str (dict_get paper1 (lit "title") VNone)).
  { unfold paper1. destruct (truthy _); [|exact H0].
    apply shaped_set_other; [other_key | other_key | other_key | exact H0]. }
  clearbody paper1. clear H0 paper0.
  set (paper2 := match PubMed.find "AuthorList" article with Some _ => _ | None => paper1 end).
  assert (H2 : shaped is_str_or_none paper2 /\ is_str (dict_get paper2 (lit "title") VNone)).
  { unfold paper2. destruct (PubMed.find "AuthorList" article); [|exact H1].
    apply shaped_set_authors. exact H1. }
  clearbody paper2. clear H1 paper1.
  set (paper3 := match PubMed.find "Journal" article with Some _ => _ | None => paper2 end).
  assert (H3 : shaped is_str_or_none paper3 /\ is_str (dict_get paper3 (lit "title") VNone)).
  { unfold paper3. destruct (PubMed.find "Journal" article) as [journal|]; [|exact H2].
    destruct (PubMed.find "Title" journal); [|exact H2].
    unfold PubMed.set_journal_title.
    destruct (dict_get paper2 (lit "journal_info") VNone); try exact H2.
    apply shaped_set_other; [other_key | other_key | other_key | exact H2]. }
  clearbody paper3. clear H2 paper2.
  destruct (PubMed.find "PubDate" article) as [pub_date|].
  - destruct (PubMed.find "Year" pub_date) as [year|].
    + destruct (py_int (PubMed.text_of year)) as [y|]; simpl; [|discriminate].
      intros E. injection E as <-.
      apply shaped_set_other; [other_key | other_key | other_key | exact H3].
    + intros E. injection E as <-. exact H3.
  - intros E. injection E as <-. exact H3.
Qed.

Lemma pubmed_articles_shaped `{Lib} articles :
  Forall (fun d => shaped is_str_or_none d /\ is_str (dict_get d (lit "title") VNone))
         (PubMed.parse_articles articles).
Proof.
  induction articles as [|article articles IH]; simpl; [constructor|].
  destruct (PubMed.parse_article article) as [d|] eqn:E; [|exact IH].
  constructor; [now apply pubmed_article_shaped with article | exact IH].
Qed.

(** ** Semantic Scholar *)

Lemma scholar_paper_shaped `{Lib} self paper d :
  Scholar.process_paper self paper = Ok d ->
  exists p, paper = VDict p /\ shaped (fun _ => True) d /\ mirrors p d.
Proof.
  unfold Scholar.process_paper. destruct paper as [| | | | |p]; try discriminate.
  simpl. intros Hd. exists p. split; [reflexivity|].
  destruct (truthy (dict_get p (lit "venue") VNone)); simpl in Hd.
  all: repeat match type of Hd with
         | context [py_get ?v ?k ?dflt] =>
             destruct (py_get v k dflt); simpl in Hd; [|discriminate]
         | context [py_iter ?v] => destruct (py_iter v); simpl in Hd; [|discriminate]
         end.
  all: injection Hd as <-; split; [constructor|split]; try reflexivity; auto;
    eexists; reflexivity.
Qed.

Lemma scholar_papers_shaped `{Lib} self f papers :
  Forall (fun d => exists p, In (VDict p) papers /\ shaped (fun _ => True) d /\ mirrors p d)
         (Scholar.process_papers self f papers).
Proof.
  induction papers as [|paper papers IH]; simpl; [constructor|].
  assert (IH' : Forall (fun d => exists p, (paper = VDict p \/ In (VDict p) papers) /\
                                   shaped (fun _ => True) d /\ mirrors p d)
                       (Scholar.process_papers self f papers)).
  { eapply List.Forall_impl; [|exact IH]. intros d (p & Hp & Hs). exists p. auto. }
  destruct (Scholar.process_paper self paper) as [d|] eqn:E; [|exact IH'].
  destruct (Scholar._apply_filters d f); [|exact IH'].
  constructor; [|exact IH'].
  destruct (scholar_paper_shaped self paper d E) as (p & -> & Hs). exists p. auto.
Qed.


(** C8 (as amended). Every record a parser produces has the keys [id],
    [title] and [authors], and [authors] is a list.  In an arXiv record
    [id] and [title] are strings.  In a PubMed record [title] is a string
    and [id] is a string or [None].  In a Semantic Scholar record [id] and
    [title] are what the JSON object holds under [paperId] and [title],
    the empty string when the key is missing. *)
Theorem parsed_records_shape `{Lib} :
  (forall content,
      Forall (fun d => shaped is_str d /\ is_str (dict_get d (lit "title") VNone))
             (Arxiv._parse_response content)) /\
  (forall content,
      Forall (fun d => shaped is_str_or_none d /\ is_str (dict_get d (lit "title") VNone))
             (PubMed._parse_papers_details content)) /\
  (forall self f papers,
      Forall (fun d => exists p,
                In (VDict p) papers /\ shaped (fun _ => True) d /\ mirrors p d)
             (Scholar.process_papers self f papers)).
Proof.
  split; [|split].
  - intros content. unfold Arxiv._parse_response.
    destruct (ET_fromstring content); [apply arxiv_entries_shaped | constructor].
  - intros content. unfold PubMed._parse_papers_details.
    destruct (BeautifulSoup content); [apply pubmed_articles_shaped | constructor].
  - intros self f papers. apply scholar_papers_shaped.
Qed.

(** C8 as stated fails on PubMed: an article without a PMID element gives a
    record whose [id] key is there and holds [None]. *)
Lemma pubmed_id_can_be_none :
  map (fun d => (dict_has d (lit "id"), dict_get d (lit "id") (VStr []),
                 dict_get d (lit "title") VNone))
      (PubMed._parse_papers_details
         (H := Samples.lib Samples.no_document (Ok Samples.article_without_pmid)) [])
  = [(true, VNone, VStr (lit "A study"))].
Proof. vm_compute. reflexivity. Qed.

Example scholar_null_id :
  map (fun d => dict_get d (lit "id") (VStr []))
      (Scholar.process_papers (H := Samples.plain_lib) (Scholar.new None []) no_filters
         [VDict [(lit "paperId", VNone); (lit "title", VStr (lit "T"))]])
  = [VNone].
Proof. vm_compute. reflexivity. Qed.

End ParserFacts.

Module ClientFacts.
Import PyFacts.

Lemma pubmed_fetch_trace `{Lib} net self id_list tr :
  exists rest, snd (PubMed._fetch_papers_details net self id_list tr) = tr ++ rest.
Proof.
  unfold PubMed._fetch_papers_details, session_get.
  destruct (net tr _) as [r|]; [destruct (status r =? 200)|]; eexists; reflexivity.
Qed.

Lemma pubmed_sends_query `{Lib} net self query f tr :
  exists rq rest,
    snd (PubMed.search_papers net self query f tr) = tr ++ Request rq :: rest /\
    rq_url rq = PubMed.base_url self ++ lit "/esearch.fcgi" /\
    dict_get (rq_params rq) (lit "term") VNone = VStr (PubMed.term_of query f).
Proof.
  unfold PubMed.search_papers.
  set (rq := {| rq_url := PubMed.base_url self ++ lit "/esearch.fcgi"; rq_params := _ |}).
  exists rq.
  assert (Hstop : exists rest, tr ++ [Request rq] = tr ++ Request rq :: rest) by (now exists []).
  assert (Hrq : rq_url rq = PubMed.base_url self ++ lit "/esearch.fcgi" /\
                dict_get (rq_params rq) (lit "term") VNone = VStr (PubMed.term_of query f)).
  { split; [reflexivity|]. unfold rq. cbn [rq_params]. apply dict_get_set_eq. }
  unfold session_get. destruct (net tr rq) as [r|].
  - destruct (status r =? 200).
    + destruct (PubMed._parse_search_response (text r)) as [|i ids].
      * destruct Hstop as [rest E]. exists rest. auto.
      * destruct (pubmed_fetch_trace net self (i :: ids) (tr ++ [Request rq])) as [rest E].
        exists rest. split; [|exact Hrq]. rewrite E. now rewrite <- app_assoc.
    + destruct Hstop as [rest E]. exists rest. auto.
  - destruct Hstop as [rest E]. exists rest. auto.
Qed.

(** C1, on PubMed and Semantic Scholar. Whatever the query is, the empty
    string and whitespace included, the first thing either client does is
    to send it: PubMed as the [term] of an [esearch] request, Semantic
    Scholar as the [query] of a [paper/search] request.  Neither has the
    guard the arXiv client has. *)
Theorem blank_query_is_sent `{Lib} (net : network)
    (pubmed : PubMed.PubMedClient) (scholar : Scholar.SemanticScholarClient)
    (query : str) (f : filters) (tr : trace) :
  (exists rq rest,
      snd (PubMed.search_papers net pubmed query f tr) = tr ++ Request rq :: rest /\
      rq_url rq = PubMed.base_url pubmed ++ lit "/esearch.fcgi" /\
      dict_get (rq_params rq) (lit "term") VNone = VStr (PubMed.term_of query f)) /\
  (exists rq rest,
      snd (Scholar.search_papers net scholar query f tr) = tr ++ Request rq :: rest /\
      dict_get (rq_params rq) (lit "query") VNone = VStr query).
Proof. split; [apply pubmed_sends_query | apply ScholarFacts.scholar_sends_query]. Qed.

Example pubmed_blank_query :
  PubMed.search_papers (H := Samples.plain_lib) Samples.always_429 (PubMed.new None)
    (lit "   ") no_filters []
  = ([], [Request {| rq_url := lit "https://eutils.ncbi.nlm.nih.gov/entrez/eutils/esearch.fcgi";
                     rq_params := [(lit "db", VStr (lit "pubmed"));
                                   (lit "term", VStr (lit "   "));
                                   (lit "retmax", VInt 100);
                                   (lit "retmode", VStr (lit "xml"))] |}]).
Proof. reflexivity. Qed.

Example arxiv_blank_query_sends_nothing :
  Arxiv.search_papers (H := Samples.plain_lib) Samples.always_429 Arxiv.new
    (lit "   ") no_filters []
  = (Some [], []).
Proof. reflexivity. Qed.

(** Against a server that answers 429 to everything, the manager still
    returns a list: arXiv's [None] makes [len] raise, which is swallowed.
    Seven requests are sent: three by arXiv, three by Semantic Scholar,
    one by PubMed. *)
Example rate_limited_fan_out :
  let run :=
    Manager.search_papers_all_sources
      (Registry.all_sources (H := Samples.plain_lib) Samples.always_429 [])
      (lit "test")
      (Samples.select [lit "arxiv"; lit "semanticscholar"; lit "pubmed"]) [] in
  fst run = Ok [] /\ length (requests_of (snd run)) = 7%nat.
Proof. vm_compute. split; reflexivity. Qed.

End ClientFacts.

(* ===================================================================== *)
(** * More about the merge of [search_papers_all_sources] *)
(* ===================================================================== *)

Module MergeFacts.
Import Manager PyFacts ManagerFacts.

(** A property of the loop state that adding a record with an unseen id
    keeps is kept by the whole loop. *)
Lemma dedupe_invariant (P : state -> Prop) n l :
  (forall st d k,
      P st -> In (VDict d) l -> has_id k (VDict d) = true -> k ∉ seen_paper_ids st ->
      P {| seen_paper_ids := {[k]} ∪ seen_paper_ids st;
           all_papers := all_papers st ++ [tagged n d] |}) ->
  forall st, P st -> P (snd (dedupe n l st)).
Proof.
  induction l as [|v l IH]; intros Hadd st Hst; simpl; [exact Hst|].
  destruct (dedupe_step_effect n v st) as [e _ | _ | d k -> Hk Hnew]; simpl; auto.
  - apply IH; [|exact Hst]. intros st' d k H1 H2. apply Hadd; [exact H1 | now right].
  - apply IH.
    + intros st' d' k' H1 H2. apply Hadd; [exact H1 | now right].
    + apply Hadd; [exact Hst | now left | exact Hk | exact Hnew].
Qed.

Lemma merge_invariant (P : state -> Prop) calls :
  (forall n st d k,
      P st -> has_id k (VDict d) = true -> k ∉ seen_paper_ids st ->
      P {| seen_paper_ids := {[k]} ∪ seen_paper_ids st;
           all_papers := all_papers st ++ [tagged n d] |}) ->
  forall st, P st -> P (merge calls st).
Proof.
  intros Hadd. induction calls as [|[n a] calls IH]; intros st Hst; [exact Hst|].
  rewrite merge_cons. apply IH. apply dedupe_invariant; [|exact Hst].
  intros st' d k H1 _. now apply Hadd.
Qed.

Lemma ids_are_seen_add n st d k :
  ids_are_seen st -> has_id k (VDict d) = true -> k ∉ seen_paper_ids st ->
  ids_are_seen {| seen_paper_ids := {[k]} ∪ seen_paper_ids st;
                  all_papers := all_papers st ++ [tagged n d] |}.
Proof.
  intros [Hnd Hall] Hk Hnew. apply has_id_inv in Hk as (d' & E & _ & Hk).
  injection E as <-. split; simpl.
  - rewrite map_app. simpl. rewrite id_of_tagged, Hk.
    apply NoDup_app. split; [exact Hnd|]. split; [|apply NoDup_singleton].
    intros x Hx Hx'. apply list_elem_of_singleton in Hx'. subst x.
    apply list_elem_of_In, in_map_iff in Hx as (d' & Hd' & Hin).
    rewrite List.Forall_forall in Hall. destruct (Hall d' Hin) as (k' & Hk' & Hseen).
    rewrite Hd' in Hk'. injection Hk' as <-. contradiction.
  - apply Forall_app. split.
    + eapply List.Forall_impl; [|exact Hall]. intros d' (k' & Hk' & Hseen).
      exists k'. split; [exact Hk'|]. apply elem_of_union_r. exact Hseen.
    + constructor; [|constructor]. exists k. rewrite id_of_tagged.
      split; [exact Hk|]. apply elem_of_union_l, elem_of_singleton. reflexivity.
Qed.

(** No two records of the merged list have the same id, whatever the
    sources answer: the ids, as the set [seen_paper_ids] compares them, are
    pairwise different. *)
Theorem merged_ids_distinct {W : Type} (sources : gmap str (@client W))
    (query : str) (f : filters) (w : W) :
  NoDup (map (fun d => hash_key (id_of d))
             (papers_of (fst (search_papers_all_sources sources query f w)))).
Proof.
  rewrite search_all_merge. simpl.
  apply (merge_invariant ids_are_seen).
  - intros n st d k. apply ids_are_seen_add.
  - split; constructor.
Qed.

(** ** The order of the merged list *)

Lemma dedupe_order n l : forall st,
  exists new,
    all_papers (snd (dedupe n l st)) = all_papers st ++ new /\ sublist new (records n l).
Proof.
  induction l as [|v l IH]; intros st; simpl.
  - exists []. split; [now rewrite app_nil_r | constructor].
  - destruct (dedupe_step_effect n v st) as [e _ | _ | d k -> Hk Hnew]; simpl.
    + exists []. split; [now rewrite app_nil_r | apply sublist_nil_l].
    + destruct (IH st) as (new & E & Hs). exists new. split; [exact E|].
      unfold records in *. simpl. apply sublist_inserts_l. exact Hs.
    + destruct (IH {| seen_paper_ids := {[k]} ∪ seen_paper_ids st;
                      all_papers := all_papers st ++ [tagged n d] |}) as (new & E & Hs).
      exists (tagged n d :: new). rewrite E. simpl.
      split; [now rewrite <- app_assoc|]. unfold records in *. simpl.
      apply sublist_skip. exact Hs.
Qed.

Lemma merge_order calls : forall st,
  exists new,
    all_papers (merge calls st) = all_papers st ++ new /\ sublist new (candidates calls).
Proof.
  induction calls as [|[n a] calls IH]; intros st.
  - exists []. split; [simpl; now rewrite app_nil_r | constructor].
  - rewrite merge_cons. destruct (dedupe_order n (items_of a) st) as (new1 & E1 & H1).
    destruct (IH (snd (dedupe n (items_of a) st))) as (new2 & E2 & H2).
    exists (new1 ++ new2). rewrite E2, E1, <- app_assoc. split; [reflexivity|].
    unfold candidates. simpl. apply sublist_app; assumption.
Qed.

(** The merged list keeps the order of arrival: it is what remains of the
    sources' records, taken source after source in the order in which the
    sources were asked and, within a source, in the order of its answer,
    when some of them are left out.  No record is moved, and none is made
    up. *)
Theorem merged_keeps_arrival_order {W : Type} (sources : gmap str (@client W))
    (query : str) (f : filters) (w : W) :
  sublist (papers_of (fst (search_papers_all_sources sources query f w)))
          (candidates (answers sources query f (selected_sources f) w)).
Proof.
  rewrite search_all_merge. simpl.
  destruct (merge_order (answers sources query f (selected_sources f) w)
              {| seen_paper_ids := ∅; all_papers := [] |}) as (new & -> & Hs).
  exact Hs.
Qed.

(** ** Sources that are not selected *)

Lemma for_sources_insert {W : Type} (sources : gmap str (@client W))
    (query : str) (f : filters) (n : str) (c : @client W) selected : forall st w,
  n ∉ selected ->
  for_sources (<[n := c]> sources) query f selected st w
  = for_sources sources query f selected st w.
Proof.
  induction selected as [|m rest IH]; intros st w Hn; [reflexivity|].
  apply not_elem_of_cons in Hn as [Hne Hn]. cbn [for_sources]. unfold client in *.
  rewrite lookup_insert_ne by congruence.
  destruct (sources !! m) as [c'|]; [|now apply IH].
  destruct (c' query f w) as [a w1].
  destruct (swallow (absorb m a st)) as [[u|e] st1]; [now apply IH | reflexivity].
Qed.

(** A source that is registered but not selected plays no part: with or
    without it in the registry, the search returns the same list and does
    the same to the world.  It is never called. *)
Theorem unselected_source_plays_no_part {W : Type} (sources : gmap str (@client W))
    (query : str) (f : filters) (w : W) (n : str) (c : @client W) :
  n ∉ selected_sources f ->
  search_papers_all_sources (<[n := c]> sources) query f w
  = search_papers_all_sources sources query f w.
Proof.
  intros Hn. unfold search_papers_all_sources. now rewrite for_sources_insert.
Qed.

Lemma unselected_source_plays_no_part_witness :
  (lit "third" ∉ selected_sources (Samples.select [lit "first"; lit "second"])) /\
  search_papers_all_sources
    (<[lit "third" := Samples.failing]> (Samples.two_sources (VStr (lit "X"))))
    (lit "q") (Samples.select [lit "first"; lit "second"]) tt
  = search_papers_all_sources (Samples.two_sources (VStr (lit "X")))
      (lit "q") (Samples.select [lit "first"; lit "second"]) tt.
Proof.
  assert (H : lit "third" ∉ selected_sources (Samples.select [lit "first"; lit "second"])).
  { simpl. intros Hin. apply elem_of_cons in Hin as [E|Hin]; [discriminate E|].
    apply elem_of_cons in Hin as [E|Hin]; [discriminate E|].
    apply elem_of_nil in Hin. exact Hin. }
  split; [exact H|].
  exact (unselected_source_plays_no_part (Samples.two_sources (VStr (lit "X"))) (lit "q")
           (Samples.select [lit "first"; lit "second"]) tt (lit "third") Samples.failing H).
Defined.

End MergeFacts.

(* ===================================================================== *)
(** * The registry of the manager *)
(* ===================================================================== *)

Module RegistryFacts.
Import PyFacts PaperSourceManager.

Lemma od_get_set {A} (d : list (str * A)) k v k' :
  od_get (od_set d k v) k' = if str_eqb k k' then Some v else od_get d k'.
Proof.
  induction d as [|[k0 v0] d IH]; simpl; [reflexivity|].
  destruct (str_eqb k0 k) eqn:E; simpl.
  - apply str_eqb_eq in E. subst k0. destruct (str_eqb k k'); reflexivity.
  - destruct (str_eqb k0 k') eqn:E'; [|exact IH].
    destruct (str_eqb k k') eqn:E2; [|reflexivity].
    apply str_eqb_eq in E'. apply str_eqb_eq in E2. subst.
    assert (H : str_eqb k' k' = true) by now apply str_eqb_eq. congruence.
Qed.

Lemma od_set_keys {A} (d : list (str * A)) k v :
  map fst (od_set d k v)
  = if bool_decide (k ∈ map fst d) then map fst d else map fst d ++ [k].
Proof.
  induction d as [|[k0 v0] d IH]; simpl; [reflexivity|].
  destruct (str_eqb k0 k) eqn:E; simpl.
  - apply str_eqb_eq in E. subst k0. rewrite bool_decide_eq_true_2; [reflexivity | left].
  - rewrite IH. assert (Hne : k <> k0).
    { intros ->. assert (H : str_eqb k0 k0 = true) by now apply str_eqb_eq. congruence. }
    destruct (bool_decide (k ∈ map fst d)) eqn:Hin.
    + apply bool_decide_eq_true in Hin. rewrite bool_decide_eq_true_2; [reflexivity | now right].
    + apply bool_decide_eq_false in Hin. rewrite bool_decide_eq_false_2; [reflexivity|].
      intros [?|?]%elem_of_cons; contradiction.
Qed.

Lemma od_set_fresh {A} (d : list (str * A)) k v :
  k ∉ map fst d -> od_set d k v = d ++ [(k, v)].
Proof.
  induction d as [|[k0 v0] d IH]; simpl; intros Hk; [reflexivity|].
  apply not_elem_of_cons in Hk as [Hne Hk].
  destruct (str_eqb k0 k) eqn:E; [apply str_eqb_eq in E; congruence|].
  now rewrite IH.
Qed.

Section WithWorld.
Context {W V : Type}.
Implicit Types (self : PaperSourceManager W V) (s : source W V) (l : list (source W V)).

Lemma get_source_fold l : forall self n,
  get_source (fold_left register_source l self) n
  = match last (List.filter (fun s => str_eqb (get_source_name s) n) l) with
    | Some s => Some s
    | None => get_source self n
    end.
Proof.
  induction l as [|s l IH]; intros self n; simpl; [reflexivity|].
  rewrite IH. unfold get_source, register_source. simpl. rewrite od_get_set.
  destruct (str_eqb (get_source_name s) n); [|reflexivity].
  rewrite last_cons. destruct (last _); reflexivity.
Qed.

Lemma registry_of_lookup self n :
  registry_of self !! n = search_papers <$> get_source self n.
Proof.
  unfold registry_of, get_source. induction (sources self) as [|[k s] d IH]; simpl.
  - apply lookup_empty.
  - destruct (str_eqb k n) eqn:E.
    + apply str_eqb_eq in E. subst k. apply lookup_insert_eq.
    + rewrite lookup_insert_ne; [exact IH|]. intros ->.
      assert (H : str_eqb n n = true) by now apply str_eqb_eq. congruence.
Qed.

Lemma names_after_register self s :
  get_all_sources (register_source self s)
  = if bool_decide (get_source_name s ∈ get_all_sources self)
    then get_all_sources self
    else get_all_sources self ++ [get_source_name s].
Proof. apply od_set_keys. Qed.

Lemma names_fold l : forall self,
  NoDup (get_all_sources self) ->
  NoDup (get_all_sources (fold_left register_source l self)) /\
  (forall n, n ∈ get_all_sources (fold_left register_source l self) <->
             n ∈ get_all_sources self \/ exists s, In s l /\ get_source_name s = n).
Proof.
  induction l as [|s l IH]; intros self Hnd; simpl.
  - split; [exact Hnd|]. intros n. split; [now left | intros [H|(s & [] & _)]; exact H].
  - assert (Hnd' : NoDup (get_all_sources (register_source self s))).
    { rewrite names_after_register.
      destruct (bool_decide _) eqn:E; [exact Hnd|]. apply bool_decide_eq_false in E.
      apply NoDup_app. split; [exact Hnd|]. split; [|apply NoDup_singleton].
      intros x Hx Hx'. apply list_elem_of_singleton in Hx'. now subst x. }
    destruct (IH _ Hnd') as [H1 H2]. split; [exact H1|]. intros n. rewrite H2.
    rewrite names_after_register. split.
    + intros [Hn | (s' & Hs' & E)].
      * destruct (bool_decide _) eqn:Eb; [now left|].
        apply elem_of_app in Hn as [Hn|Hn]; [now left|].
        apply list_elem_of_singleton in Hn. right. exists s. split; [now left | now symmetry].
      * right. exists s'. split; [now right | exact E].
    + intros [Hn | (s' & [<-|Hs'] & E)].
      * left. destruct (bool_decide _); [exact Hn | apply elem_of_app; now left].
      * left. destruct (bool_decide _) eqn:Eb.
        -- apply bool_decide_eq_true in Eb. now rewrite <- E.
        -- apply elem_of_app. right. apply list_elem_of_singleton. now symmetry.
      * right. exists s'. split; assumption.
Qed.

(** The registry is keyed by the names of the sources.  Looking a name up
    gives the source that was registered last under it, [None] when there
    is none, and that source is the one [search_papers_all_sources] asks
    under that name.  [get_all_sources] lists the names of the registered
    sources, each once: registering a source under a name that is there
    leaves the list as it is, a new name goes to the end. *)
Theorem registry_is_keyed_by_name l :
  (forall n,
      get_source (registered l) n
      = last (List.filter (fun s => str_eqb (get_source_name s) n) l) /\
      registry_of (registered l) !! n = search_papers <$> get_source (registered l) n) /\
  NoDup (get_all_sources (registered l)) /\
  (forall n, n ∈ get_all_sources (registered l) <->
             exists s, In s l /\ get_source_name s = n) /\
  (forall s, get_all_sources (register_source (registered l) s)
             = if bool_decide (get_source_name s ∈ get_all_sources (registered l))
               then get_all_sources (registered l)
               else get_all_sources (registered l) ++ [get_source_name s]).
Proof.
  split.
  { intros n. split; [|apply registry_of_lookup].
    unfold registered. rewrite get_source_fold. destruct (last _); reflexivity. }
  destruct (names_fold l init) as [H1 H2]; [constructor|].
  split; [exact H1|]. split; [|intros s; apply names_after_register].
  intros n. unfold registered. rewrite H2. split; [|now right].
  intros [H|H]; [|exact H]. apply elem_of_nil in H. contradiction.
Qed.

Lemma details_loop_answers (items : list (str * source W V)) paper_id :
  forall results w,
    NoDup (map fst results ++ map fst items) ->
    fst (details_loop items paper_id results w)
    = results ++ details_answers items paper_id w.
Proof.
  induction items as [|[n s] items IH]; intros results w Hnd; simpl.
  - now rewrite app_nil_r.
  - assert (Hfresh : n ∉ map fst results).
    { apply NoDup_app in Hnd as (_ & Hdis & _). intros Hn. apply (Hdis n Hn). now left. }
    assert (Hnext : forall d, NoDup (map fst (results ++ [(n, d)]) ++ map fst items)).
    { intros d. rewrite map_app, <- app_assoc. exact Hnd. }
    destruct (get_paper_details s paper_id w) as [[v|e] w1];
      rewrite od_set_fresh by exact Hfresh;
      rewrite IH by apply Hnext; now rewrite <- app_assoc.
Qed.

Lemma details_answers_keys (items : list (str * source W V)) paper_id : forall w,
  map fst (details_answers items paper_id w) = map fst items.
Proof.
  induction items as [|[n s] items IH]; intros w; simpl; [reflexivity|].
  destruct (get_paper_details s paper_id w) as [[v|e] w1]; simpl; now rewrite IH.
Qed.

(** [get_paper_details_all_sources] asks every registered source, in the
    order of [get_all_sources], and returns one entry for each under its
    name: what the source returned, or [{}] when its call raised, after
    which the next sources are asked all the same. *)
Theorem details_from_every_source l (paper_id : str) (w : W) :
  fst (get_paper_details_all_sources (registered l) paper_id w)
  = details_answers (sources (registered l)) paper_id w /\
  map fst (fst (get_paper_details_all_sources (registered l) paper_id w))
  = get_all_sources (registered l).
Proof.
  assert (E : fst (get_paper_details_all_sources (registered l) paper_id w)
              = details_answers (sources (registered l)) paper_id w).
  { unfold get_paper_details_all_sources. rewrite details_loop_answers; [reflexivity|].
    simpl. destruct (names_fold l init) as [H _]; [constructor | exact H]. }
  split; [exact E|]. rewrite E. apply details_answers_keys.
Qed.

End WithWorld.

End RegistryFacts.

(* ===================================================================== *)
(** * More about the arXiv query *)
(* ===================================================================== *)

Module QueryFacts.
Import PyFacts StrFacts Arxiv ArxivFacts.

(** ** The characters of an encoded query *)

Lemma hex_digit_safe n : (n < 16)%N -> Url.always_safe (Url.hex_digit n) = true.
Proof.
  intros Hn.
  assert (H : In n [0; 1; 2; 3; 4; 5; 6; 7; 8; 9; 10; 11; 12; 13; 14; 15]%N).
  { simpl. lia. }
  simpl in H. repeat (destruct H as [<-|H]; [reflexivity|]). contradiction.
Qed.

Lemma percent_chars safe b :
  (b < 256)%N ->
  Forall (fun c => Url.always_safe c || existsb (N.eqb c) safe || (c =? 37)%N = true)
         (Url.percent b).
Proof.
  intros Hb. unfold Url.percent. repeat constructor.
  - now rewrite orb_true_r.
  - rewrite hex_digit_safe; [reflexivity|]. apply N.Div0.div_lt_upper_bound. lia.
  - rewrite hex_digit_safe; [reflexivity|]. apply N.mod_upper_bound. lia.
Qed.

Lemma utf8_encode_bytes c :
  match Url.utf8_encode c with
  | Ok bytes => Forall (fun b => (b < 256)%N) bytes
  | Raise e => exn_class_of e = UnicodeEncodeError
  end.
Proof.
  unfold Url.utf8_encode.
  destruct (c <? 128)%N eqn:E1; [apply N.ltb_lt in E1; repeat constructor; lia|].
  destruct (c <? 2048)%N eqn:E2.
  { apply N.ltb_lt in E2. pose proof (N.mod_upper_bound c 64).
    assert (c / 64 < 32)%N by (apply N.Div0.div_lt_upper_bound; lia).
    repeat constructor; lia. }
  destruct ((55296 <=? c)%N && (c <=? 57343)%N); [reflexivity|].
  destruct (c <? 65536)%N eqn:E3.
  { apply N.ltb_lt in E3. pose proof (N.mod_upper_bound c 64).
    pose proof (N.mod_upper_bound (c / 64) 64).
    assert (c / 4096 < 16)%N by (apply N.Div0.div_lt_upper_bound; lia).
    repeat constructor; lia. }
  destruct (c <? 1114112)%N eqn:E4; [|reflexivity].
  apply N.ltb_lt in E4. pose proof (N.mod_upper_bound c 64).
  pose proof (N.mod_upper_bound (c / 64) 64). pose proof (N.mod_upper_bound (c / 4096) 64).
  assert (c / 262144 < 5)%N by (apply N.Div0.div_lt_upper_bound; lia).
  repeat constructor; lia.
Qed.

Lemma quote_char_chars safe c :
  match Url.quote_char safe c with
  | Ok q => Forall (fun c => Url.always_safe c || existsb (N.eqb c) safe || (c =? 37)%N = true) q
  | Raise e => exn_class_of e = UnicodeEncodeError
  end.
Proof.
  unfold Url.quote_char, Url.is_safe.
  destruct ((c <? 128)%N && (Url.always_safe c || existsb (N.eqb c) safe)) eqn:E.
  - apply andb_prop in E as [_ E]. repeat constructor. now rewrite E.
  - pose proof (utf8_encode_bytes c) as H.
    destruct (Url.utf8_encode c) as [bytes|e]; simpl; [|exact H].
    induction H as [|b bytes Hb _ IH]; cbn [map concat]; [constructor|].
    apply Forall_app. split; [now apply percent_chars | exact IH].
Qed.

Lemma quote_chars safe s :
  match Url.quote s safe with
  | Ok q => Forall (fun c => Url.always_safe c || existsb (N.eqb c) safe || (c =? 37)%N = true) q
  | Raise e => exn_class_of e = UnicodeEncodeError
  end.
Proof.
  induction s as [|c s IH]; simpl; [constructor|].
  pose proof (quote_char_chars safe c) as Hc.
  destruct (Url.quote_char safe c) as [q|e]; simpl; [|exact Hc].
  destruct (Url.quote s safe) as [rest|e]; simpl; [|exact IH].
  apply Forall_app. split; assumption.
Qed.

(** Whatever the query and the filters, the encoded query is made of ASCII
    letters, digits, underscore, dot, hyphen and tilde, of the characters
    kept safe (colon, double quote, parentheses, square brackets, plus) and
    of the percent sign: no blank, no character outside ASCII.  The only
    way for the translation to fail is a character that UTF-8 cannot
    encode. *)
Theorem encoded_query_alphabet (self : ArxivClient) (query : str) (f : filters) :
  match _build_search_query self query f with
  | Ok encoded => Forall (fun c => url_char c = true) encoded
  | Raise e => exn_class_of e = UnicodeEncodeError
  end.
Proof. unfold _build_search_query. apply quote_chars. Qed.

(** ** A year range that cannot be used *)

Lemma date_filter_unusable f :
  (forall s e, ~ valid_range f s e) -> date_filter_of f = [].
Proof.
  intros H. unfold date_filter_of.
  destruct (f_year_range f) as [[[s|] [e|]]|] eqn:Hf; try reflexivity.
  simpl. destruct (s =? 0) eqn:Hs; [reflexivity|]. destruct (e =? 0) eqn:He; [reflexivity|].
  destruct (s <=? e) eqn:Hle; [|reflexivity]. exfalso. apply (H s e).
  apply Z.eqb_neq in Hs. apply Z.eqb_neq in He. apply Z.leb_le in Hle.
  repeat split; assumption.
Qed.

(** A year range with start after end, or with a bound that is zero or
    [None], is ignored without an error: the query is translated as if
    there were no filters. *)
Theorem unusable_year_range_is_ignored (self : ArxivClient) (query : str) (f : filters) :
  (forall s e, ~ valid_range f s e) ->
  _build_search_query self query f = _build_search_query self query no_filters.
Proof.
  intros H. unfold _build_search_query. now rewrite (date_filter_unusable f H).
Qed.

Lemma unusable_year_range_is_ignored_witness :
  (forall s e, ~ valid_range (Samples.years 2024 2020) s e) /\
  _build_search_query new (lit "graphs") (Samples.years 2024 2020)
  = Ok (lit "(ti:graphs%20OR%20abs:graphs)").
Proof.
  assert (H : forall s e, ~ valid_range (Samples.years 2024 2020) s e).
  { intros s e (Hf & _ & _ & Hle). simpl in Hf. injection Hf as <- <-. lia. }
  split; [exact H|].
  rewrite (unusable_year_range_is_ignored new (lit "graphs") (Samples.years 2024 2020) H).
  reflexivity.
Defined.

(** ** Queries in arXiv's own syntax *)

Lemma starts_with_solid m s ws :
  solid m -> blank ws -> starts_with m (s ++ ws) = starts_with m s.
Proof.
  intros Hm Hws. revert s. induction Hm as [|a m Ha _ IH]; intros s; [now destruct s, ws|].
  destruct s as [|b s]; simpl.
  - destruct Hws as [|c ws Hc _]; [reflexivity|]. simpl.
    destruct (a =? c)%N eqn:E; [|reflexivity]. apply N.eqb_eq in E. congruence.
  - now rewrite IH.
Qed.

Lemma contains_blank m ws : solid m -> m <> [] -> blank ws -> contains m ws = false.
Proof.
  intros Hm Hne Hws. induction Hws as [|c ws Hc _ IH]; simpl.
  - destruct m; [contradiction | reflexivity].
  - rewrite IH, orb_false_r. destruct Hm as [|a m Ha _]; [contradiction|]. simpl.
    destruct (a =? c)%N eqn:E; [|reflexivity]. apply N.eqb_eq in E. congruence.
Qed.

Lemma contains_blank_r m s ws :
  solid m -> m <> [] -> blank ws -> contains m (s ++ ws) = contains m s.
Proof.
  intros Hm Hne Hws. induction s as [|b s IH].
  - simpl app. rewrite (contains_blank m ws Hm Hne Hws). destruct m; [contradiction | reflexivity].
  - change ((b :: s) ++ ws) with (b :: (s ++ ws)). cbn [contains].
    rewrite IH. f_equal. apply (starts_with_solid m (b :: s) ws Hm Hws).
Qed.

Lemma contains_blank_l m s ws :
  solid m -> m <> [] -> blank ws -> contains m (ws ++ s) = contains m s.
Proof.
  intros Hm Hne Hws. induction Hws as [|c ws Hc _ IH]; [reflexivity|].
  change ((c :: ws) ++ s) with (c :: (ws ++ s)). cbn [contains]. rewrite IH.
  destruct Hm as [|a m Ha _]; [contradiction|]. simpl.
  destruct (a =? c)%N eqn:E; [|reflexivity]. apply N.eqb_eq in E. congruence.
Qed.

(** Stripping a string neither adds nor removes an occurrence of a word. *)
Lemma contains_strip_solid m s :
  solid m -> m <> [] -> contains m (strip s) = contains m s.
Proof.
  intros Hm Hne. destruct (strip_split s) as (ws1 & ws2 & H1 & H2 & E).
  rewrite E at 2. rewrite (contains_blank_l m _ ws1 Hm Hne H1).
  now rewrite (contains_blank_r m _ ws2 Hm Hne H2).
Qed.

Lemma replace_absent old new s : contains old s = false -> replace old new s = s.
Proof.
  unfold replace. induction s as [|c s IH]; [reflexivity|]. cbn [contains replace_from].
  intros H. apply orb_false_elim in H as [H1 H2]. rewrite H1. f_equal. now apply IH.
Qed.

Lemma advanced_syntax_solid : Forall (fun m => solid m /\ m <> []) advanced_syntax.
Proof. repeat constructor; discriminate. Qed.

(** A query that has one of the markers [ti:], [abs:], [au:], [cat:], [AND],
    [OR], [ANDNOT] somewhere in it, be it in the middle of a word, and no
    lower-case [and], [or], [andnot] between two spaces, is sent as it was
    typed: stripped, followed by the date clause if there is one, and
    encoded.  It is not searched for in titles and abstracts. *)
Theorem advanced_query_is_sent_as_typed (self : ArxivClient) (query : str) (f : filters) :
  Exists (fun marker => contains marker query = true) advanced_syntax ->
  Forall (fun op => contains (lit " " ++ ascii_lower op ++ lit " ") query = false)
         operators ->
  _build_search_query self query f
  = Url.quote (strip query ++ date_filter_of f) safe_chars.
Proof.
  intros Hm Hops. unfold _build_search_query, search_query_of.
  assert (E : existsb (fun prefix => contains prefix (strip query)) advanced_syntax = true).
  { apply existsb_exists. apply List.Exists_exists in Hm as (m & Hin & Hc).
    exists m. split; [exact Hin|].
    pose proof advanced_syntax_solid as Hs. rewrite List.Forall_forall in Hs.
    destruct (Hs m Hin) as [H1 H2]. now rewrite contains_strip_solid. }
  rewrite E. do 2 f_equal.
  assert (Hops' : Forall (fun op => contains (lit " " ++ ascii_lower op ++ lit " ")
                                      (strip query) = false) operators).
  { eapply List.Forall_impl; [|exact Hops]. intros op Hop.
    destruct (contains _ (strip query)) eqn:Ec; [|reflexivity].
    apply contains_strip in Ec. congruence. }
  revert Hops'. generalize (strip query) as q. generalize operators as ops.
  induction ops as [|op ops IH]; intros q Hq; [reflexivity|].
  inversion Hq as [|? ? H1 H2]; subst. simpl.
  unfold upper_case_operator at 2. rewrite (replace_absent _ _ q H1). now apply IH.
Qed.

Lemma advanced_query_is_sent_as_typed_witness :
  Exists (fun marker => contains marker (lit " SENSOR networks")  = true) advanced_syntax /\
  _build_search_query new (lit " SENSOR networks") no_filters
  = Ok (lit "SENSOR%20networks").
Proof.
  assert (H1 : Exists (fun marker => contains marker (lit " SENSOR networks") = true)
                 advanced_syntax).
  { do 5 apply Exists_cons_tl. apply Exists_cons_hd. reflexivity. }
  assert (H2 : Forall (fun op => contains (lit " " ++ ascii_lower op ++ lit " ")
                                   (lit " SENSOR networks") = false) operators).
  { repeat constructor. }
  split; [exact H1|].
  rewrite (advanced_query_is_sent_as_typed new (lit " SENSOR networks") no_filters H1 H2).
  reflexivity.
Defined.

End QueryFacts.

(* ===================================================================== *)
(** * The encoded query read back *)
(* ===================================================================== *)

Module EncodingFacts.
Import PyFacts StrFacts Arxiv ArxivFacts.

(** ** Decoding what [quote] wrote *)

Lemma below_cases (P : N -> Prop) (n : nat) :
  Forall P (map N.of_nat (seq 0 n)) -> forall c, (c < N.of_nat n)%N -> P c.
Proof.
  intros H c Hc. rewrite List.Forall_forall in H. apply H.
  apply in_map_iff. exists (N.to_nat c). split; [lia|]. apply in_seq. lia.
Qed.

Lemma hex_value_digit n : (n < 16)%N -> Url.hex_value (Url.hex_digit n) = Some n.
Proof.
  apply (below_cases (fun n => Url.hex_value (Url.hex_digit n) = Some n) 16).
  repeat constructor.
Qed.

Lemma unreserved_ascii : Forall (fun x => (x < 128)%N) Url.unreserved.
Proof.
  apply List.Forall_forall. intros x Hin.
  assert (Hb : forallb (fun x => (x <? 128)%N) Url.unreserved = true)
    by (vm_compute; reflexivity).
  rewrite forallb_forall in Hb. apply N.ltb_lt. now apply Hb.
Qed.

Lemma member_ascii l c :
  Forall (fun x => (x < 128)%N) l -> existsb (N.eqb c) l = true -> (c < 128)%N.
Proof.
  intros Hl H. apply existsb_exists in H as (x & Hx & E).
  apply N.eqb_eq in E. subst x. rewrite List.Forall_forall in Hl. apply Hl. exact Hx.
Qed.

Lemma literal_unfold kept c :
  Url.literal kept c = existsb (N.eqb c) (Url.unreserved ++ kept).
Proof. unfold Url.literal. reflexivity. Qed.

Lemma literal_ascii kept c :
  Forall (fun x => (x < 128)%N) kept -> Url.literal kept c = true -> (c < 128)%N.
Proof.
  intros Hk H. rewrite literal_unfold in H.
  apply (member_ascii (Url.unreserved ++ kept)); [|exact H].
  apply Forall_app. split; [exact unreserved_ascii | exact Hk].
Qed.

Lemma octets_percent kept b rest :
  (b < 256)%N -> Url.literal kept b = false ->
  Url.octets kept (Url.percent b ++ rest) = option_map (cons b) (Url.octets kept rest).
Proof.
  intros Hb Hl. unfold Url.percent. cbn [app Url.octets].
  change (37 =? 37)%N with true. cbv iota.
  rewrite !hex_value_digit.
  - replace (16 * (b / 16) + b mod 16)%N with b by (rewrite <- N.div_mod'; reflexivity).
    now rewrite Hl.
  - apply N.mod_upper_bound. lia.
  - apply N.Div0.div_lt_upper_bound. lia.
Qed.

Lemma octets_escaped kept bytes rest :
  Forall (fun b => (b < 256)%N /\ Url.literal kept b = false) bytes ->
  Url.octets kept (concat (map Url.percent bytes) ++ rest)
  = option_map (app bytes) (Url.octets kept rest).
Proof.
  induction 1 as [|b bytes [Hb Hl] _ IH]; cbn [map concat].
  - simpl. now destruct (Url.octets kept rest).
  - rewrite <- app_assoc, (octets_percent kept b _ Hb Hl), IH.
    now destruct (Url.octets kept rest).
Qed.

(** The kept characters of the arXiv query are the characters that [quote]
    leaves as they are. *)
Lemma is_safe_literal c : Url.is_safe safe_chars c = Url.literal safe_chars c.
Proof.
  destruct (c <? 128)%N eqn:E.
  - apply N.ltb_lt in E. revert c E.
    apply (below_cases (fun c => Url.is_safe safe_chars c = Url.literal safe_chars c) 128).
    apply List.Forall_forall. intros c Hc.
    assert (Hb : forallb (fun c => bool_decide (Url.is_safe safe_chars c
                                                = Url.literal safe_chars c))
                   (map N.of_nat (seq 0 128)) = true) by (vm_compute; reflexivity).
    rewrite forallb_forall in Hb. specialize (Hb c Hc). now apply bool_decide_eq_true in Hb.
  - unfold Url.is_safe. rewrite E. simpl. symmetry.
    destruct (Url.literal safe_chars c) eqn:Hl; [|reflexivity].
    apply literal_ascii in Hl; [apply N.ltb_ge in E; lia|].
    repeat constructor; reflexivity.
Qed.

Lemma continuation_bits x : (x < 64)%N -> Url.continuation (128 + x) = Some x.
Proof.
  intros Hx. unfold Url.continuation.
  replace (128 <=? 128 + x)%N with true by (symmetry; apply N.leb_le; lia).
  replace (128 + x <? 192)%N with true by (symmetry; apply N.ltb_lt; lia).
  simpl. f_equal. lia.
Qed.

Lemma code_points_1 b rest :
  (b < 128)%N ->
  Url.code_points (b :: rest) = option_map (cons b) (Url.code_points rest).
Proof. intros Hb. cbn [Url.code_points]. apply N.ltb_lt in Hb. now rewrite Hb. Qed.

Lemma code_points_2 b x1 rest :
  (192 <= b < 224)%N -> (x1 < 64)%N -> (128 <= (b - 192) * 64 + x1)%N ->
  Url.code_points (b :: (128 + x1)%N :: rest)
  = option_map (cons ((b - 192) * 64 + x1)%N) (Url.code_points rest).
Proof.
  intros Hb H1 Hc. cbn [Url.code_points]. rewrite (continuation_bits x1 H1).
  replace (b <? 128)%N with false by (symmetry; apply N.ltb_ge; lia).
  replace (b <? 192)%N with false by (symmetry; apply N.ltb_ge; lia).
  replace (b <? 224)%N with true by (symmetry; apply N.ltb_lt; lia).
  replace ((b - 192) * 64 + x1 <? 128)%N with false by (symmetry; apply N.ltb_ge; lia).
  reflexivity.
Qed.

Lemma code_points_3 b x1 x2 rest :
  (224 <= b < 240)%N -> (x1 < 64)%N -> (x2 < 64)%N ->
  (2048 <= ((b - 224) * 64 + x1) * 64 + x2)%N ->
  ((55296 <=? ((b - 224) * 64 + x1) * 64 + x2)
   && (((b - 224) * 64 + x1) * 64 + x2 <=? 57343))%N = false ->
  Url.code_points (b :: (128 + x1)%N :: (128 + x2)%N :: rest)
  = option_map (cons (((b - 224) * 64 + x1) * 64 + x2)%N) (Url.code_points rest).
Proof.
  intros Hb H1 H2 Hc Hs. cbn [Url.code_points].
  rewrite (continuation_bits x1 H1), (continuation_bits x2 H2).
  replace (b <? 128)%N with false by (symmetry; apply N.ltb_ge; lia).
  replace (b <? 192)%N with false by (symmetry; apply N.ltb_ge; lia).
  replace (b <? 224)%N with false by (symmetry; apply N.ltb_ge; lia).
  replace (b <? 240)%N with true by (symmetry; apply N.ltb_lt; lia).
  rewrite Hs.
  replace (((b - 224) * 64 + x1) * 64 + x2 <? 2048)%N with false
    by (symmetry; apply N.ltb_ge; lia).
  reflexivity.
Qed.

Lemma code_points_4 b x1 x2 x3 rest :
  (240 <= b < 248)%N -> (x1 < 64)%N -> (x2 < 64)%N -> (x3 < 64)%N ->
  (65536 <= (((b - 240) * 64 + x1) * 64 + x2) * 64 + x3 < 1114112)%N ->
  Url.code_points (b :: (128 + x1)%N :: (128 + x2)%N :: (128 + x3)%N :: rest)
  = option_map (cons ((((b - 240) * 64 + x1) * 64 + x2) * 64 + x3)%N)
      (Url.code_points rest).
Proof.
  intros Hb H1 H2 H3 Hc. cbn [Url.code_points].
  rewrite (continuation_bits x1 H1), (continuation_bits x2 H2), (continuation_bits x3 H3).
  replace (b <? 128)%N with false by (symmetry; apply N.ltb_ge; lia).
  replace (b <? 192)%N with false by (symmetry; apply N.ltb_ge; lia).
  replace (b <? 224)%N with false by (symmetry; apply N.ltb_ge; lia).
  replace (b <? 240)%N with false by (symmetry; apply N.ltb_ge; lia).
  replace (b <? 248)%N with true by (symmetry; apply N.ltb_lt; lia).
  replace ((((b - 240) * 64 + x1) * 64 + x2) * 64 + x3 <? 65536)%N with false
    by (symmetry; apply N.ltb_ge; lia).
  replace (1114112 <=? (((b - 240) * 64 + x1) * 64 + x2) * 64 + x3)%N with false
    by (symmetry; apply N.leb_gt; lia).
  reflexivity.
Qed.

(** Linear arithmetic with quotients and remainders by constants. *)
Ltac div_lia := zify; Z.to_euclidean_division_equations; lia.

Lemma code_points_encode c bytes rest :
  Url.utf8_encode c = Ok bytes ->
  Url.code_points (bytes ++ rest) = option_map (cons c) (Url.code_points rest).
Proof.
  unfold Url.utf8_encode.
  destruct (c <? 128)%N eqn:E1.
  { intros [= <-]. apply N.ltb_lt in E1. now apply code_points_1. }
  apply N.ltb_ge in E1.
  destruct (c <? 2048)%N eqn:E2.
  { apply N.ltb_lt in E2. intros [= <-]. cbn [app].
    rewrite code_points_2; [f_equal; f_equal; div_lia | div_lia | div_lia | div_lia]. }
  apply N.ltb_ge in E2.
  destruct ((55296 <=? c)%N && (c <=? 57343)%N) eqn:E3; [discriminate|].
  destruct (c <? 65536)%N eqn:E4.
  { apply N.ltb_lt in E4. intros [= <-]. cbn [app].
    assert (E : (((224 + c / 4096 - 224) * 64 + (c / 64) mod 64) * 64 + c mod 64 = c)%N)
      by div_lia.
    rewrite code_points_3; [now rewrite E | div_lia | div_lia | div_lia | div_lia |].
    now rewrite E. }
  apply N.ltb_ge in E4.
  destruct (c <? 1114112)%N eqn:E5; [|discriminate].
  apply N.ltb_lt in E5. intros [= <-]. cbn [app].
  assert (E : ((((240 + c / 262144 - 240) * 64 + (c / 4096) mod 64) * 64
                + (c / 64) mod 64) * 64 + c mod 64 = c)%N) by div_lia.
  rewrite code_points_4; [now rewrite E | div_lia | div_lia | div_lia | div_lia | div_lia].
Qed.

Lemma utf8_encode_high c bytes :
  (128 <= c)%N -> Url.utf8_encode c = Ok bytes ->
  Forall (fun b => (128 <= b < 256)%N) bytes.
Proof.
  intros Hc. unfold Url.utf8_encode.
  replace (c <? 128)%N with false by (symmetry; apply N.ltb_ge; lia).
  destruct (c <? 2048)%N eqn:E2.
  { apply N.ltb_lt in E2. intros [= <-]. repeat constructor; div_lia. }
  destruct ((55296 <=? c)%N && (c <=? 57343)%N); [discriminate|].
  destruct (c <? 65536)%N eqn:E4.
  { apply N.ltb_lt in E4. intros [= <-]. repeat constructor; div_lia. }
  destruct (c <? 1114112)%N eqn:E5; [|discriminate].
  apply N.ltb_lt in E5. intros [= <-]. repeat constructor; div_lia.
Qed.

Lemma scalar_range c :
  Url.scalar c = true <-> (c < 55296 \/ 57343 < c < 1114112)%N.
Proof.
  unfold Url.scalar. rewrite orb_true_iff, andb_true_iff, !N.ltb_lt. tauto.
Qed.

Lemma utf8_encode_scalar c : Url.scalar c = true -> exists bytes, Url.utf8_encode c = Ok bytes.
Proof.
  rewrite scalar_range. intros Hs. unfold Url.utf8_encode.
  destruct (c <? 128)%N; [eauto|]. destruct (c <? 2048)%N; [eauto|].
  destruct ((55296 <=? c)%N && (c <=? 57343)%N) eqn:E3.
  { exfalso. apply andb_prop in E3 as [H1 H2]. apply N.leb_le in H1, H2. lia. }
  destruct (c <? 65536)%N; [eauto|].
  destruct (c <? 1114112)%N eqn:E5; [eauto|].
  exfalso. apply N.ltb_ge in E5. lia.
Qed.

Lemma safe_chars_ascii : Forall (fun x => (x < 128)%N) safe_chars.
Proof. repeat constructor. Qed.

(** What one character becomes stands for the octets of that character. *)
Lemma quote_char_decode c q :
  Url.quote_char safe_chars c = Ok q ->
  exists bc,
    (forall rest, Url.octets safe_chars (q ++ rest)
                  = option_map (app bc) (Url.octets safe_chars rest)) /\
    (forall r, Url.code_points (bc ++ r) = option_map (cons c) (Url.code_points r)).
Proof.
  unfold Url.quote_char. destruct (Url.is_safe safe_chars c) eqn:Hs.
  - intros [= <-]. exists [c]. rewrite is_safe_literal in Hs.
    pose proof (literal_ascii _ _ safe_chars_ascii Hs) as Hc. split.
    + intros rest. cbn [app Url.octets]. rewrite Hs.
      destruct (c =? 37)%N eqn:E; [|reflexivity].
      apply N.eqb_eq in E. subst c. rewrite <- is_safe_literal in Hs.
      vm_compute in Hs. discriminate.
    + intros r. now apply code_points_1.
  - destruct (Url.utf8_encode c) as [bytes|e] eqn:Hb; [|discriminate].
    intros [= <-]. exists bytes. split.
    + intros rest. apply octets_escaped.
      destruct (c <? 128)%N eqn:E.
      * unfold Url.utf8_encode in Hb. rewrite E in Hb. injection Hb as <-.
        apply N.ltb_lt in E. repeat constructor; [lia|]. now rewrite <- is_safe_literal.
      * apply N.ltb_ge in E. eapply List.Forall_impl; [|exact (utf8_encode_high c bytes E Hb)].
        intros b Hb'. cbv beta in Hb'. split; [lia|].
        destruct (Url.literal safe_chars b) eqn:Hl; [|reflexivity].
        apply (literal_ascii _ _ safe_chars_ascii) in Hl. lia.
    + intros r. now apply code_points_encode.
Qed.

Lemma quote_octets s : forall out,
  Url.quote s safe_chars = Ok out ->
  exists bs, Url.octets safe_chars out = Some bs /\ Url.code_points bs = Some s.
Proof.
  induction s as [|c s IH]; intros out; cbn [Url.quote].
  - intros [= <-]. exists []. split; reflexivity.
  - destruct (Url.quote_char safe_chars c) as [q|e] eqn:Hq; [|discriminate]. cbn [bind].
    destruct (Url.quote s safe_chars) as [rest|e]; [|discriminate]. cbn [bind].
    intros [= <-]. destruct (IH rest eq_refl) as (bs & H1 & H2).
    destruct (quote_char_decode c q Hq) as (bc & Ho & Hc).
    exists (bc ++ bs). rewrite Ho, H1, Hc, H2. split; reflexivity.
Qed.

(** What [quote] returns stands for the string it was given. *)
Lemma quote_decode s out :
  Url.quote s safe_chars = Ok out -> Url.decode safe_chars out = Some s.
Proof.
  intros H. destruct (quote_octets s out H) as (bs & H1 & H2).
  unfold Url.decode. now rewrite H1.
Qed.

(** [quote] raises only for a character that UTF-8 cannot encode. *)
Lemma quote_raises s e :
  Url.quote s safe_chars = Raise e ->
  exn_class_of e = UnicodeEncodeError /\ Exists (fun c => Url.scalar c = false) s.
Proof.
  induction s as [|c s IH]; cbn [Url.quote]; [discriminate|].
  destruct (Url.quote_char safe_chars c) as [q|e'] eqn:Hq; cbn [bind].
  - destruct (Url.quote s safe_chars) as [rest|e']; cbn [bind]; [discriminate|].
    intros [= <-]. destruct (IH eq_refl) as [H1 H2]. split; [exact H1 | now right].
  - intros [= <-]. unfold Url.quote_char in Hq.
    destruct (Url.is_safe safe_chars c); [discriminate|].
    destruct (Url.utf8_encode c) as [bytes|e''] eqn:Hb; [discriminate|].
    cbn [bind] in Hq. injection Hq as <-. split.
    + pose proof (QueryFacts.utf8_encode_bytes c) as H. now rewrite Hb in H.
    + left. destruct (Url.scalar c) eqn:Hs; [|reflexivity].
      destruct (utf8_encode_scalar c Hs) as [bytes Hb']. congruence.
Qed.

(** ** What reads back as a string is what [quote] writes *)

Lemma hex_value_inv x h : Url.hex_value x = Some h -> (h < 16)%N /\ x = Url.hex_digit h.
Proof.
  unfold Url.hex_value, Url.hex_digit.
  destruct ((48 <=? x)%N && (x <=? 57)%N) eqn:E1.
  - apply andb_prop in E1 as [H1 H2]. apply N.leb_le in H1, H2. intros [= <-].
    replace (x - 48 <? 10)%N with true by (symmetry; apply N.ltb_lt; lia). split; lia.
  - destruct ((65 <=? x)%N && (x <=? 70)%N) eqn:E2; [|discriminate].
    apply andb_prop in E2 as [H1 H2]. apply N.leb_le in H1, H2. intros [= <-].
    replace (x - 55 <? 10)%N with false by (symmetry; apply N.ltb_ge; lia). split; lia.
Qed.

Lemma octets_inv kept : forall n out bs,
  (length out <= n)%nat ->
  Url.literal kept 37 = false ->
  Url.octets kept out = Some bs -> out = concat (map (Url.written kept) bs).
Proof.
  induction n as [|n IH]; intros out bs Hlen H37.
  - destruct out; [|simpl in Hlen; lia]. now intros [= <-].
  - destruct out as [|c out]; [now intros [= <-]|]. cbn [Url.octets].
    destruct (c =? 37)%N eqn:Ec.
    + apply N.eqb_eq in Ec. subst c.
      destruct out as [|x [|y out]]; try discriminate.
      destruct (Url.hex_value x) as [h|] eqn:Hx; [|discriminate].
      destruct (Url.hex_value y) as [l|] eqn:Hy; [|discriminate].
      destruct (Url.literal kept (16 * h + l)) eqn:Hl; [discriminate|].
      destruct (Url.octets kept out) as [bs'|] eqn:Ho; [|discriminate].
      intros [= <-]. cbn [map concat]. unfold Url.written at 1. rewrite Hl.
      apply hex_value_inv in Hx as [Hh ->]. apply hex_value_inv in Hy as [Hl' ->].
      unfold Url.percent. cbn [app].
      replace ((16 * h + l) / 16)%N with h by div_lia.
      replace ((16 * h + l) mod 16)%N with l by div_lia.
      do 3 f_equal. apply (IH out bs'); [simpl in Hlen; lia | exact H37 | exact Ho].
    + destruct (Url.literal kept c) eqn:Hl; [|discriminate].
      destruct (Url.octets kept out) as [bs'|] eqn:Ho; [|discriminate].
      intros [= <-]. cbn [map concat]. unfold Url.written at 1. rewrite Hl. cbn [app].
      f_equal. apply (IH out bs'); [simpl in Hlen; lia | exact H37 | exact Ho].
Qed.

Lemma continuation_inv b x : Url.continuation b = Some x -> (x < 64)%N /\ b = (128 + x)%N.
Proof.
  unfold Url.continuation. destruct ((128 <=? b)%N && (b <? 192)%N) eqn:E; [|discriminate].
  apply andb_prop in E as [H1 H2]. apply N.leb_le in H1. apply N.ltb_lt in H2.
  intros [= <-]. lia.
Qed.

(** The octets that read back as [t] are the UTF-8 encodings of its
    characters, one after the other. *)
Lemma code_points_inv : forall n bs t,
  (length bs <= n)%nat ->
  Url.code_points bs = Some t ->
  exists chunks,
    Forall2 (fun c chunk => Url.utf8_encode c = Ok chunk) t chunks /\ bs = concat chunks.
Proof.
  induction n as [|n IH]; intros bs t Hlen.
  - destruct bs; [|simpl in Hlen; lia]. intros [= <-]. exists [].
    split; [constructor | reflexivity].
  - destruct bs as [|b bs]; [intros [= <-]; exists []; split; [constructor | reflexivity]|].
    cbn [Url.code_points].
    destruct (b <? 128)%N eqn:E1.
    { destruct (Url.code_points bs) as [t'|] eqn:Ht; [|discriminate]. intros [= <-].
      destruct (IH bs t') as (chunks & HF & ->); [simpl in Hlen; lia | exact Ht |].
      exists ([b] :: chunks). split; [|reflexivity]. constructor; [|exact HF].
      unfold Url.utf8_encode. now rewrite E1. }
    apply N.ltb_ge in E1.
    destruct (b <? 192)%N eqn:E2; [discriminate|]. apply N.ltb_ge in E2.
    destruct (b <? 224)%N eqn:E3.
    { apply N.ltb_lt in E3. destruct bs as [|b1 bs]; [discriminate|].
      destruct (Url.continuation b1) as [x1|] eqn:H1; [|discriminate].
      apply continuation_inv in H1 as [Hx1 ->].
      destruct ((b - 192) * 64 + x1 <? 128)%N eqn:Eo; [discriminate|]. apply N.ltb_ge in Eo.
      destruct (Url.code_points bs) as [t'|] eqn:Ht; [|discriminate]. intros [= <-].
      destruct (IH bs t') as (chunks & HF & ->); [simpl in Hlen; lia | exact Ht |].
      exists ([b; (128 + x1)%N] :: chunks). split; [|reflexivity]. constructor; [|exact HF].
      unfold Url.utf8_encode.
      replace ((b - 192) * 64 + x1 <? 128)%N with false by (symmetry; apply N.ltb_ge; lia).
      replace ((b - 192) * 64 + x1 <? 2048)%N with true by (symmetry; apply N.ltb_lt; lia).
      do 2 f_equal; [div_lia|]. f_equal. div_lia. }
    apply N.ltb_ge in E3.
    destruct (b <? 240)%N eqn:E4.
    { apply N.ltb_lt in E4. destruct bs as [|b1 [|b2 bs]]; try discriminate.
      destruct (Url.continuation b1) as [x1|] eqn:H1; [|discriminate].
      destruct (Url.continuation b2) as [x2|] eqn:H2; [|discriminate].
      apply continuation_inv in H1 as [Hx1 ->]. apply continuation_inv in H2 as [Hx2 ->].
      set (c := (((b - 224) * 64 + x1) * 64 + x2)%N).
      destruct (c <? 2048)%N eqn:Eo; [discriminate|]. apply N.ltb_ge in Eo.
      destruct ((55296 <=? c)%N && (c <=? 57343)%N) eqn:Es; [discriminate|]. cbn [orb].
      destruct (Url.code_points bs) as [t'|] eqn:Ht; [|discriminate]. intros [= <-].
      destruct (IH bs t') as (chunks & HF & ->); [simpl in Hlen; lia | exact Ht |].
      exists ([b; (128 + x1)%N; (128 + x2)%N] :: chunks). split; [|reflexivity].
      constructor; [|exact HF]. unfold Url.utf8_encode. rewrite Es.
      assert (Hc : (c < 65536)%N) by (unfold c; lia).
      replace (c <? 128)%N with false by (symmetry; apply N.ltb_ge; lia).
      replace (c <? 2048)%N with false by (symmetry; apply N.ltb_ge; lia).
      replace (c <? 65536)%N with true by (symmetry; apply N.ltb_lt; lia).
      unfold c. do 2 f_equal; [div_lia|]. f_equal; [div_lia|]. f_equal. div_lia. }
    apply N.ltb_ge in E4.
    destruct (b <? 248)%N eqn:E5; [|discriminate].
    apply N.ltb_lt in E5. destruct bs as [|b1 [|b2 [|b3 bs]]]; try discriminate.
    destruct (Url.continuation b1) as [x1|] eqn:H1; [|discriminate].
    destruct (Url.continuation b2) as [x2|] eqn:H2; [|discriminate].
    destruct (Url.continuation b3) as [x3|] eqn:H3; [|discriminate].
    apply continuation_inv in H1 as [Hx1 ->]. apply continuation_inv in H2 as [Hx2 ->].
    apply continuation_inv in H3 as [Hx3 ->].
    set (c := ((((b - 240) * 64 + x1) * 64 + x2) * 64 + x3)%N).
    destruct (c <? 65536)%N eqn:Eo; [discriminate|]. apply N.ltb_ge in Eo.
    destruct (1114112 <=? c)%N eqn:Em; [discriminate|]. apply N.leb_gt in Em. cbn [orb].
    destruct (Url.code_points bs) as [t'|] eqn:Ht; [|discriminate]. intros [= <-].
    destruct (IH bs t') as (chunks & HF & ->); [simpl in Hlen; lia | exact Ht |].
    exists ([b; (128 + x1)%N; (128 + x2)%N; (128 + x3)%N] :: chunks). split; [|reflexivity].
    constructor; [|exact HF]. unfold Url.utf8_encode.
    replace (c <? 128)%N with false by (symmetry; apply N.ltb_ge; lia).
    replace (c <? 2048)%N with false by (symmetry; apply N.ltb_ge; lia).
    replace ((55296 <=? c)%N && (c <=? 57343)%N) with false
      by (symmetry; apply andb_false_iff; right; apply N.leb_gt; lia).
    replace (c <? 65536)%N with false by (symmetry; apply N.ltb_ge; lia).
    replace (c <? 1114112)%N with true by (symmetry; apply N.ltb_lt; lia).
    unfold c. do 2 f_equal; [div_lia|]. f_equal; [div_lia|]. f_equal; [div_lia|].
    f_equal. div_lia.
Qed.

Lemma pieces_of_char c chunk q :
  Url.utf8_encode c = Ok chunk ->
  Url.quote_char safe_chars c = Ok q ->
  concat (map (Url.written safe_chars) chunk) = q.
Proof.
  intros Hb. unfold Url.quote_char. rewrite Hb. cbn [bind].
  destruct (Url.is_safe safe_chars c) eqn:Hs; intros [= <-].
  - rewrite is_safe_literal in Hs.
    pose proof (literal_ascii _ _ safe_chars_ascii Hs) as Hc.
    unfold Url.utf8_encode in Hb. apply N.ltb_lt in Hc. rewrite Hc in Hb. injection Hb as <-.
    cbn [map concat]. unfold Url.written. rewrite Hs. reflexivity.
  - f_equal. apply map_ext_in. intros b Hin. unfold Url.written.
    assert (Hl : Url.literal safe_chars b = false); [|now rewrite Hl].
    destruct (c <? 128)%N eqn:E.
    + unfold Url.utf8_encode in Hb. rewrite E in Hb. injection Hb as <-.
      destruct Hin as [<-|[]]. now rewrite <- is_safe_literal.
    + apply N.ltb_ge in E. pose proof (utf8_encode_high c chunk E Hb) as Hhigh.
      rewrite List.Forall_forall in Hhigh. specialize (Hhigh b Hin).
      destruct (Url.literal safe_chars b) eqn:Hl; [|reflexivity].
      apply (literal_ascii _ _ safe_chars_ascii) in Hl. lia.
Qed.

Lemma quote_chunks t chunks :
  Forall2 (fun c chunk => Url.utf8_encode c = Ok chunk) t chunks ->
  Url.quote t safe_chars = Ok (concat (map (Url.written safe_chars) (concat chunks))).
Proof.
  induction 1 as [|c chunk t chunks Hc _ IH]; [reflexivity|].
  cbn [Url.quote concat]. rewrite map_app, concat_app, IH.
  destruct (Url.quote_char safe_chars c) as [q|e] eqn:Hq.
  - cbn [bind]. now rewrite (pieces_of_char c chunk q Hc Hq).
  - exfalso. unfold Url.quote_char in Hq. rewrite Hc in Hq.
    destruct (Url.is_safe safe_chars c); discriminate.
Qed.

(** A string that reads back as [t] is the string that [quote] returns
    for [t]: no other string stands for [t]. *)
Lemma decode_quote t out :
  Url.decode safe_chars out = Some t -> Url.quote t safe_chars = Ok out.
Proof.
  unfold Url.decode. destruct (Url.octets safe_chars out) as [bs|] eqn:Ho; [|discriminate].
  intros Ht.
  destruct (code_points_inv (length bs) bs t (le_n _) Ht) as (chunks & HF & ->).
  rewrite (octets_inv safe_chars (length out) out _ (le_n _) eq_refl Ho).
  now apply quote_chunks.
Qed.

Lemma decode_iff_quote t out :
  Url.decode safe_chars out = Some t <-> Url.quote t safe_chars = Ok out.
Proof. split; [apply decode_quote | apply quote_decode]. Qed.

(** ** The characters of the translated query *)

Lemma ascii_encodable s : Forall (fun c => (c < 128)%N) s -> Url.encodable s.
Proof.
  apply List.Forall_impl. intros c Hc. apply scalar_range. lia.
Qed.

Lemma split_from_chars (P : N -> Prop) s : forall cur,
  Forall P cur -> Forall P s -> Forall (Forall P) (split_from cur s).
Proof.
  induction s as [|c s IH]; intros cur Hcur Hs; cbn [split_from].
  - destruct cur as [|a cur]; [constructor|]. constructor; [exact Hcur | constructor].
  - inversion Hs as [|? ? Hc Hs']; subst. destruct (is_space c).
    + destruct cur; [apply IH; [constructor | assumption]|].
      constructor; [assumption|]. apply IH; [constructor | assumption].
    + apply IH; [|assumption]. apply Forall_app.
      split; [assumption | repeat constructor; assumption].
Qed.

Lemma join_chars (P : N -> Prop) sep parts :
  Forall P sep -> Forall (Forall P) parts -> Forall P (join sep parts).
Proof.
  intros Hsep. induction 1 as [|p parts Hp Hparts IH]; [constructor|].
  cbn [join]. destruct parts as [|p' parts']; [exact Hp|].
  apply Forall_app. split; [exact Hp|]. apply Forall_app. split; [exact Hsep | exact IH].
Qed.

Lemma digits_of_ascii fuel : forall n acc,
  Forall (fun c => (c < 128)%N) acc -> Forall (fun c => (c < 128)%N) (digits_of fuel n acc).
Proof.
  induction fuel as [|fuel IH]; intros n acc Hacc; cbn [digits_of]; [exact Hacc|].
  assert (H : Forall (fun c => (c < 128)%N) ((48 + n mod 10)%N :: acc)).
  { constructor; [|exact Hacc]. pose proof (N.mod_upper_bound n 10). lia. }
  destruct (n / 10 =? 0)%N; [exact H | now apply IH].
Qed.

Lemma str_of_int_ascii z : Forall (fun c => (c < 128)%N) (str_of_int z).
Proof.
  unfold str_of_int. destruct (z <? 0).
  - constructor; [lia|]. apply digits_of_ascii. constructor.
  - apply digits_of_ascii. constructor.
Qed.

Lemma lit_ascii_encodable (s : str) :
  forallb (fun c => (c <? 128)%N) s = true -> Url.encodable s.
Proof.
  intros H. apply ascii_encodable. apply List.Forall_forall. intros c Hc.
  rewrite forallb_forall in H. apply N.ltb_lt. now apply H.
Qed.

Lemma single_word_encodable word : Url.encodable word -> Url.encodable (single_word_form word).
Proof.
  intros Hw. unfold single_word_form.
  repeat (apply Forall_app; split); try exact Hw; apply lit_ascii_encodable; reflexivity.
Qed.

Lemma phrase_encodable phrase : Url.encodable phrase -> Url.encodable (phrase_form phrase).
Proof.
  intros Hw. unfold phrase_form, quoted.
  repeat (apply Forall_app; split); try exact Hw; apply lit_ascii_encodable; reflexivity.
Qed.

Lemma clause_encodable s e : Url.encodable (submitted_clause s e).
Proof.
  unfold submitted_clause.
  repeat (apply Forall_app; split);
    try (apply ascii_encodable, str_of_int_ascii); apply lit_ascii_encodable; reflexivity.
Qed.

Lemma not_encodable s : ~ Url.encodable s -> Exists (fun c => Url.scalar c = false) s.
Proof.
  intros H. induction s as [|c s IH]; [exfalso; apply H; constructor|].
  destruct (Url.scalar c) eqn:Hc; [|now left]. right. apply IH. intros Hs. apply H.
  now constructor.
Qed.

Lemma encodable_not s : Url.encodable s -> ~ Exists (fun c => Url.scalar c = false) s.
Proof.
  intros H Hex. unfold Url.encodable in H. rewrite List.Forall_forall in H.
  apply List.Exists_exists in Hex as (c & Hc & E).
  specialize (H c Hc). congruence.
Qed.

Lemma words_encodable query :
  Url.encodable query -> Forall Url.encodable (str_split query).
Proof. intros H. apply split_from_chars; [constructor | exact H]. Qed.

(** C6 (as amended).  For a query in which none of [ti:], [abs:], [au:],
    [cat:], [AND], [OR], [ANDNOT] occurs, not even inside a word: one word
    [w] becomes [(ti:w OR abs:w)]; two words or more become the
    exact-phrase form, the words joined by single spaces and put between
    double quotes after [ti:] and after [abs:]; a year range with both
    years truthy and start <= end appends the [submittedDate] clause.
    What is returned is the percent-encoding of that string: read back,
    with an escape for every octet of the UTF-8 encoding that is not an
    unreserved character nor one of colon, double quote, parentheses,
    square brackets, plus and minus, and with these written as they are,
    it is that string, and no other string reads back as it
    ([decode_quote]).  The only other outcome is a [UnicodeEncodeError],
    for a query with a character that UTF-8 cannot encode. *)
Theorem plain_query_translation (self : ArxivClient) (query : str) (f : filters)
    (form clause : str) :
  Forall (fun marker => contains marker query = false)
         [lit "ti:"; lit "abs:"; lit "au:"; lit "cat:"; lit "AND"; lit "OR"; lit "ANDNOT"] ->
  (exists word, str_split query = [word] /\ form = single_word_form word) \/
  ((2 <= length (str_split query))%nat /\
   form = phrase_form (join (lit " ") (str_split query))) ->
  (f_year_range f = None /\ clause = []) \/
  (exists s e, valid_range f s e /\ clause = submitted_clause s e) ->
  match _build_search_query self query f with
  | Ok encoded =>
      Url.decode (lit ":" ++ [34%N] ++ lit "()[]+-") encoded = Some (form ++ clause)
  | Raise e =>
      exn_class_of e = UnicodeEncodeError /\
      Exists (fun c => Url.scalar c = false) query
  end.
Proof.
  intros Hp Hform Hclause. change (plain query) in Hp. unfold _build_search_query.
  rewrite (search_query_plain query Hp).
  assert (E1 : match str_split query with
               | [word] => single_word_form word
               | words => phrase_form (join (lit " ") words)
               end = form).
  { destruct Hform as [(word & -> & ->) | [Hlen ->]]; [reflexivity|].
    destruct (str_split query) as [|w [|w' ws]]; simpl in Hlen; try lia; reflexivity. }
  assert (E2 : date_filter_of f = clause).
  { destruct Hclause as [[Hf ->] | (s & e & Hv & ->)];
      [now apply date_filter_none | now apply date_filter_valid]. }
  rewrite E1, E2. change (lit ":" ++ [34%N] ++ lit "()[]+-") with safe_chars.
  destruct (Url.quote (form ++ clause) safe_chars) as [encoded|e] eqn:Hq.
  - now apply quote_decode.
  - destruct (quote_raises _ _ Hq) as [Hclass Hex]. split; [exact Hclass|].
    apply not_encodable. intros Henc. revert Hex. apply encodable_not.
    pose proof (words_encodable query Henc) as Hw.
    apply Forall_app. split.
    + destruct Hform as [(word & Hsplit & ->) | [_ ->]].
      * apply single_word_encodable. rewrite Hsplit in Hw. now inversion Hw.
      * apply phrase_encodable. apply join_chars; [|exact Hw].
        apply lit_ascii_encodable. reflexivity.
    + destruct Hclause as [[_ ->] | (s & e' & _ & ->)]; [constructor | apply clause_encodable].
Qed.

Lemma plain_query_translation_witness :
  plain (lit "deep  learning") /\
  _build_search_query new (lit "deep  learning") (Samples.years 2020 2024)
  = Ok (lit "(ti:" ++ [34%N] ++ lit "deep%20learning" ++ [34%N]
        ++ lit "%20OR%20abs:" ++ [34%N] ++ lit "deep%20learning" ++ [34%N]
        ++ lit ")%20AND%20submittedDate:[202001010000%20TO%20202412312359]") /\
  Url.decode (lit ":" ++ [34%N] ++ lit "()[]+-")
    (lit "(ti:" ++ [34%N] ++ lit "deep%20learning" ++ [34%N]
     ++ lit "%20OR%20abs:" ++ [34%N] ++ lit "deep%20learning" ++ [34%N]
     ++ lit ")%20AND%20submittedDate:[202001010000%20TO%20202412312359]")
  = Some (lit "(ti:" ++ [34%N] ++ lit "deep learning" ++ [34%N]
          ++ lit " OR abs:" ++ [34%N] ++ lit "deep learning" ++ [34%N]
          ++ lit ") AND submittedDate:[202001010000 TO 202412312359]").
Proof.
  assert (Hp : plain (lit "deep  learning")) by (vm_compute; repeat constructor).
  split; [exact Hp|]. split; [reflexivity|].
  pose proof (plain_query_translation new (lit "deep  learning") (Samples.years 2020 2024)
                (phrase_form (lit "deep learning")) (submitted_clause 2020 2024) Hp) as H.
  assert (E : _build_search_query new (lit "deep  learning") (Samples.years 2020 2024)
              = Ok (lit "(ti:" ++ [34%N] ++ lit "deep%20learning" ++ [34%N]
                    ++ lit "%20OR%20abs:" ++ [34%N] ++ lit "deep%20learning" ++ [34%N]
                    ++ lit ")%20AND%20submittedDate:[202001010000%20TO%20202412312359]"))
    by reflexivity.
  rewrite E in H. apply H.
  - right. split; [vm_compute; lia | reflexivity].
  - right. exists 2020, 2024. split; [|reflexivity].
    repeat split; [discriminate | discriminate | lia].
Defined.

(** C6 as stated fails for a word that has the letters of an operator in
    it, which is sent as it is, and for a query that UTF-8 cannot encode,
    which is not translated at all. *)
Lemma operator_letters_are_enough :
  (str_split (lit "DOCTOR") = [lit "DOCTOR"] /\
   Forall (fun marker => ~ In marker (str_split (lit "DOCTOR"))) advanced_syntax /\
   Forall (fun prefix => contains prefix (lit "DOCTOR") = false)
          [lit "ti:"; lit "abs:"; lit "au:"; lit "cat:"] /\
   _build_search_query new (lit "DOCTOR") no_filters = Ok (lit "DOCTOR") /\
   Url.decode (lit ":" ++ [34%N] ++ lit "()[]+-") (lit "DOCTOR")
   <> Some (single_word_form (lit "DOCTOR"))) /\
  (plain [55296%N] /\ str_split [55296%N] = [[55296%N]] /\
   _build_search_query new [55296%N] no_filters
   = Raise (Exn UnicodeEncodeError (lit "surrogates not allowed"))).
Proof.
  split; [split; [reflexivity|]; split; [|split; [|split; [reflexivity|]]] |].
  - repeat constructor; vm_compute; intuition discriminate.
  - repeat constructor.
  - vm_compute. discriminate.
  - split; [vm_compute; repeat constructor|]. split; reflexivity.
Qed.

End EncodingFacts.

(* ===================================================================== *)
(** * More about the parsers *)
(* ===================================================================== *)

Module FeedFacts.
Import PyFacts StrFacts.

(** ** arXiv: which entries give a record *)

Lemma parse_authors_ok authors :
  (exists infos, Arxiv.parse_authors authors = Ok infos) <->
  forallb (fun author => match Arxiv.find (Arxiv.atom "name") author with
                         | Some _ => true
                         | None => false
                         end) authors = true.
Proof.
  induction authors as [|a authors IH]; simpl; [split; eauto|].
  unfold Arxiv.parse_author, Arxiv.find_text.
  destruct (Arxiv.find (Arxiv.atom "name") a) as [name|]; simpl.
  - rewrite <- IH. split.
    + intros [infos H]. destruct (Arxiv.parse_authors authors); [eauto | discriminate].
    + intros [infos ->]. simpl. eauto.
  - split; [intros [infos H]; discriminate | discriminate].
Qed.

Lemma parse_entry_readable `{Lib} entry :
  (exists d, Arxiv.parse_entry entry = Ok d) <-> Arxiv.readable_entry entry = true.
Proof.
  unfold Arxiv.readable_entry, Arxiv.has_text, Arxiv.parse_entry, Arxiv.find_text.
  destruct (Arxiv.find (Arxiv.atom "id") entry) as [c1|]; simpl;
    [|split; [intros [d E]; discriminate | discriminate]].
  destruct (Arxiv.el_text c1) as [id_str|]; simpl;
    [|split; [intros [d E]; discriminate | discriminate]].
  destruct (Arxiv.find (Arxiv.atom "title") entry) as [c2|]; simpl;
    [|split; [intros [d E]; discriminate | discriminate]].
  destruct (Arxiv.el_text c2) as [title_str|]; simpl;
    [|split; [intros [d E]; discriminate | discriminate]].
  destruct (Arxiv.find (Arxiv.atom "summary") entry) as [c3|]; simpl;
    [|split; [intros [d E]; discriminate | discriminate]].
  destruct (Arxiv.el_text c3) as [summary_str|]; simpl;
    [|split; [intros [d E]; discriminate | discriminate]].
  pose proof (parse_authors_ok (Arxiv.findall (Arxiv.atom "author") entry)) as Ha.
  destruct (Arxiv.parse_authors (Arxiv.findall (Arxiv.atom "author") entry)) as [authors|e];
    simpl.
  - rewrite (proj1 Ha) by eauto. simpl.
    destruct (Arxiv.find (Arxiv.atom "published") entry) as [published|]; simpl.
    + destruct (Arxiv.el_text published) as [t|]; simpl;
        [|split; [intros [d E]; discriminate | discriminate]].
      destruct (py_int (firstn 4 t)) as [year|e]; simpl;
        [|split; [intros [d E]; discriminate | discriminate]].
      split; [reflexivity|]. intros _.
      destruct (Arxiv.find (Arxiv.arxiv "primary_category") entry); eauto.
    + split; [reflexivity|]. intros _.
      destruct (Arxiv.find (Arxiv.arxiv "primary_category") entry); eauto.
  - split; [intros [d E]; discriminate|]. intros E. exfalso.
    apply andb_prop in E as [E _]. apply Ha in E as [infos E]. discriminate.
Qed.

Lemma parse_entries_app `{Lib} l1 l2 :
  Arxiv.parse_entries (l1 ++ l2) = Arxiv.parse_entries l1 ++ Arxiv.parse_entries l2.
Proof.
  induction l1 as [|e l1 IH]; simpl; [reflexivity|].
  destruct (Arxiv.parse_entry e); simpl; now rewrite IH.
Qed.

Lemma parse_entries_readable `{Lib} entries :
  Arxiv.parse_entries entries
  = Arxiv.parse_entries (List.filter Arxiv.readable_entry entries) /\
  length (Arxiv.parse_entries entries)
  = length (List.filter Arxiv.readable_entry entries).
Proof.
  induction entries as [|e entries [IH1 IH2]]; simpl; [split; reflexivity|].
  pose proof (parse_entry_readable e) as He.
  destruct (Arxiv.parse_entry e) as [d|ex] eqn:E.
  - rewrite (proj1 He) by eauto. simpl. rewrite E. simpl. split; congruence.
  - destruct (Arxiv.readable_entry e); [|split; assumption].
    destruct (proj2 He eq_refl) as [d Hd]. discriminate.
Qed.

(** An entry of the feed gives a record exactly when it has an id, a title
    and a summary with texts, each of its authors has a name element and
    its publication date, if it has one, begins with a year [int] can read.
    Any other entry is skipped, and the feed is parsed as if that entry was
    not in it: the records of the other entries are the same, in the same
    order. *)
Theorem unreadable_entries_are_skipped `{Lib} :
  (forall entry,
      (exists d, Arxiv.parse_entry entry = Ok d) <-> Arxiv.readable_entry entry = true) /\
  (forall entries,
      Arxiv.parse_entries entries
      = Arxiv.parse_entries (List.filter Arxiv.readable_entry entries) /\
      length (Arxiv.parse_entries entries)
      = length (List.filter Arxiv.readable_entry entries)) /\
  (forall l1 l2,
      Arxiv.parse_entries (l1 ++ l2) = Arxiv.parse_entries l1 ++ Arxiv.parse_entries l2).
Proof.
  split; [apply parse_entry_readable|]. split; [apply parse_entries_readable|].
  apply parse_entries_app.
Qed.

(** ** arXiv: the id of a record *)

Lemma after_last_absent sep s : forall cur,
  contains sep s = false -> after_last_from O sep cur s = cur ++ s.
Proof.
  induction s as [|c s IH]; intros cur Hc; simpl; [now rewrite app_nil_r|].
  cbn [contains] in Hc. apply orb_false_elim in Hc as [H1 H2].
  rewrite H1, (IH _ H2), <- app_assoc. reflexivity.
Qed.

(** What precedes the last [abs/] of a string is dropped, whatever it is. *)
Lemma after_last_abs p x : forall cur,
  contains (lit "abs/") p = false -> contains (lit "abs/") x = false ->
  after_last_from O (lit "abs/") cur (p ++ lit "abs/" ++ x) = x.
Proof.
  induction p as [|c p IH]; intros cur Hp Hx.
  - change ([] ++ lit "abs/" ++ x) with (97 :: 98 :: 115 :: 47 :: x)%N.
    cbn -[contains]. apply (after_last_absent (lit "abs/") x [] Hx).
  - cbn [contains] in Hp. apply orb_false_elim in Hp as [H1 H2].
    change ((c :: p) ++ lit "abs/" ++ x) with (c :: (p ++ lit "abs/" ++ x)).
    cbn [after_last_from].
    assert (E : starts_with (lit "abs/") (c :: (p ++ lit "abs/" ++ x)) = false).
    { clear IH H2. change (lit "abs/") with [97; 98; 115; 47]%N in *.
      destruct p as [|c2 [|c3 [|c4 p]]]; cbn [starts_with app] in *.
      - destruct (97 =? c)%N; reflexivity.
      - destruct (97 =? c)%N; [|reflexivity]. destruct (98 =? c2)%N; reflexivity.
      - destruct (97 =? c)%N; [|reflexivity]. destruct (98 =? c2)%N; [|reflexivity].
        destruct (115 =? c3)%N; reflexivity.
      - exact H1. }
    rewrite E. now apply IH.
Qed.

Lemma arxiv_entry_id `{Lib} entry d :
  Arxiv.parse_entry entry = Ok d ->
  exists id_str,
    Arxiv.find_text (Arxiv.atom "id") entry = Ok (Some id_str) /\
    dict_get d (lit "id") VNone = VStr (after_last (lit "abs/") id_str) /\
    dict_get d (lit "url") VNone = VStr id_str.
Proof.
  unfold Arxiv.parse_entry.
  destruct (Arxiv.find_text (Arxiv.atom "id") entry) as [[id_str|]|]; simpl; try discriminate.
  destruct (Arxiv.find_text (Arxiv.atom "title") entry) as [[title_str|]|]; simpl;
    try discriminate.
  destruct (Arxiv.find_text (Arxiv.atom "summary") entry) as [[summary_str|]|]; simpl;
    try discriminate.
  intros Hd. exists id_str. split; [reflexivity|].
  set (P := fun d : dict =>
              dict_get d (lit "id") VNone = VStr (after_last (lit "abs/") id_str) /\
              dict_get d (lit "url") VNone = VStr id_str).
  assert (Hset : forall d k v, k <> lit "id" -> k <> lit "url" -> P d -> P (dict_set d k v)).
  { intros d0 k v H1 H2 [H3 H4]. unfold P. now rewrite !dict_get_set_ne by assumption. }
  revert Hd.
  set (paper1 := match Arxiv.pdf_link _ with Some _ => _ | None => _ end).
  assert (H1 : P paper1).
  { unfold paper1. destruct (Arxiv.pdf_link _); split; reflexivity. }
  clearbody paper1.
  destruct (Arxiv.parse_authors _) as [authors|]; simpl; [|discriminate].
  assert (H2 : P (dict_set paper1 (lit "authors") (VList authors)))
    by (apply Hset; [other_key | other_key | exact H1]).
  set (paper2 := dict_set paper1 (lit "authors") (VList authors)) in *. clearbody paper2.
  destruct (Arxiv.find (Arxiv.atom "published") entry) as [published|].
  - destruct (Arxiv.el_text published) as [t|]; [|discriminate].
    destruct (py_int (firstn 4 t)) as [year|]; simpl; [|discriminate].
    destruct (Arxiv.find (Arxiv.arxiv "primary_category") entry); intros E; injection E as <-;
      repeat (apply Hset; [other_key | other_key |]); exact H2.
  - simpl. destruct (Arxiv.find (Arxiv.arxiv "primary_category") entry); intros E;
      injection E as <-; repeat (apply Hset; [other_key | other_key |]); exact H2.
Qed.

(** The id of an arXiv record is what follows the last [abs/] of the
    entry's id, which is kept whole as the record's url: for an entry id
    [p abs/ x] with no [abs/] in [p] nor in [x], the record has id [x]. *)
Theorem arxiv_id_follows_abs `{Lib} (entry : element) (d : dict) (p x : str) :
  Arxiv.parse_entry entry = Ok d ->
  Arxiv.find_text (Arxiv.atom "id") entry = Ok (Some (p ++ lit "abs/" ++ x)) ->
  contains (lit "abs/") p = false ->
  contains (lit "abs/") x = false ->
  dict_get d (lit "id") VNone = VStr x /\
  dict_get d (lit "url") VNone = VStr (p ++ lit "abs/" ++ x).
Proof.
  intros Hd Hid Hp Hx. destruct (arxiv_entry_id entry d Hd) as (id_str & E & H1 & H2).
  assert (E' : id_str = p ++ lit "abs/" ++ x) by congruence. subst id_str.
  rewrite H1, H2. split; [|reflexivity].
  unfold after_last. now rewrite after_last_abs.
Qed.

Lemma arxiv_id_follows_abs_witness :
  exists d,
    Arxiv.parse_entry (H := Samples.plain_lib) Samples.sample_entry = Ok d /\
    dict_get d (lit "id") VNone = VStr (lit "2101.00001v1") /\
    dict_get d (lit "url") VNone = VStr (lit "http://arxiv.org/abs/2101.00001v1").
Proof.
  eexists. split; [vm_compute; reflexivity|].
  apply (arxiv_id_follows_abs (H := Samples.plain_lib) Samples.sample_entry _
           (lit "http://arxiv.org/") (lit "2101.00001v1")); reflexivity.
Defined.

(** ** PubMed: which articles give a record *)

Lemma parse_article_readable `{Lib} article :
  (exists d, PubMed.parse_article article = Ok d) <-> PubMed.readable_article article = true.
Proof.
  unfold PubMed.readable_article, PubMed.parse_article. cbv zeta.
  destruct (PubMed.find "PubDate" article) as [pub_date|]; [|split; eauto].
  destruct (PubMed.find "Year" pub_date) as [year|]; [|split; eauto].
  destruct (py_int (PubMed.text_of year)) as [y|e]; simpl; [split; eauto|].
  split; [intros [d E]; discriminate | discriminate].
Qed.

Lemma parse_articles_app `{Lib} l1 l2 :
  PubMed.parse_articles (l1 ++ l2) = PubMed.parse_articles l1 ++ PubMed.parse_articles l2.
Proof.
  induction l1 as [|a l1 IH]; simpl; [reflexivity|].
  destruct (PubMed.parse_article a); simpl; now rewrite IH.
Qed.

Lemma parse_articles_readable `{Lib} articles :
  PubMed.parse_articles articles
  = PubMed.parse_articles (List.filter PubMed.readable_article articles) /\
  length (PubMed.parse_articles articles)
  = length (List.filter PubMed.readable_article articles).
Proof.
  induction articles as [|a articles [IH1 IH2]]; simpl; [split; reflexivity|].
  pose proof (parse_article_readable a) as Ha.
  destruct (PubMed.parse_article a) as [d|ex] eqn:E.
  - rewrite (proj1 Ha) by eauto. simpl. rewrite E. simpl. split; congruence.
  - destruct (PubMed.readable_article a); [|split; assumption].
    destruct (proj2 Ha eq_refl) as [d Hd]. discriminate.
Qed.

(** The one thing that makes the PubMed parser drop an article is a
    publication year that [int] cannot read; the article is then dropped
    whole, and the others are parsed as if it was not there.  An article
    without PMID, title, abstract, authors or journal is kept, with the
    defaults in their place. *)
Theorem only_a_bad_year_drops_an_article `{Lib} :
  (forall article,
      (exists d, PubMed.parse_article article = Ok d) <->
      PubMed.readable_article article = true) /\
  (forall articles,
      PubMed.parse_articles articles
      = PubMed.parse_articles (List.filter PubMed.readable_article articles) /\
      length (PubMed.parse_articles articles)
      = length (List.filter PubMed.readable_article articles)) /\
  (forall l1 l2,
      PubMed.parse_articles (l1 ++ l2)
      = PubMed.parse_articles l1 ++ PubMed.parse_articles l2).
Proof.
  split; [apply parse_article_readable|]. split; [apply parse_articles_readable|].
  apply parse_articles_app.
Qed.

(** ** PubMed: the id and the url of a record *)

Lemma pubmed_article_id `{Lib} article p :
  PubMed.parse_article article = Ok p ->
  let id := match PubMed.find "PMID" article with
            | Some pmid => VStr (PubMed.text_of pmid)
            | None => VNone
            end in
  dict_get p (lit "id") VNone = id /\
  dict_get p (lit "url") VNone
  = if truthy id
    then VStr (lit "https://pubmed.ncbi.nlm.nih.gov/" ++ fmt id ++ lit "/")
    else VNone.
Proof.
  unfold PubMed.parse_article. cbv zeta.
  set (id := match PubMed.find "PMID" article with
             | Some pmid => VStr (PubMed.text_of pmid)
             | None => VNone
             end).
  set (title := match PubMed.find "ArticleTitle" article with Some _ => _ | None => _ end).
  set (abstract := match PubMed.find "Abstract" article with Some _ => _ | None => _ end).
  clearbody title abstract.
  set (P := fun d : dict =>
              dict_get d (lit "id") VNone = id /\
              dict_get d (lit "url") VNone
              = if truthy id
                then VStr (lit "https://pubmed.ncbi.nlm.nih.gov/" ++ fmt id ++ lit "/")
                else VNone).
  assert (Hset : forall d k v, k <> lit "id" -> k <> lit "url" -> P d -> P (dict_set d k v)).
  { intros d0 k v H1 H2 [H3 H4]. unfold P. now rewrite !dict_get_set_ne by assumption. }
  set (paper0 := [(lit "id", id); (lit "title", title); (lit "abstract", abstract);
                  (lit "url", VNone); (lit "pdf_url", VNone); (lit "authors", VList []);
                  (lit "journal_info", na_journal_info VNone)]).
  set (paper1 := if truthy (dict_get paper0 (lit "id") VNone) then _ else paper0).
  assert (H1 : P paper1).
  { unfold paper1. change (dict_get paper0 (lit "id") VNone) with id.
    unfold P. destruct (truthy id); split; reflexivity. }
  clearbody paper1. clear paper0.
  set (paper2 := match PubMed.find "AuthorList" article with Some _ => _ | None => paper1 end).
  assert (H2 : P paper2).
  { unfold paper2. destruct (PubMed.find "AuthorList" article); [|exact H1].
    apply Hset; [other_key | other_key | exact H1]. }
  clearbody paper2. clear H1 paper1.
  set (paper3 := match PubMed.find "Journal" article with Some _ => _ | None => paper2 end).
  assert (H3 : P paper3).
  { unfold paper3. destruct (PubMed.find "Journal" article) as [journal|]; [|exact H2].
    destruct (PubMed.find "Title" journal); [|exact H2].
    unfold PubMed.set_journal_title.
    destruct (dict_get paper2 (lit "journal_info") VNone); try exact H2.
    apply Hset; [other_key | other_key | exact H2]. }
  clearbody paper3. clear H2 paper2.
  destruct (PubMed.find "PubDate" article) as [pub_date|].
  - destruct (PubMed.find "Year" pub_date) as [year|].
    + destruct (py_int (PubMed.text_of year)) as [y|]; simpl; [|discriminate].
      intros E. injection E as <-. apply Hset; [other_key | other_key | exact H3].
    + intros E. injection E as <-. exact H3.
  - intros E. injection E as <-. exact H3.
Qed.

(** In a PubMed record the url follows the id: with a PMID that has a text,
    the id is that text and the url is the article's page on PubMed; with
    an empty PMID, or none, the id is empty or [None], there is no url,
    and the manager never puts the record in the merged list. *)
Theorem pubmed_url_and_merge_follow_id `{Lib} (article : node) (p : dict) :
  PubMed.parse_article article = Ok p ->
  match PubMed.find "PMID" article with
  | Some pmid =>
      dict_get p (lit "id") VNone = VStr (PubMed.text_of pmid) /\
      match PubMed.text_of pmid with
      | [] =>
          dict_get p (lit "url") VNone = VNone /\
          forall source_name st, Manager.dedupe_step source_name (VDict p) st = Ok st
      | _ =>
          dict_get p (lit "url") VNone
          = VStr (lit "https://pubmed.ncbi.nlm.nih.gov/" ++ PubMed.text_of pmid ++ lit "/")
      end
  | None =>
      dict_get p (lit "id") VNone = VNone /\ dict_get p (lit "url") VNone = VNone /\
      forall source_name st, Manager.dedupe_step source_name (VDict p) st = Ok st
  end.
Proof.
  intros Hp. destruct (pubmed_article_id article p Hp) as [H1 H2].
  assert (Hstep : truthy (dict_get p (lit "id") VNone) = false ->
                  forall source_name st, Manager.dedupe_step source_name (VDict p) st = Ok st).
  { intros Hf source_name st. unfold Manager.dedupe_step. simpl. now rewrite Hf. }
  destruct (PubMed.find "PMID" article) as [pmid|].
  - split; [exact H1|]. rewrite H1 in Hstep. rewrite H2. simpl in *.
    destruct (PubMed.text_of pmid); [split; [reflexivity | now apply Hstep] | reflexivity].
  - split; [exact H1|]. split; [exact H2|]. apply Hstep. now rewrite H1.
Qed.

Lemma pubmed_url_and_merge_follow_id_witness :
  let article :=
    Tag (lit "PubmedArticle")
      [Tag (lit "MedlineCitation")
         [Tag (lit "Article")
            [Tag (lit "ArticleTitle") [NavigableString (lit "A study")]]]] in
  exists p,
    PubMed.parse_article (H := Samples.plain_lib) article = Ok p /\
    dict_get p (lit "id") VNone = VNone /\ dict_get p (lit "url") VNone = VNone /\
    forall source_name st, Manager.dedupe_step source_name (VDict p) st = Ok st.
Proof.
  intros article. eexists. split; [vm_compute; reflexivity|].
  refine (pubmed_url_and_merge_follow_id (H := Samples.plain_lib) article _ _).
  vm_compute. reflexivity.
Defined.

End FeedFacts.

(* ===================================================================== *)
(** * What the arXiv client sends *)
(* ===================================================================== *)

Module ArxivTraceFacts.
Import PyFacts StrFacts Arxiv ArxivFacts.

Lemma search_papers_sends `{Lib} net self query f tr search_query :
  truthy (VStr (strip query)) = true ->
  _build_search_query self query f = Ok search_query ->
  search_papers net self query f tr
  = match retry_loop net (search_request self search_query f) (Z.to_nat max_retries) 0
            (tr ++ [RateLimit]) with
    | (Returned papers, tr') => (Some papers, tr')
    | (Done, tr') => (None, tr')
    | (Raised _, tr') => (Some [], tr')
    | (Unfinished, tr') => (Some [], tr')
    end.
Proof. intros Hq Hb. unfold search_papers. rewrite Hq, Hb. reflexivity. Qed.

(** What the loop adds to the trace: requests for [rq] and waits, with no
    more requests than [retry_count] leaves room for. *)
Lemma retry_loop_bound `{Lib} net rq : forall rounds retry_count tr,
  exists new,
    snd (retry_loop net rq rounds retry_count tr) = tr ++ new /\
    Forall (fun e => e = Request rq \/ e = Sleep 30 \/ e = Sleep 5) new /\
    Z.of_nat (length (requests_of new)) <= Z.max 0 (max_retries - retry_count).
Proof.
  induction rounds as [|rounds IH]; intros retry_count tr; cbn [retry_loop].
  - exists []. destruct (retry_count <? max_retries); simpl; rewrite app_nil_r;
      (split; [reflexivity|]); (split; [constructor|]); lia.
  - destruct (retry_count <? max_retries) eqn:Hcond.
    2:{ exists []. simpl. rewrite app_nil_r. split; [reflexivity|]. split; [constructor|]. lia. }
    apply Z.ltb_lt in Hcond.
    assert (Hstop : exists new,
               tr ++ [Request rq] = tr ++ new /\
               Forall (fun e => e = Request rq \/ e = Sleep 30 \/ e = Sleep 5) new /\
               Z.of_nat (length (requests_of new)) <= Z.max 0 (max_retries - retry_count)).
    { exists [Request rq]. split; [reflexivity|]. split; [repeat constructor|]. simpl. lia. }
    assert (Hretry : forall secs, secs = 30 \/ secs = 5 -> exists new,
               snd (retry_loop net rq rounds (retry_count + 1)
                      ((tr ++ [Request rq]) ++ [Sleep secs])) = tr ++ new /\
               Forall (fun e => e = Request rq \/ e = Sleep 30 \/ e = Sleep 5) new /\
               Z.of_nat (length (requests_of new)) <= Z.max 0 (max_retries - retry_count)).
    { intros secs Hsecs.
      destruct (IH (retry_count + 1) ((tr ++ [Request rq]) ++ [Sleep secs]))
        as (new & E & Ha & Hn).
      exists (Request rq :: Sleep secs :: new). rewrite E.
      split; [now rewrite <- !app_assoc|]. split.
      - constructor; [now left|]. constructor; [|exact Ha].
        destruct Hsecs as [-> | ->]; auto.
      - simpl. lia. }
    unfold session_get. destruct (net tr rq) as [r|e].
    + destruct (status r =? 200); [exact Hstop|].
      destruct (status r =? 400); [exact Hstop|].
      destruct (status r =? 429); [apply Hretry; now left | exact Hstop].
    + destruct (is_client_error e); [|exact Hstop].
      destruct (retry_count + 1 <? max_retries); [apply Hretry; now right | exact Hstop].
Qed.

Lemma arxiv_requests_of_attempts rq new :
  Forall (fun e => e = Request rq \/ e = Sleep 30 \/ e = Sleep 5) new ->
  requests_of new = repeat rq (length (requests_of new)).
Proof.
  induction 1 as [|e new [-> | [-> | ->]] _ IH]; simpl; [reflexivity | | |]; congruence.
Qed.

(** Whatever the network does, a search sends the same request at most
    three times; the wait for the rate limit comes once, before the first
    request, and nothing at all is done for a blank query or one that
    cannot be encoded. *)
Theorem arxiv_sends_at_most_three_requests `{Lib} (net : network) (self : ArxivClient)
    (query : str) (f : filters) (tr : trace) :
  exists new,
    snd (search_papers net self query f tr) = tr ++ new /\
    match _build_search_query self query f with
    | Ok search_query =>
        if truthy (VStr (strip query)) then
          exists rest n,
            new = RateLimit :: rest /\
            Forall (fun e => e = Request (search_request self search_query f)
                             \/ e = Sleep 30 \/ e = Sleep 5) rest /\
            requests_of new = repeat (search_request self search_query f) n /\
            (n <= 3)%nat
        else new = []
    | Raise _ => new = []
    end.
Proof.
  destruct (truthy (VStr (strip query))) eqn:Hq.
  - destruct (_build_search_query self query f) as [search_query|e] eqn:Hb.
    + rewrite (search_papers_sends net self query f tr search_query Hq Hb).
      destruct (retry_loop_bound net (search_request self search_query f)
                  (Z.to_nat max_retries) 0 (tr ++ [RateLimit])) as (rest & E & Ha & Hn).
      exists (RateLimit :: rest). split.
      * destruct (retry_loop _ _ _ _ _) as [[papers| |ex|] tr']; simpl in *;
          rewrite E, <- app_assoc; reflexivity.
      * exists rest, (length (requests_of rest)). split; [reflexivity|]. split; [exact Ha|].
        split; [apply (arxiv_requests_of_attempts _ _ Ha)|]. unfold max_retries in Hn. lia.
    + exists []. unfold search_papers. rewrite Hq, Hb. simpl. now rewrite app_nil_r.
  - exists []. unfold search_papers. rewrite Hq. simpl. rewrite app_nil_r.
    destruct (_build_search_query self query f); auto.
Qed.

(** ** Which failures are tried again *)

(** The first reply decides, unless it is a 429 or an [aiohttp.ClientError]:
    a 200 is parsed and returned, any other status gives the empty list, an
    exception of another kind gives the empty list, and in all these cases
    one request has been sent and there is no second one. *)
Theorem arxiv_first_reply_decides `{Lib} (net : network) (self : ArxivClient)
    (query : str) (f : filters) (tr : trace) (search_query : str) :
  truthy (VStr (strip query)) = true ->
  _build_search_query self query f = Ok search_query ->
  let rq := search_request self search_query f in
  match net (tr ++ [RateLimit]) rq with
  | Ok response =>
      status response <> 429 ->
      search_papers net self query f tr
      = (Some (if status response =? 200 then _parse_response (text response) else []),
         tr ++ [RateLimit; Request rq])
  | Raise e =>
      is_client_error e = false ->
      search_papers net self query f tr = (Some [], tr ++ [RateLimit; Request rq])
  end.
Proof.
  intros Hq Hb rq. rewrite (search_papers_sends net self query f tr search_query Hq Hb).
  fold rq. change (Z.to_nat max_retries) with 3%nat. cbn [retry_loop].
  change (0 <? max_retries) with true. cbv iota. unfold session_get.
  destruct (net (tr ++ [RateLimit]) rq) as [r|e].
  - intros H429. apply Z.eqb_neq in H429. rewrite H429.
    destruct (status r =? 200); [now rewrite <- app_assoc|].
    destruct (status r =? 400); now rewrite <- app_assoc.
  - intros He. rewrite He. now rewrite <- app_assoc.
Qed.

Lemma arxiv_first_reply_decides_witness :
  search_papers (H := Samples.plain_lib) (Samples.always_200 Samples.no_document) new
    (lit "test") no_filters []
  = (Some [], [RateLimit;
               Request (search_request new (lit "(ti:test%20OR%20abs:test)") no_filters)]).
Proof.
  pose proof (arxiv_first_reply_decides (H := Samples.plain_lib)
                (Samples.always_200 Samples.no_document) new (lit "test") no_filters []
                (lit "(ti:test%20OR%20abs:test)") eq_refl eq_refl) as H.
  simpl in H. apply H. discriminate.
Defined.

Lemma retry_loop_unreachable `{Lib} net rq :
  unreachable net -> forall n rounds retry_count tr,
  retry_count + Z.of_nat (S n) = max_retries -> (S n <= rounds)%nat ->
  retry_loop net rq rounds retry_count tr
  = (Returned [], tr ++ concat (repeat [Request rq; Sleep 5] n) ++ [Request rq]).
Proof.
  intros Hnet. induction n as [|n IH]; intros rounds retry_count tr Hrc Hn.
  - destruct rounds as [|rounds]; [lia|]. cbn [retry_loop].
    assert (E : (retry_count <? max_retries) = true) by (apply Z.ltb_lt; lia). rewrite E.
    unfold session_get. destruct (Hnet tr rq) as (e & -> & He). rewrite He.
    assert (E' : (retry_count + 1 <? max_retries) = false) by (apply Z.ltb_ge; lia).
    rewrite E'. reflexivity.
  - destruct rounds as [|rounds]; [lia|]. cbn [retry_loop].
    assert (E : (retry_count <? max_retries) = true) by (apply Z.ltb_lt; lia). rewrite E.
    unfold session_get. destruct (Hnet tr rq) as (e & -> & He). rewrite He.
    assert (E' : (retry_count + 1 <? max_retries) = true) by (apply Z.ltb_lt; lia).
    rewrite E'. rewrite (IH rounds (retry_count + 1)) by lia.
    cbn [repeat concat]. rewrite <- !app_assoc. reflexivity.
Qed.

(** When every request fails with an [aiohttp.ClientError], a search tries
    three times, waits five seconds after the first and after the second
    failure, and returns the empty list after the third. *)
Theorem arxiv_gives_up_after_three_failures `{Lib} (net : network) (self : ArxivClient)
    (query : str) (f : filters) (tr : trace) (search_query : str) :
  unreachable net ->
  truthy (VStr (strip query)) = true ->
  _build_search_query self query f = Ok search_query ->
  let rq := search_request self search_query f in
  search_papers net self query f tr
  = (Some [], tr ++ [RateLimit; Request rq; Sleep 5; Request rq; Sleep 5; Request rq]).
Proof.
  intros Hnet Hq Hb rq. rewrite (search_papers_sends net self query f tr search_query Hq Hb).
  rewrite (retry_loop_unreachable net _ Hnet 2%nat) by (reflexivity || (simpl; lia)).
  simpl. rewrite <- app_assoc. reflexivity.
Qed.

Lemma arxiv_gives_up_after_three_failures_witness :
  unreachable Samples.no_route /\
  let rq := search_request new (lit "(ti:test%20OR%20abs:test)") no_filters in
  search_papers (H := Samples.plain_lib) Samples.no_route new (lit "test") no_filters []
  = (Some [], [RateLimit; Request rq; Sleep 5; Request rq; Sleep 5; Request rq]).
Proof.
  assert (H1 : unreachable Samples.no_route) by (intros tr rq; eexists; split; reflexivity).
  split; [exact H1|].
  exact (arxiv_gives_up_after_three_failures (H := Samples.plain_lib) Samples.no_route new
           (lit "test") no_filters [] _ H1 eq_refl eq_refl).
Defined.

End ArxivTraceFacts.

(* ===================================================================== *)
(** * More about the Semantic Scholar client *)
(* ===================================================================== *)

Module ScholarMoreFacts.
Import PyFacts Scholar ScholarFacts.

(** ** What a search sends *)

(** No more requests than [retry_count] leaves room for. *)
Lemma scholar_retry_loop_bound `{Lib} net self f rq : forall rounds retry_count tr,
  exists new,
    snd (retry_loop net self f rq rounds retry_count tr) = tr ++ new /\
    attempts rq new /\
    Z.of_nat (length (requests_of new)) <= Z.max 0 (max_retries - retry_count).
Proof.
  induction rounds as [|rounds IH]; intros retry_count tr; cbn [retry_loop].
  - exists []. destruct (retry_count <? max_retries); simpl; rewrite app_nil_r;
      (split; [reflexivity|]); (split; [constructor|]); lia.
  - destruct (retry_count <? max_retries) eqn:Hcond.
    2:{ exists []. simpl. rewrite app_nil_r. split; [reflexivity|]. split; [constructor|]. lia. }
    apply Z.ltb_lt in Hcond.
    assert (Hstop : exists new,
               tr ++ [Request rq] = tr ++ new /\ attempts rq new /\
               Z.of_nat (length (requests_of new)) <= Z.max 0 (max_retries - retry_count)).
    { exists [Request rq]. split; [reflexivity|]. split; [repeat constructor|]. simpl. lia. }
    assert (Hretry : exists new,
               snd (retry_loop net self f rq rounds (retry_count + 1)
                      ((tr ++ [Request rq]) ++ [Sleep 30])) = tr ++ new /\
               attempts rq new /\
               Z.of_nat (length (requests_of new)) <= Z.max 0 (max_retries - retry_count)).
    { destruct (IH (retry_count + 1) ((tr ++ [Request rq]) ++ [Sleep 30]))
        as (new & E & Ha & Hn).
      exists (Request rq :: Sleep 30 :: new). rewrite E.
      split; [now rewrite <- !app_assoc|]. split.
      - constructor; [now left|]. constructor; [now right | exact Ha].
      - simpl. lia. }
    assert (Herr : exists new,
               snd (if max_retries - 1 <=? retry_count
                    then (Returned [], tr ++ [Request rq])
                    else retry_loop net self f rq rounds (retry_count + 1)
                           ((tr ++ [Request rq]) ++ [Sleep 30])) = tr ++ new /\
               attempts rq new /\
               Z.of_nat (length (requests_of new)) <= Z.max 0 (max_retries - retry_count)).
    { destruct (max_retries - 1 <=? retry_count); [exact Hstop | exact Hretry]. }
    unfold session_get. destruct (net tr rq) as [r|e]; [|exact Herr].
    destruct (status r =? 429); [exact Hretry|].
    destruct (status r =? 200); [|exact Herr].
    destruct (read_page self f r); [exact Hstop | exact Herr].
Qed.

Lemma scholar_requests_of_attempts rq new :
  attempts rq new -> requests_of new = repeat rq (length (requests_of new)).
Proof.
  induction 1 as [|e new [-> | ->] _ IH]; simpl; [reflexivity | |]; congruence.
Qed.

Lemma search_papers_trace `{Lib} net self query f tr :
  snd (search_papers net self query f tr)
  = snd (retry_loop net self f (search_request self query f) (Z.to_nat max_retries) 0 tr).
Proof.
  unfold search_papers, search_request.
  destruct (retry_loop _ _ _ _ _ _ _) as [[papers| |ex|] tr']; reflexivity.
Qed.

Lemma scholar_search_attempts `{Lib} net self query f tr :
  exists new,
    snd (search_papers net self query f tr) = tr ++ new /\
    attempts (search_request self query f) new /\
    (1 <= length (requests_of new) <= 3)%nat.
Proof.
  rewrite search_papers_trace.
  destruct (scholar_retry_loop_bound net self f (search_request self query f)
              (Z.to_nat max_retries) 0 tr) as (new & E & Ha & Hn).
  destruct (retry_loop_sound net self f (search_request self query f)
              (Z.to_nat max_retries) 0 tr) as (new' & E' & _ & Hfirst & _).
  rewrite E in E'. apply app_inv_head in E'. subst new'.
  destruct Hfirst as [rest Hrest]; [reflexivity | discriminate |].
  exists new. split; [exact E|]. split; [exact Ha|].
  unfold max_retries in Hn. rewrite Hrest in *. simpl in *. lia.
Qed.

(** Whatever the network does, a Semantic Scholar search sends its request
    at least once and at most three times, the same request each time,
    with nothing but waits of thirty seconds in between. *)
Theorem scholar_sends_at_most_three_requests `{Lib} (net : network)
    (self : SemanticScholarClient) (query : str) (f : filters) (tr : trace) :
  exists new n,
    snd (search_papers net self query f tr) = tr ++ new /\
    attempts (search_request self query f) new /\
    requests_of new = repeat (search_request self query f) n /\
    (1 <= n <= 3)%nat.
Proof.
  destruct (scholar_search_attempts net self query f tr) as (new & E & Ha & Hn).
  exists new, (length (requests_of new)). split; [exact E|]. split; [exact Ha|].
  split; [apply (scholar_requests_of_attempts _ _ Ha) | exact Hn].
Qed.

Lemma retry_loop_failing `{Lib} net self f rq :
  failing net self f -> forall n rounds retry_count tr,
  retry_count + Z.of_nat (S n) = max_retries -> (S n <= rounds)%nat ->
  retry_loop net self f rq rounds retry_count tr
  = (Returned [], tr ++ concat (repeat [Request rq; Sleep 30] n) ++ [Request rq]).
Proof.
  intros Hnet. induction n as [|n IH]; intros rounds retry_count tr Hrc Hn.
  - destruct rounds as [|rounds]; [lia|]. cbn [retry_loop].
    assert (E : (retry_count <? max_retries) = true) by (apply Z.ltb_lt; lia). rewrite E.
    assert (E' : (max_retries - 1 <=? retry_count) = true) by (apply Z.leb_le; lia).
    rewrite E'. unfold session_get. specialize (Hnet tr rq).
    destruct (net tr rq) as [r|e]; [|reflexivity]. destruct Hnet as [H429 H200].
    apply Z.eqb_neq in H429. rewrite H429.
    destruct (status r =? 200) eqn:E200; [|reflexivity].
    apply Z.eqb_eq in E200. destruct (H200 E200) as [e ->]. reflexivity.
  - destruct rounds as [|rounds]; [lia|]. cbn [retry_loop].
    assert (E : (retry_count <? max_retries) = true) by (apply Z.ltb_lt; lia). rewrite E.
    assert (E' : (max_retries - 1 <=? retry_count) = false) by (apply Z.leb_gt; lia).
    cbv zeta. rewrite E'.
    assert (Hnext : retry_loop net self f rq rounds (retry_count + 1)
                      ((tr ++ [Request rq]) ++ [Sleep 30])
                    = (Returned [], tr ++ concat (repeat [Request rq; Sleep 30] (S n))
                                       ++ [Request rq])).
    { rewrite (IH rounds (retry_count + 1)) by lia.
      cbn [repeat concat]. now rewrite <- !app_assoc. }
    unfold session_get. specialize (Hnet tr rq).
    destruct (net tr rq) as [r|e]; [|exact Hnext]. destruct Hnet as [H429 H200].
    apply Z.eqb_neq in H429. rewrite H429.
    destruct (status r =? 200) eqn:E200; [|exact Hnext].
    apply Z.eqb_eq in E200. destruct (H200 E200) as [e ->]. exact Hnext.
Qed.

(** When no attempt succeeds and none is answered 429, be it that the
    request raises, that the status is neither 200 nor 429, or that the
    body of a 200 cannot be read, a search tries three times, waits thirty
    seconds after the first and after the second failure, and returns the
    empty list after the third, without another wait. *)
Theorem scholar_gives_up_after_three_failures `{Lib} (net : network)
    (self : SemanticScholarClient) (query : str) (f : filters) (tr : trace) :
  failing net self f ->
  let rq := search_request self query f in
  search_papers net self query f tr
  = ([], tr ++ [Request rq; Sleep 30; Request rq; Sleep 30; Request rq]).
Proof.
  intros Hnet rq. unfold search_papers. fold (search_request self query f). fold rq.
  rewrite (retry_loop_failing net self f rq Hnet 2%nat) by (reflexivity || (simpl; lia)).
  reflexivity.
Qed.

Lemma scholar_gives_up_after_three_failures_witness :
  failing (H := Samples.plain_lib) Samples.always_500 (new None []) no_filters /\
  let rq := search_request (new None []) (lit "graphs") no_filters in
  search_papers (H := Samples.plain_lib) Samples.always_500 (new None []) (lit "graphs")
    no_filters []
  = ([], [Request rq; Sleep 30; Request rq; Sleep 30; Request rq]).
Proof.
  assert (H1 : failing (H := Samples.plain_lib) Samples.always_500 (new None []) no_filters).
  { intros tr rq. simpl. split; discriminate. }
  split; [exact H1|].
  exact (scholar_gives_up_after_three_failures (H := Samples.plain_lib) Samples.always_500
           (new None []) (lit "graphs") no_filters [] H1).
Defined.

(** ** The filters *)

Lemma scholar_results_pass `{Lib} net self query f tr :
  Forall (fun d => _apply_filters d f = true) (fst (search_papers net self query f tr)).
Proof.
  unfold search_papers.
  destruct (retry_loop_sound net self f
              {| rq_url := base_url self ++ lit "/paper/search";
                 rq_params := params_of query f |} (Z.to_nat max_retries) 0 tr)
    as (new & _ & _ & _ & Hr).
  destruct (retry_loop _ _ _ _ _ _ _) as [[papers| |ex|] tr']; simpl in *;
    [exact Hr | constructor | constructor | constructor].
Qed.

(** A record passes [_apply_filters] exactly when it passes each of the
    four tests; a test that raises counts as failed. *)
Lemma apply_filters_all (paper : dict) (f : filters) :
  _apply_filters paper f = true <->
  passes_year paper f = Ok true /\
  passes_citations paper f = Ok true /\
  passes_quartile paper (lit "jcr_quartile") (f_jcr_quartile f) = Ok true /\
  passes_quartile paper (lit "cas_quartile") (f_cas_quartile f) = Ok true.
Proof.
  unfold _apply_filters.
  destruct (passes_year paper f) as [[|]|]; simpl;
    [|split; [discriminate | intros [E _]; discriminate]..].
  destruct (passes_citations paper f) as [[|]|]; simpl;
    [|split; [discriminate | intros (_ & E & _); discriminate]..].
  destruct (passes_quartile paper (lit "jcr_quartile") (f_jcr_quartile f)) as [[|]|]; simpl;
    [|split; [discriminate | intros (_ & _ & E & _); discriminate]..].
  destruct (passes_quartile paper (lit "cas_quartile") (f_cas_quartile f)) as [[|]|]; simpl;
    [|split; [discriminate | intros (_ & _ & _ & E); discriminate]..].
  split; auto.
Qed.

Lemma min_citations_param query f m :
  f_min_citation_count f = Some m ->
  dict_get (params_of query f) (lit "minCitationCount") VNone = VInt m.
Proof. intros Hf. unfold params_of. rewrite Hf. apply dict_get_set_eq. Qed.

(** With [min_citation_count = m], every request of a search carries
    [minCitationCount = m], and every record the search returns has a
    citation count, an integer, of [m] at least. *)
Theorem scholar_min_citation_count `{Lib} (net : network) (self : SemanticScholarClient)
    (query : str) (f : filters) (tr : trace) (m : Z) :
  f_min_citation_count f = Some m ->
  (exists new,
      snd (search_papers net self query f tr) = tr ++ new /\
      Forall (fun r => dict_get (rq_params r) (lit "minCitationCount") VNone = VInt m)
             (requests_of new)) /\
  Forall (fun d => exists c,
            as_int (dict_get d (lit "citationCount") (VInt 0)) = Some c /\ m <= c)
         (fst (search_papers net self query f tr)).
Proof.
  intros Hf. split.
  - destruct (scholar_search_attempts net self query f tr) as (new & E & Ha & _).
    exists new. split; [exact E|].
    eapply List.Forall_impl; [|exact (attempts_requests _ new Ha)].
    intros r ->. apply (min_citations_param query f m Hf).
  - eapply List.Forall_impl; [|apply scholar_results_pass]. intros d Hd.
    apply apply_filters_all in Hd as (_ & Hc & _). unfold passes_citations in Hc.
    rewrite Hf in Hc. unfold val_lt_int in Hc.
    destruct (as_int (dict_get d (lit "citationCount") (VInt 0))) as [c|]; [|discriminate].
    simpl in Hc. exists c. split; [reflexivity|].
    destruct (c <? m) eqn:E; [discriminate|]. apply Z.ltb_ge in E. exact E.
Qed.

Lemma scholar_min_citation_count_witness :
  let run := search_papers (H := Samples.plain_lib) (Samples.always_200 (Ok Samples.cited_page))
               (new None []) (lit "graphs") (Samples.cited 10) [] in
  map (fun d => dict_get d (lit "id") VNone) (fst run) = [VStr (lit "b2")] /\
  Forall (fun d => exists c,
            as_int (dict_get d (lit "citationCount") (VInt 0)) = Some c /\ 10 <= c)
         (fst run).
Proof.
  intros run. split; [vm_compute; reflexivity|].
  exact (proj2 (scholar_min_citation_count (H := Samples.plain_lib)
                  (Samples.always_200 (Ok Samples.cited_page)) (new None []) (lit "graphs")
                  (Samples.cited 10) [] 10 eq_refl)).
Defined.

Lemma passes_quartile_member (paper : dict) (key : str) (w : str) (ws : list str) :
  passes_quartile paper key (Some (w :: ws)) = Ok true ->
  exists info q,
    dict_get paper (lit "journal_info") VNone = VDict info /\
    dict_get info key VNone = VStr q /\ In q (w :: ws).
Proof.
  unfold passes_quartile, py_getitem.
  destruct (dict_has paper (lit "journal_info")); simpl; [|discriminate].
  destruct (dict_get paper (lit "journal_info") VNone) as [| | | | |info] eqn:Hinfo; simpl;
    try discriminate.
  destruct (dict_has info key); simpl; [|discriminate].
  destruct (dict_get info key VNone) as [| | |q| |] eqn:Hq; try discriminate.
  intros E. injection E as E. exists info, q. split; [reflexivity|]. split; [exact Hq|].
  change (existsb (str_eqb q) (w :: ws) = true) in E.
  apply existsb_exists in E as (x & Hin & Hx). apply str_eqb_eq in Hx. now subst x.
Qed.

(** With a list of JCR or CAS quartiles that is not empty, every record a
    search returns has, in its [journal_info], a quartile of that kind that
    is a string of the list.  A record whose venue has no metrics has the
    quartile [N/A], and is returned only if [N/A] is in the list. *)
Theorem scholar_quartile_filters `{Lib} (net : network) (self : SemanticScholarClient)
    (query : str) (f : filters) (tr : trace) :
  Forall (fun d =>
            (forall w ws, f_jcr_quartile f = Some (w :: ws) ->
               exists info q,
                 dict_get d (lit "journal_info") VNone = VDict info /\
                 dict_get info (lit "jcr_quartile") VNone = VStr q /\ In q (w :: ws)) /\
            (forall w ws, f_cas_quartile f = Some (w :: ws) ->
               exists info q,
                 dict_get d (lit "journal_info") VNone = VDict info /\
                 dict_get info (lit "cas_quartile") VNone = VStr q /\ In q (w :: ws)))
         (fst (search_papers net self query f tr)).
Proof.
  eapply List.Forall_impl; [|apply scholar_results_pass]. intros d Hd.
  apply apply_filters_all in Hd as (_ & _ & Hj & Hc). split.
  - intros w ws Hf. rewrite Hf in Hj. now apply passes_quartile_member.
  - intros w ws Hf. rewrite Hf in Hc. now apply passes_quartile_member.
Qed.

Lemma scholar_quartile_filters_witness :
  let run := search_papers (H := Samples.plain_lib) (Samples.always_200 (Ok Samples.cited_page))
               (new None Samples.journals) (lit "graphs") (Samples.in_jcr [lit "Q1"]) [] in
  map (fun d => dict_get d (lit "id") VNone) (fst run) = [VStr (lit "b1")] /\
  Forall (fun d => exists info q,
            dict_get d (lit "journal_info") VNone = VDict info /\
            dict_get info (lit "jcr_quartile") VNone = VStr q /\ In q [lit "Q1"])
         (fst run).
Proof.
  intros run. split; [vm_compute; reflexivity|].
  pose proof (scholar_quartile_filters (H := Samples.plain_lib)
                (Samples.always_200 (Ok Samples.cited_page)) (new None Samples.journals)
                (lit "graphs") (Samples.in_jcr [lit "Q1"]) []) as H.
  eapply List.Forall_impl; [|exact H]. intros d [Hj _]. exact (Hj _ _ eq_refl).
Defined.

(** ** The journal table *)

Lemma find_exact_other `{Lib} (name : str) before rest :
  Forall (other_journal name) before ->
  find_exact (before ++ rest) (VStr name) = find_exact rest (VStr name).
Proof.
  induction 1 as [|entry before (t & (d & -> & Hhas & Ht) & Hne) _ IH]; [reflexivity|].
  cbn [app find_exact py_getitem]. rewrite Hhas, Ht. cbn [bind py_lower].
  destruct (str_eqb (str_lower t) (str_lower name)) eqn:E; [|exact IH].
  apply str_eqb_eq in E. contradiction.
Qed.

(** The metrics of a venue are those of the first entry of the table whose
    title is the venue's name, case apart, when the entries before it are
    mappings with a string for title: the entry's [if], [jcr_quartile] and
    [cas_quartile], each [N/A] when the entry does not have it.  The CAS
    quartile is passed on as the table has it. *)
Theorem journal_metrics_of_first_match `{Lib} (self : SemanticScholarClient)
    (name : str) (before after : dict) (issn t : str) (entry : dict) :
  journal_data self = before ++ (issn, VDict entry) :: after ->
  Forall (other_journal name) (map snd before) ->
  dict_has entry (lit "title") = true ->
  dict_get entry (lit "title") VNone = VStr t ->
  str_lower t = str_lower name ->
  name <> [] ->
  get_journal_metrics self (VStr name)
  = [(lit "impact_factor", dict_get entry (lit "if") (VStr (lit "N/A")));
     (lit "jcr_quartile", dict_get entry (lit "jcr_quartile") (VStr (lit "N/A")));
     (lit "cas_quartile", dict_get entry (lit "cas_quartile") (VStr (lit "N/A")))].
Proof.
  intros Hdata Hbefore Hhas Ht Hlow Hname. unfold get_journal_metrics. rewrite Hdata.
  assert (E1 : truthy (VStr name) = true) by (destruct name; [contradiction | reflexivity]).
  assert (E2 : truthy (VDict (before ++ (issn, VDict entry) :: after)) = true)
    by (destruct before; reflexivity).
  rewrite E1, E2. cbn [negb orb]. rewrite map_app. cbn [map snd].
  rewrite (find_exact_other name _ _ Hbefore).
  cbn [find_exact py_getitem]. rewrite Hhas, Ht. cbn [bind py_lower].
  assert (E3 : str_eqb (str_lower t) (str_lower name) = true) by now apply str_eqb_eq.
  rewrite E3. reflexivity.
Qed.

Lemma journal_metrics_of_first_match_witness :
  get_journal_metrics (H := Samples.plain_lib) (new None Samples.journals) (VStr (lit "NATURE"))
  = [(lit "impact_factor", VStr (lit "50.5"));
     (lit "jcr_quartile", VStr (lit "Q1"));
     (lit "cas_quartile", VStr (lit "1"))].
Proof.
  exact (journal_metrics_of_first_match (H := Samples.plain_lib) (new None Samples.journals)
           (lit "NATURE") [] [] (lit "0028-0836") (lit "Nature")
           [(lit "title", VStr (lit "Nature")); (lit "if", VStr (lit "50.5"));
            (lit "jcr_quartile", VStr (lit "Q1")); (lit "cas_quartile", VStr (lit "1"))]
           eq_refl (List.Forall_nil _) eq_refl eq_refl eq_refl ltac:(discriminate)).
Defined.

(** One entry of the table that is not a mapping, or has no title, or has
    a title that is not a string, hides every entry after it: a venue that
    no entry before it matches gets the default metrics, whatever comes
    after. *)
Theorem malformed_entry_hides_the_rest `{Lib} (self : SemanticScholarClient)
    (name : str) (before after : dict) (issn : str) (bad : pyval) :
  journal_data self = before ++ (issn, bad) :: after ->
  Forall (other_journal name) (map snd before) ->
  (forall t, ~ titled bad t) ->
  get_journal_metrics self (VStr name) = _get_default_metrics.
Proof.
  intros Hdata Hbefore Hbad. unfold get_journal_metrics. rewrite Hdata.
  destruct (negb (truthy (VStr name)) || negb (truthy (VDict (before ++ (issn, bad) :: after))));
    [reflexivity|].
  rewrite map_app. cbn [map snd]. rewrite (find_exact_other name _ _ Hbefore).
  cbn [find_exact]. unfold py_getitem.
  destruct bad as [| | | | |d]; try reflexivity.
  destruct (dict_has d (lit "title")) eqn:Hhas; [|reflexivity]. cbn [bind].
  destruct (dict_get d (lit "title") VNone) as [| | |t| |] eqn:Ht; try reflexivity.
  exfalso. apply (Hbad t). exists d. auto.
Qed.

Lemma malformed_entry_hides_the_rest_witness :
  get_journal_metrics (H := Samples.plain_lib)
    (new None ((lit "0000-0000", VDict [(lit "if", VStr (lit "1.0"))]) :: Samples.journals))
    (VStr (lit "Nature"))
  = _get_default_metrics.
Proof.
  apply (malformed_entry_hides_the_rest (H := Samples.plain_lib)
           (new None ((lit "0000-0000", VDict [(lit "if", VStr (lit "1.0"))])
                        :: Samples.journals))
           (lit "Nature") []
           Samples.journals (lit "0000-0000") (VDict [(lit "if", VStr (lit "1.0"))]) eq_refl
           (List.Forall_nil _)).
  intros t (d & E & Hhas & _). injection E as <-. discriminate Hhas.
Defined.

(** ** The venue of a record *)

(** The [journal_info] of a Semantic Scholar record has the four keys
    [title], [impact_factor], [jcr_quartile] and [cas_quartile]; its title
    is the paper's [venue], else the name of its [publicationVenue], else
    [Unknown], and is never empty; the three metrics are those of
    [get_journal_metrics] for that title. *)
Theorem scholar_venue_is_never_empty `{Lib} (self : SemanticScholarClient)
    (paper : pyval) (d : dict) :
  process_paper self paper = Ok d ->
  exists p,
    paper = VDict p /\
    truthy (venue_of p) = true /\
    dict_get d (lit "journal_info") VNone
    = VDict [(lit "title", venue_of p);
             (lit "impact_factor",
              dict_get (get_journal_metrics self (venue_of p)) (lit "impact_factor")
                (VStr (lit "N/A")));
             (lit "jcr_quartile",
              dict_get (get_journal_metrics self (venue_of p)) (lit "jcr_quartile")
                (VStr (lit "N/A")));
             (lit "cas_quartile",
              dict_get (get_journal_metrics self (venue_of p)) (lit "cas_quartile")
                (VStr (lit "N/A")))].
Proof.
  unfold process_paper. destruct paper as [| | | | |p]; try discriminate.
  cbn [py_get bind]. intros Hd. exists p. split; [reflexivity|].
  unfold venue_of. destruct (truthy (dict_get p (lit "venue") VNone)) eqn:Hv.
  - split; [exact Hv|]. cbn [bind] in Hd.
    destruct (py_iter _) as [items|]; cbn [bind] in Hd; [|discriminate].
    destruct (py_get _ _ _) as [pdf_url|]; cbn [bind] in Hd; [|discriminate].
    injection Hd as <-. reflexivity.
  - destruct (py_or (dict_get p (lit "publicationVenue") (VDict [])) (VDict []))
      as [| | | | |pv]; try discriminate.
    cbn [py_get bind] in Hd.
    assert (Ht : truthy (py_or (dict_get pv (lit "name") VNone) (VStr (lit "Unknown"))) = true).
    { unfold py_or. destruct (truthy (dict_get pv (lit "name") VNone)) eqn:E; [exact E | reflexivity]. }
    split; [exact Ht|].
    destruct (py_iter _) as [items|]; cbn [bind] in Hd; [|discriminate].
    destruct (py_get _ _ _) as [pdf_url|]; cbn [bind] in Hd; [|discriminate].
    injection Hd as <-. reflexivity.
Qed.

Lemma scholar_venue_is_never_empty_witness :
  exists d,
    process_paper (H := Samples.plain_lib) (new None [])
      (VDict [(lit "paperId", VStr (lit "b2")); (lit "venue", VStr [])]) = Ok d /\
    dict_get d (lit "journal_info") VNone = na_journal_info (VStr (lit "Unknown")).
Proof.
  eexists. split; [vm_compute; reflexivity|].
  destruct (scholar_venue_is_never_empty (H := Samples.plain_lib) (new None [])
              (VDict [(lit "paperId", VStr (lit "b2")); (lit "venue", VStr [])]) _ eq_refl)
    as (p & E & _ & Hinfo).
  injection E as <-. exact Hinfo.
Defined.

End ScholarMoreFacts.

(* ===================================================================== *)
(** * What the PubMed client sends *)
(* ===================================================================== *)

Module PubMedFacts.
Import PyFacts PubMed.

Lemma fetch_unfold `{Lib} net self id_list tr :
  _fetch_papers_details net self id_list tr
  = (match net tr (fetch_request self id_list) with
     | Ok response =>
         if status response =? 200 then _parse_papers_details (text response) else []
     | Raise _ => []
     end,
     tr ++ [Request (fetch_request self id_list)]).
Proof.
  unfold _fetch_papers_details, session_get. fold (fetch_request self id_list).
  destruct (net tr (fetch_request self id_list)) as [r|e]; [|reflexivity].
  destruct (status r =? 200); reflexivity.
Qed.

Lemma search_unfold `{Lib} net self query f tr :
  search_papers net self query f tr
  = match net tr (search_request self query f) with
    | Ok response =>
        if status response =? 200 then
          match _parse_search_response (text response) with
          | [] => ([], tr ++ [Request (search_request self query f)])
          | id_list =>
              _fetch_papers_details net self id_list
                (tr ++ [Request (search_request self query f)])
          end
        else ([], tr ++ [Request (search_request self query f)])
    | Raise _ => ([], tr ++ [Request (search_request self query f)])
    end.
Proof.
  unfold search_papers, session_get. fold (search_request self query f).
  destruct (net tr (search_request self query f)) as [r|e]; [|reflexivity].
  destruct (status r =? 200); [|reflexivity].
  destruct (_parse_search_response (text r)); reflexivity.
Qed.

(** What a search adds to the trace: the request for the query and, when
    its reply lists ids, the request for these ids. *)
Lemma search_trace `{Lib} net self query f tr :
  exists new,
    snd (search_papers net self query f tr) = tr ++ new /\
    (new = [Request (search_request self query f)] /\
     fst (search_papers net self query f tr) = []
     \/
     exists response i ids,
       net tr (search_request self query f) = Ok response /\
       status response = 200 /\
       _parse_search_response (text response) = i :: ids /\
       new = [Request (search_request self query f);
              Request (fetch_request self (i :: ids))]).
Proof.
  rewrite search_unfold.
  destruct (net tr (search_request self query f)) as [r|e] eqn:Hnet.
  - destruct (status r =? 200) eqn:Hs.
    + destruct (_parse_search_response (text r)) as [|i ids] eqn:Hids.
      * eexists. split; [reflexivity|]. left. split; reflexivity.
      * rewrite fetch_unfold. eexists. split; [simpl; now rewrite <- app_assoc|].
        right. exists r, i, ids. apply Z.eqb_eq in Hs. auto.
    + eexists. split; [reflexivity|]. left. split; reflexivity.
  - eexists. split; [reflexivity|]. left. split; reflexivity.
Qed.


Lemma with_api_key_get self params :
  dict_has params (lit "api_key") = false ->
  dict_get (with_api_key self params) (lit "api_key") VNone
  = match api_key self with
    | Some (c :: k) => VStr (c :: k)
    | _ => VNone
    end.
Proof.
  intros Hno. unfold with_api_key. destruct (api_key self) as [[|c k]|]; simpl.
  - induction params as [|[k0 v0] params IH]; [reflexivity|]. simpl in *.
    apply orb_false_elim in Hno as [H1 H2]. rewrite H1. now apply IH.
  - apply dict_get_set_eq.
  - induction params as [|[k0 v0] params IH]; [reflexivity|]. simpl in *.
    apply orb_false_elim in Hno as [H1 H2]. rewrite H1. now apply IH.
Qed.

Lemma search_request_key self query f :
  dict_get (rq_params (search_request self query f)) (lit "api_key") VNone
  = match api_key self with
    | Some (c :: k) => VStr (c :: k)
    | _ => VNone
    end.
Proof.
  unfold search_request. cbn [rq_params].
  rewrite dict_get_set_ne by other_key. now apply with_api_key_get.
Qed.

Lemma fetch_request_key self id_list :
  dict_get (rq_params (fetch_request self id_list)) (lit "api_key") VNone
  = match api_key self with
    | Some (c :: k) => VStr (c :: k)
    | _ => VNone
    end.
Proof. unfold fetch_request. cbn [rq_params]. now apply with_api_key_get. Qed.

(** A PubMed search sends one request or two, whatever the replies are,
    429 included: the [esearch] request for the query, then, only when the
    reply has status 200 and lists ids, one [efetch] request for exactly
    these ids, joined by commas in the order of the reply.  When no second
    request is sent the result is the empty list.  Each request carries
    the client's API key when the key is not empty, and no key
    otherwise. *)
Theorem pubmed_search_then_fetch `{Lib} (net : network) (self : PubMedClient)
    (query : str) (f : filters) (tr : trace) :
  exists new,
    snd (search_papers net self query f tr) = tr ++ new /\
    (new = [Request (search_request self query f)] /\
     fst (search_papers net self query f tr) = []
     \/
     exists response i ids,
       net tr (search_request self query f) = Ok response /\
       status response = 200 /\
       _parse_search_response (text response) = i :: ids /\
       new = [Request (search_request self query f);
              Request (fetch_request self (i :: ids))] /\
       rq_url (fetch_request self (i :: ids)) = base_url self ++ lit "/efetch.fcgi" /\
       dict_get (rq_params (fetch_request self (i :: ids))) (lit "id") VNone
       = VStr (join (lit ",") (i :: ids))) /\
    Forall (fun rq => dict_get (rq_params rq) (lit "api_key") VNone
                      = match api_key self with
                        | Some (c :: k) => VStr (c :: k)
                        | _ => VNone
                        end)
           (requests_of new).
Proof.
  destruct (search_trace net self query f tr)
    as (new & E & [Hone | (r & i & ids & H1 & H2 & H3 & H4)]).
  - exists new. split; [exact E|]. split; [now left|]. destruct Hone as [-> _].
    simpl. repeat constructor. apply search_request_key.
  - exists new. split; [exact E|]. split.
    + right. exists r, i, ids.
      repeat (split; [assumption|]). split; [reflexivity|].
      unfold fetch_request, with_api_key. cbn [rq_params].
      destruct (api_key self) as [k|]; [|reflexivity].
      destruct (truthy (VStr k)); [|reflexivity].
      apply dict_get_set_ne. other_key.
    + subst new. simpl. repeat constructor;
        [apply search_request_key | apply fetch_request_key].
Qed.

(** ** Filters *)

(** The PubMed client does not filter what it receives: the filters only
    go into the request.  Against a server whose replies do not depend on
    the parameters, a search returns the same records whatever the filters
    are. *)
Theorem pubmed_does_not_filter `{Lib} (net : network) (self : PubMedClient)
    (query : str) (f f' : filters) (tr : trace) :
  ignores_parameters net ->
  fst (search_papers net self query f tr) = fst (search_papers net self query f' tr).
Proof.
  intros Hnet. rewrite !search_unfold.
  rewrite (Hnet tr tr (search_request self query f) (search_request self query f') eq_refl).
  destruct (net tr (search_request self query f')) as [r|e]; [|reflexivity].
  destruct (status r =? 200); [|reflexivity].
  destruct (_parse_search_response (text r)) as [|i ids]; [reflexivity|].
  rewrite !fetch_unfold. cbn [fst].
  now rewrite (Hnet (tr ++ [Request (search_request self query f)])
                 (tr ++ [Request (search_request self query f')])
                 (fetch_request self (i :: ids)) (fetch_request self (i :: ids)) eq_refl).
Qed.

Lemma pubmed_does_not_filter_witness :
  ignores_parameters (Samples.always_200 Samples.no_document) /\
  fst (search_papers (H := Samples.plain_lib) (Samples.always_200 Samples.no_document)
         (new None) (lit "graphs") (Samples.years 2020 2024) [])
  = fst (search_papers (H := Samples.plain_lib) (Samples.always_200 Samples.no_document)
           (new None) (lit "graphs") no_filters []).
Proof.
  assert (H1 : ignores_parameters (Samples.always_200 Samples.no_document))
    by (intros tr tr' rq rq' _; reflexivity).
  split; [exact H1|].
  exact (pubmed_does_not_filter (H := Samples.plain_lib) (Samples.always_200 Samples.no_document)
           (new None) (lit "graphs") (Samples.years 2020 2024) no_filters [] H1).
Defined.

End PubMedFacts.

(* ===================================================================== *)
(** * The look-ups of one paper *)
(* ===================================================================== *)

Module LookupFacts.
Import PyFacts ParserFacts.

Lemma first_or_empty_cases {P : dict -> Prop} papers :
  Forall P papers -> first_or_empty papers = [] \/ P (first_or_empty papers).
Proof. intros [|p rest Hp _]; [now left | now right]. Qed.

(** [get_paper_details], on arXiv and on PubMed, sends one request,
    whatever the reply is: there is no wait for the rate limit and no
    second attempt, not even after a 429.  The request is for the paper's
    id, and what comes back is the empty mapping or a record with an id, a
    title and a list of authors: the first one of the reply. *)
Theorem details_take_one_request `{Lib} (net : network) (paper_id : str) (tr : trace) :
  (forall self,
      let rq := {| rq_url := Arxiv.base_url self;
                   rq_params := [(lit "id_list", VStr paper_id);
                                 (lit "max_results", VInt 1)] |} in
      snd (Arxiv.get_paper_details net self paper_id tr) = tr ++ [Request rq] /\
      (fst (Arxiv.get_paper_details net self paper_id tr) = [] \/
       shaped is_str (fst (Arxiv.get_paper_details net self paper_id tr)))) /\
  (forall self,
      snd (PubMed.get_paper_details net self paper_id tr)
      = tr ++ [Request (PubMed.fetch_request self [paper_id])] /\
      dict_get (rq_params (PubMed.fetch_request self [paper_id])) (lit "id") VNone
      = VStr paper_id /\
      (fst (PubMed.get_paper_details net self paper_id tr) = [] \/
       shaped is_str_or_none (fst (PubMed.get_paper_details net self paper_id tr)))).
Proof.
  split.
  - intros self rq. unfold Arxiv.get_paper_details, session_get. fold rq.
    destruct (net tr rq) as [r|e]; [|split; [reflexivity | now left]].
    destruct (status r =? 200); [|split; [reflexivity | now left]].
    split; [reflexivity|]. cbn [fst]. unfold Arxiv._parse_response.
    destruct (ET_fromstring (text r)) as [root|]; [|now left].
    destruct (first_or_empty_cases (P := fun d => shaped is_str d /\ _) _
                (arxiv_entries_shaped (Arxiv.findall (Arxiv.atom "entry") root)))
      as [E | [Hs _]]; [now left | now right].
  - intros self. unfold PubMed.get_paper_details. rewrite PubMedFacts.fetch_unfold.
    cbn [fst snd]. split; [reflexivity|]. split.
    + unfold PubMed.fetch_request, PubMed.with_api_key. cbn [rq_params].
      destruct (PubMed.api_key self) as [k|]; [|reflexivity].
      destruct (truthy (VStr k)); [|reflexivity].
      apply dict_get_set_ne. other_key.
    + destruct (net tr _) as [r|e]; [|now left].
      destruct (status r =? 200); [|now left]. unfold PubMed._parse_papers_details.
      destruct (BeautifulSoup (text r)) as [soup|]; [|now left].
      destruct (first_or_empty_cases (P := fun d => shaped is_str_or_none d /\ _) _
                  (pubmed_articles_shaped (PubMed.find_all "PubmedArticle" soup)))
        as [E | [Hs _]]; [now left | now right].
Qed.

End LookupFacts.

(* ===================================================================== *)
(** * The journal table that is loaded from the disk *)
(* ===================================================================== *)

Module JournalFacts.
Import PyFacts StrFacts JournalData.

(** ** Stripped strings *)

Lemma lstrip_idem s : lstrip (lstrip s) = lstrip s.
Proof.
  induction s as [|c s IH]; [reflexivity|]. simpl.
  destruct (is_space c) eqn:E; [exact IH|]. simpl. now rewrite E.
Qed.

Lemma lstrip_snoc l c : is_space c = false -> lstrip (l ++ [c]) = lstrip l ++ [c].
Proof.
  intros Hc. induction l as [|a l IH]; simpl; [now rewrite Hc|].
  destruct (is_space a); [exact IH | reflexivity].
Qed.

Lemma lstrip_rstrip s : lstrip s = s -> lstrip (rstrip s) = rstrip s.
Proof.
  destruct s as [|c s]; [reflexivity|]. intros Hs.
  assert (Hc : is_space c = false).
  { destruct (is_space c) eqn:E; [|reflexivity]. exfalso. simpl in Hs. rewrite E in Hs.
    destruct (lstrip_split s) as (ws & _ & Hws). rewrite Hs in Hws.
    apply (f_equal (@length N)) in Hws. rewrite length_app in Hws. simpl in Hws. lia. }
  unfold rstrip. simpl rev. rewrite (lstrip_snoc _ c Hc), rev_app_distr. simpl.
  now rewrite Hc.
Qed.

Lemma strip_idem s : strip (strip s) = strip s.
Proof.
  unfold strip. rewrite (lstrip_rstrip (lstrip s) (lstrip_idem s)).
  unfold rstrip. now rewrite rev_involutive, lstrip_idem.
Qed.

(** ** One journal *)

Lemma add_journal_readable journal st :
  readable journal ->
  add_journal journal st
  = Ok (match keys_of journal with
        | [] => st
        | keys =>
            {| journal_data := fold_left (fun data k => dict_set data k (info_of journal))
                                 keys (journal_data st);
               journal_info := Some (info_of journal) |}
        end).
Proof.
  intros (d & issn & eissn & -> & Hi & He). unfold add_journal, keys_of.
  cbn [py_get bind info_of]. rewrite Hi, He. cbn [py_strip bind].
  unfold py_or. cbn [truthy List.filter].
  destruct (strip issn) as [|a i]; destruct (strip eissn) as [|b e]; reflexivity.
Qed.

Lemma add_journal_unreadable journal st :
  ~ readable journal -> exists e, add_journal journal st = Raise e.
Proof.
  intros Hn. unfold add_journal. destruct journal as [| | | | |d]; try (eexists; reflexivity).
  cbn [py_get bind].
  destruct (dict_get d (lit "issn") (VStr [])) as [| | |issn| |] eqn:Hi;
    try (eexists; reflexivity).
  cbn [py_strip bind].
  destruct (dict_get d (lit "eissn") (VStr [])) as [| | |eissn| |] eqn:He;
    try (eexists; reflexivity).
  exfalso. apply Hn. exists d, issn, eissn. auto.
Qed.

(** ** The shape of the table *)

Lemma well_formed_set data k v :
  well_formed data -> k <> [] -> strip k = k -> is_info v -> well_formed (dict_set data k v).
Proof.
  intros Hd Hk Hs Hv. induction Hd as [|[k0 v0] data H0 Hd IH]; simpl.
  - repeat constructor; assumption.
  - destruct H0 as (H1 & H2 & H3). destruct (str_eqb k0 k).
    + constructor; [|exact Hd]. auto.
    + constructor; [|exact IH]. auto.
Qed.

Lemma add_journal_well_formed journal st st' :
  add_journal journal st = Ok st' ->
  well_formed (journal_data st) -> well_formed (journal_data st').
Proof.
  unfold add_journal. destruct journal as [| | | | |d]; try discriminate. cbn [py_get bind].
  destruct (dict_get d (lit "issn") (VStr [])) as [| | |issn| |]; try discriminate.
  cbn [py_strip bind].
  destruct (dict_get d (lit "eissn") (VStr [])) as [| | |eissn| |]; try discriminate.
  cbn [py_strip bind].
  destruct (negb (truthy (py_or (VStr (strip issn)) (VStr (strip eissn))))).
  - intros E. injection E as <-. auto.
  - intros E Hd. injection E as <-. cbn [journal_data].
    assert (Hinfo : is_info
              (VDict [(lit "title", dict_get d (lit "journal") (VStr []));
                      (lit "if", dict_get d (lit "IF") (VStr (lit "N/A")));
                      (lit "jcr_quartile", dict_get d (lit "Q") (VStr (lit "N/A")));
                      (lit "cas_quartile", dict_get d (lit "B") (VStr (lit "N/A")))]))
      by (do 4 eexists; reflexivity).
    assert (H1 : well_formed
              (if truthy (VStr (strip issn))
               then dict_set (journal_data st) (strip issn)
                      (VDict [(lit "title", dict_get d (lit "journal") (VStr []));
                              (lit "if", dict_get d (lit "IF") (VStr (lit "N/A")));
                              (lit "jcr_quartile", dict_get d (lit "Q") (VStr (lit "N/A")));
                              (lit "cas_quartile", dict_get d (lit "B") (VStr (lit "N/A")))])
               else journal_data st)).
    { destruct (strip issn) as [|a i] eqn:Hi; [exact Hd|]. cbn [truthy].
      apply well_formed_set; [exact Hd | discriminate | | exact Hinfo].
      rewrite <- Hi. apply strip_idem. }
    destruct (strip eissn) as [|b e] eqn:He; [exact H1|]. cbn [truthy].
    apply well_formed_set; [exact H1 | discriminate | | exact Hinfo].
    rewrite <- He. apply strip_idem.
Qed.

Lemma add_journals_well_formed journals : forall st st',
  add_journals journals st = Ok st' ->
  well_formed (journal_data st) -> well_formed (journal_data st').
Proof.
  induction journals as [|j journals IH]; intros st st' E Hd; simpl in E.
  - injection E as <-. exact Hd.
  - destruct (add_journal j st) as [st1|] eqn:E1; [|discriminate]. simpl in E.
    apply (IH st1 st' E). now apply (add_journal_well_formed j st).
Qed.

(** Whatever the disk holds, every entry of the table that is loaded is
    stored under a key that is not empty and has no whitespace at either
    end, and is a mapping with exactly the four keys [title], [if],
    [jcr_quartile] and [cas_quartile]. *)
Theorem loaded_table_is_well_formed `{Os} (base_dir : str) :
  Forall (fun entry => fst entry <> [] /\ strip (fst entry) = fst entry /\ is_info (snd entry))
         (load_journal_data base_dir).
Proof.
  unfold load_journal_data. cbv zeta. destruct (negb (path_exists _)); [constructor|].
  destruct (read_json _) as [journal_list|]; [|constructor]. cbn [bind].
  destruct (py_iter journal_list) as [journals|]; [|constructor]. cbn [bind].
  destruct (add_journals journals _) as [st|] eqn:E; [|constructor].
  assert (Hst : well_formed (journal_data st))
    by (apply (add_journals_well_formed journals _ st E); constructor).
  destruct (_ =? 0); [|exact Hst]. destruct (journal_info st); [exact Hst | constructor].
Qed.

(** ** Looking a journal up *)

Lemma dict_get_fold_set keys v k dflt : forall data,
  dict_get (fold_left (fun data k => dict_set data k v) keys data) k dflt
  = if bool_decide (k ∈ keys) then v else dict_get data k dflt.
Proof.
  induction keys as [|k0 keys IH]; intros data; [reflexivity|]. simpl. rewrite IH.
  destruct (bool_decide (k ∈ keys)) eqn:Hin.
  - apply bool_decide_eq_true in Hin. rewrite bool_decide_eq_true_2; [reflexivity | now right].
  - apply bool_decide_eq_false in Hin. destruct (decide (k = k0)) as [->|Hne].
    + rewrite dict_get_set_eq. rewrite bool_decide_eq_true_2; [reflexivity | left].
    + rewrite dict_get_set_ne by congruence. rewrite bool_decide_eq_false_2; [reflexivity|].
      intros [?|?]%elem_of_cons; contradiction.
Qed.

Lemma add_journals_readable journals : forall st,
  Forall readable journals ->
  (journal_info st = None -> journal_data st = []) ->
  exists st',
    add_journals journals st = Ok st' /\
    (journal_info st' = None -> journal_data st' = []) /\
    forall k dflt,
      dict_get (journal_data st') k dflt
      = match last (List.filter (fun j => bool_decide (k ∈ keys_of j)) journals) with
        | Some j => info_of j
        | None => dict_get (journal_data st) k dflt
        end.
Proof.
  induction journals as [|j journals IH]; intros st Hall Hinv.
  - exists st. split; [reflexivity|]. split; [exact Hinv | reflexivity].
  - inversion Hall as [|? ? Hj Hrest]; subst. cbn [add_journals].
    rewrite (add_journal_readable j st Hj). cbn [bind].
    set (st1 := match keys_of j with [] => st | _ => _ end).
    assert (Hinv1 : journal_info st1 = None -> journal_data st1 = []).
    { unfold st1. destruct (keys_of j); [exact Hinv | discriminate]. }
    assert (Hget : forall k dflt,
               dict_get (journal_data st1) k dflt
               = if bool_decide (k ∈ keys_of j) then info_of j
                 else dict_get (journal_data st) k dflt).
    { intros k dflt. unfold st1. destruct (keys_of j) as [|k1 keys] eqn:Hk.
      - rewrite bool_decide_eq_false_2; [reflexivity | apply not_elem_of_nil].
      - cbn [journal_data]. apply dict_get_fold_set. }
    destruct (IH st1 Hrest Hinv1) as (st' & E & Hinv' & Hlook).
    exists st'. split; [exact E|]. split; [exact Hinv'|]. intros k dflt.
    rewrite Hlook, Hget. cbn [List.filter].
    destruct (bool_decide (k ∈ keys_of j)); [|reflexivity].
    rewrite last_cons. destruct (last _); reflexivity.
Qed.

(** When every journal of the file is a mapping whose [issn] and [eissn]
    are strings, looking a key up in the loaded table gives the entry of
    the last journal of the file that has this key for ISSN or for e-ISSN,
    whitespace around them apart; a key no journal has is not in the
    table. *)
Theorem journal_lookup_last_wins `{Os} (base_dir : str) (journals : list pyval)
    (k : str) (dflt : pyval) :
  let jcr_file :=
    path_join [path_join [base_dir; lit "data"; lit "journal_metrics"];
               lit "jcr_cas_ifqb.json"] in
  path_exists jcr_file = true ->
  read_json jcr_file = Ok (VList journals) ->
  Forall readable journals ->
  dict_get (load_journal_data base_dir) k dflt
  = match last (List.filter (fun j => bool_decide (k ∈ keys_of j)) journals) with
    | Some j => info_of j
    | None => dflt
    end.
Proof.
  intros jcr_file Hex Hread Hall. unfold load_journal_data. cbv zeta. fold jcr_file.
  rewrite Hex, Hread. cbn [negb bind py_iter].
  destruct (add_journals_readable journals {| journal_data := []; journal_info := None |} Hall)
    as (st & -> & Hinv & Hlook); [reflexivity|].
  assert (E : (if Z.of_nat (length (journal_data st)) mod 1000 =? 0
               then match journal_info st with
                    | Some _ => journal_data st
                    | None => []
                    end
               else journal_data st) = journal_data st).
  { destruct (_ =? 0); [|reflexivity].
    destruct (journal_info st); [reflexivity | symmetry; now apply Hinv]. }
  rewrite E. apply Hlook.
Qed.

Lemma journal_lookup_last_wins_witness :
  dict_get (load_journal_data (H := Samples.disk (Ok (VList Samples.journal_list))) (lit "/srv"))
    (lit "0028-0836") VNone
  = VDict [(lit "title", VStr (lit "Nature")); (lit "if", VStr (lit "50.5"));
           (lit "jcr_quartile", VStr (lit "Q1")); (lit "cas_quartile", VStr (lit "B1"))].
Proof.
  rewrite (journal_lookup_last_wins (H := Samples.disk (Ok (VList Samples.journal_list)))
             (lit "/srv") Samples.journal_list (lit "0028-0836") VNone eq_refl eq_refl).
  - reflexivity.
  - repeat constructor; do 3 eexists; (split; [reflexivity|]); split; reflexivity.
Defined.

(** ** A journal that cannot be read *)

Lemma add_journals_unreadable journals j : forall st,
  In j journals -> ~ readable j -> exists e, add_journals journals st = Raise e.
Proof.
  induction journals as [|j0 journals IH]; intros st Hin Hj; [contradiction|].
  cbn [add_journals]. destruct Hin as [->|Hin].
  - destruct (add_journal_unreadable j st Hj) as [e ->]. eauto.
  - destruct (add_journal j0 st) as [st1|e]; [apply (IH st1 Hin Hj) | eauto].
Qed.

(** One journal of the file that is not a mapping, or whose [issn] or
    [eissn] is not a string, and the whole table is lost: the function
    returns the empty table, whatever the other journals are.  It does so
    too when the file is missing or is not JSON. *)
Theorem unreadable_journal_empties_the_table `{Os} (base_dir : str) :
  let jcr_file :=
    path_join [path_join [base_dir; lit "data"; lit "journal_metrics"];
               lit "jcr_cas_ifqb.json"] in
  (forall journals j,
      read_json jcr_file = Ok (VList journals) ->
      In j journals -> ~ readable j ->
      load_journal_data base_dir = []) /\
  (path_exists jcr_file = false -> load_journal_data base_dir = []) /\
  (forall e, read_json jcr_file = Raise e -> load_journal_data base_dir = []).
Proof.
  intros jcr_file. unfold load_journal_data. cbv zeta. fold jcr_file.
  split; [|split].
  - intros journals j Hread Hin Hj. destruct (negb (path_exists jcr_file)); [reflexivity|].
    rewrite Hread. cbn [bind py_iter].
    now destruct (add_journals_unreadable journals j
                    {| journal_data := []; journal_info := None |} Hin Hj) as [e ->].
  - intros ->. reflexivity.
  - intros e ->. now destruct (negb (path_exists jcr_file)).
Qed.

Lemma unreadable_journal_empties_the_table_witness :
  let bad := VDict [(lit "journal", VStr (lit "Odd")); (lit "issn", VInt 1234)] in
  (~ readable bad) /\
  load_journal_data (H := Samples.disk (Ok (VList (Samples.journal_list ++ [bad]))))
    (lit "/srv") = [].
Proof.
  intros bad.
  assert (Hbad : ~ readable bad).
  { intros (d & issn & eissn & E & Hi & _). injection E as <-. discriminate Hi. }
  split; [exact Hbad|].
  apply (proj1 (unreadable_journal_empties_the_table
                  (H := Samples.disk (Ok (VList (Samples.journal_list ++ [bad])))) (lit "/srv"))
           (Samples.journal_list ++ [bad]) bad eq_refl).
  - apply in_or_app. right. now left.
  - exact Hbad.
Defined.

End JournalFacts.

(* ===================================================================== *)
(** * The manager with the three clients *)
(* ===================================================================== *)

Module FanOutFacts.
Import PyFacts Manager.

Lemma lookup_arxiv `{Lib} net journal_data :
  Registry.all_sources net journal_data !! Arxiv.get_source_name
  = Some (Registry.arxiv_source net Arxiv.new).
Proof. unfold Registry.all_sources. apply lookup_insert_eq. Qed.

Lemma lookup_pubmed `{Lib} net journal_data :
  Registry.all_sources net journal_data !! PubMed.get_source_name
  = Some (Registry.pubmed_source net (PubMed.new None)).
Proof.
  unfold Registry.all_sources. rewrite lookup_insert_ne by other_key. apply lookup_insert_eq.
Qed.

Lemma lookup_scholar `{Lib} net journal_data :
  Registry.all_sources net journal_data !! Scholar.get_source_name
  = Some (Registry.scholar_source net (Scholar.new None journal_data)).
Proof.
  unfold Registry.all_sources. rewrite !lookup_insert_ne by other_key. apply lookup_insert_eq.
Qed.

(** The manager's loop does not touch the world: it is as the sources
    that were asked left it. *)
Lemma for_sources_world {W : Type} (sources : gmap str (@client W)) query f selected :
  forall st w,
    snd (for_sources sources query f selected st w)
    = fold_left (fun w n => match sources !! n with
                            | Some c => snd (c query f w)
                            | None => w
                            end) selected w.
Proof.
  induction selected as [|n rest IH]; intros st w; [reflexivity|].
  cbn [for_sources fold_left]. unfold client in *.
  destruct (sources !! n) as [c|]; [|apply IH].
  destruct (c query f w) as [a w1]. pose proof (ManagerFacts.swallow_ok (absorb n a st)) as Hok.
  destruct (swallow (absorb n a st)) as [r st1]. simpl in Hok. subst r. apply IH.
Qed.

Lemma search_all_world {W : Type} (sources : gmap str (@client W)) query f w :
  snd (search_papers_all_sources sources query f w)
  = fold_left (fun w n => match sources !! n with
                          | Some c => snd (c query f w)
                          | None => w
                          end) (selected_sources f) w.
Proof.
  unfold search_papers_all_sources.
  rewrite <- (for_sources_world sources query f (selected_sources f)
                {| seen_paper_ids := ∅; all_papers := [] |} w).
  destruct (for_sources _ _ _ _ _ _) as [[[u|e] st] w']; reflexivity.
Qed.

(** The answers a default search merges: PubMed's, then Semantic
    Scholar's, the second search starting where the first one ended. *)
Lemma default_answers `{Lib} net journal_data query f tr :
  f_sources f = None ->
  answers (Registry.all_sources net journal_data) query f (selected_sources f) tr
  = [(PubMed.get_source_name,
      Ok (Registry.as_pyval (fst (PubMed.search_papers net (PubMed.new None) query f tr))));
     (Scholar.get_source_name,
      Ok (Registry.as_pyval
            (fst (Scholar.search_papers net (Scholar.new None journal_data) query f
                    (snd (PubMed.search_papers net (PubMed.new None) query f tr))))))].
Proof.
  intros Hf. unfold selected_sources. rewrite Hf. cbn [default_sources answers].
  change (lit "pubmed") with PubMed.get_source_name.
  change (lit "semanticscholar") with Scholar.get_source_name.
  unfold client in *. rewrite lookup_pubmed. unfold Registry.pubmed_source at 1.
  destruct (PubMed.search_papers net (PubMed.new None) query f tr) as [papers1 tr1].
  rewrite lookup_scholar. unfold Registry.scholar_source at 1. cbn [fst snd].
  destruct (Scholar.search_papers net (Scholar.new None journal_data) query f tr1)
    as [papers2 tr2].
  reflexivity.
Qed.

(** With no [sources] among the filters, a search asks PubMed, then
    Semantic Scholar, and never arXiv, although it is registered.  What
    the search does is PubMed's search followed by Semantic Scholar's,
    which starts where PubMed's ended; what it returns is the merge of
    their two answers, in this order.  The first request is PubMed's
    [esearch]; PubMed sends one or two requests, Semantic Scholar its own
    between one and three times, and no request goes to the arXiv API. *)
Theorem default_search_leaves_arxiv_out `{Lib} (net : network) (journal_data : dict)
    (query : str) (f : filters) (tr : trace) :
  f_sources f = None ->
  let pubmed := PubMed.new None in
  let scholar := Scholar.new None journal_data in
  exists new1 new2 n,
    snd (PubMed.search_papers net pubmed query f tr) = tr ++ new1 /\
    snd (Scholar.search_papers net scholar query f (tr ++ new1)) = tr ++ new1 ++ new2 /\
    search_papers_all_sources (Registry.all_sources net journal_data) query f tr
    = (Ok (all_papers
             (merge [(PubMed.get_source_name,
                      Ok (Registry.as_pyval
                            (fst (PubMed.search_papers net pubmed query f tr))));
                     (Scholar.get_source_name,
                      Ok (Registry.as_pyval
                            (fst (Scholar.search_papers net scholar query f (tr ++ new1)))))]
                    {| seen_paper_ids := ∅; all_papers := [] |})),
       tr ++ new1 ++ new2) /\
    head (requests_of new1) = Some (PubMed.search_request pubmed query f) /\
    (length (requests_of new1) <= 2)%nat /\
    requests_of new2 = repeat (Scholar.search_request scholar query f) n /\
    (1 <= n <= 3)%nat /\
    Forall (fun rq => rq_url rq <> Arxiv.base_url Arxiv.new) (requests_of (new1 ++ new2)).
Proof.
  intros Hf pubmed scholar.
  pose proof (ManagerFacts.search_all_merge (Registry.all_sources net journal_data) query f tr)
    as Hres.
  rewrite (default_answers net journal_data query f tr Hf) in Hres.
  pose proof (search_all_world (Registry.all_sources net journal_data) query f tr) as Hw.
  unfold selected_sources in Hw. rewrite Hf in Hw. cbn [default_sources fold_left] in Hw.
  change (lit "pubmed") with PubMed.get_source_name in Hw.
  change (lit "semanticscholar") with Scholar.get_source_name in Hw.
  rewrite lookup_pubmed, lookup_scholar in Hw.
  unfold Registry.pubmed_source, Registry.scholar_source in Hw.
  fold pubmed scholar in Hres, Hw.
  destruct (PubMedFacts.search_trace net pubmed query f tr) as (new1 & E1 & Hnew1).
  destruct (PubMed.search_papers net pubmed query f tr) as [papers1 tr1] eqn:Hrun1.
  cbn [fst snd] in Hw, E1, Hres. subst tr1.
  destruct (ScholarMoreFacts.scholar_search_attempts net scholar query f (tr ++ new1))
    as (new2 & E2 & Ha & Hn).
  destruct (Scholar.search_papers net scholar query f (tr ++ new1)) as [papers2 tr2] eqn:Hrun2.
  cbn [fst snd] in Hw, E2, Hres. rewrite E2 in Hw, Hrun2. clear E2 tr2.
  destruct (search_papers_all_sources _ query f tr) as [r w'] eqn:Hrun.
  cbn [fst snd] in Hres, Hw. subst r w'.
  exists new1, new2, (length (requests_of new2)). rewrite Hrun2. cbn [fst snd].
  split; [reflexivity|]. split; [now rewrite app_assoc|]. split; [now rewrite app_assoc|].
  assert (Hshape : requests_of new1 = [PubMed.search_request pubmed query f] \/
                   exists ids, requests_of new1
                               = [PubMed.search_request pubmed query f;
                                  PubMed.fetch_request pubmed ids]).
  { destruct Hnew1 as [[-> _] | (r & i & ids & _ & _ & _ & ->)]; [now left|].
    right. now exists (i :: ids). }
  split; [destruct Hshape as [-> | [ids ->]]; reflexivity|].
  split; [destruct Hshape as [-> | [ids ->]]; simpl; lia|].
  split; [apply (ScholarMoreFacts.scholar_requests_of_attempts _ _ Ha)|].
  split; [exact Hn|].
  rewrite ScholarFacts.requests_of_app. apply Forall_app. split.
  - destruct Hshape as [-> | [ids ->]]; repeat constructor; vm_compute; discriminate.
  - eapply List.Forall_impl; [|exact (ScholarFacts.attempts_requests _ new2 Ha)].
    intros rq ->. vm_compute. discriminate.
Qed.

Lemma default_search_leaves_arxiv_out_witness :
  search_papers_all_sources
    (Registry.all_sources (H := Samples.plain_lib) Samples.always_429 []) (lit "test")
    no_filters []
  = (Ok [],
     [Request (PubMed.search_request (PubMed.new None) (lit "test") no_filters);
      Request (Scholar.search_request (Scholar.new None []) (lit "test") no_filters);
      Sleep 30;
      Request (Scholar.search_request (Scholar.new None []) (lit "test") no_filters);
      Sleep 30;
      Request (Scholar.search_request (Scholar.new None []) (lit "test") no_filters);
      Sleep 30]).
Proof.
  destruct (default_search_leaves_arxiv_out (H := Samples.plain_lib) Samples.always_429 []
              (lit "test") no_filters [] eq_refl)
    as (new1 & new2 & n & H1 & H2 & H3 & _).
  rewrite H3. vm_compute in H1. subst new1.
  vm_compute in H2. injection H2 as <-. vm_compute. reflexivity.
Defined.

(** When the arXiv server answers 429 to everything, the [None] that the
    arXiv client returns makes [len(papers)] raise in the manager, which
    swallows the error: arXiv adds nothing to the merged list, three
    requests have been sent to it, and the sources selected after it are
    asked as usual. *)
Theorem arxiv_none_is_swallowed `{Lib} (net : network) (journal_data : dict)
    (query : str) (f : filters) (rest : list str) (st : state) (tr : trace)
    (search_query : str) :
  rate_limited net ->
  truthy (VStr (strip query)) = true ->
  Arxiv._build_search_query Arxiv.new query f = Ok search_query ->
  let rq := Arxiv.search_request Arxiv.new search_query f in
  absorb Arxiv.get_source_name (Ok VNone) st
  = (Raise (Exn TypeError (lit "object of type 'NoneType' has no len()")), st) /\
  for_sources (Registry.all_sources net journal_data) query f
    (Arxiv.get_source_name :: rest) st tr
  = for_sources (Registry.all_sources net journal_data) query f rest st
      (tr ++ [RateLimit; Request rq; Sleep 30; Request rq; Sleep 30; Request rq; Sleep 30]).
Proof.
  intros Hnet Hq Hb rq. split; [reflexivity|].
  cbn [for_sources]. unfold client in *. rewrite lookup_arxiv.
  unfold Registry.arxiv_source.
  rewrite (ArxivTraceFacts.search_papers_sends net Arxiv.new query f tr search_query Hq Hb).
  fold rq. rewrite (ArxivFacts.arxiv_retry_loop_429 net rq Hnet 3%nat) by (reflexivity || lia).
  cbn [repeat concat app absorb py_items swallow]. rewrite <- app_assoc. reflexivity.
Qed.

Lemma arxiv_none_is_swallowed_witness :
  rate_limited Samples.always_429 /\
  fst (search_papers_all_sources
         (Registry.all_sources (H := Samples.plain_lib) Samples.always_429 []) (lit "test")
         (Samples.select [lit "arxiv"]) [])
  = Ok [].
Proof.
  assert (H1 : rate_limited Samples.always_429) by (intros tr rq; eexists; split; reflexivity).
  split; [exact H1|]. unfold search_papers_all_sources.
  change (selected_sources (Samples.select [lit "arxiv"])) with [Arxiv.get_source_name].
  rewrite (proj2 (arxiv_none_is_swallowed (H := Samples.plain_lib) Samples.always_429 []
                    (lit "test") (Samples.select [lit "arxiv"]) [] _ []
                    (lit "(ti:test%20OR%20abs:test)") H1 eq_refl eq_refl)).
  reflexivity.
Defined.

End FanOutFacts.
